(** * Order notifier: field normaliser and notification cadence

    A shallow embedding of the TypeScript/JavaScript sources

      - [src/app/api/order/summary/route.ts]  (formatCurrency, pick,
        buildOrderSummary, GET),
      - [src/lib/order.ts]                    (safeJsonParse, fetchOrderInfo),
      - [src/app/page.tsx]                    (formatCurrency,
        buildOrderSummary, Home),
      - [next.config.ts]                      (the two mail scripts, from
        their entry points: the hourly one with a period of three runs, the
        three-hourly one with a period of two runs),

    together with the fragment of the JavaScript semantics they rely on:
    IEEE-754 binary64 numbers, ToString / ToNumber / ToBoolean on values that
    come out of [JSON.parse], [String.prototype.trim], [JSON.parse] itself,
    [Object.assign], [Number.prototype.toLocaleString] for the [zh-CN]
    locale with two fraction digits, and the text that [Intl.DateTimeFormat]
    gives for the hour in that locale.  The network, the mail transport, the
    environment and the clock are inputs.

    JavaScript strings are represented by their UTF-8 bytes. *)

From Stdlib Require Import ZArith List String Ascii Bool Lia.
Import ListNotations.

Open Scope string_scope.
Open Scope Z_scope.

(* ================================================================== *)
(** * Numbers: IEEE-754 binary64 *)
(* ================================================================== *)

Module Num.

(** A finite non-zero double is [m * 2^e] with [m] odd, so that equal doubles
    are equal terms.  Both zeros are kept apart, as JavaScript does. *)
Inductive number : Type :=
  | NaN
  | Inf (neg : bool)
  | Zero (neg : bool)
  | Fin (neg : bool) (m : positive) (e : Z).

(** Strip the trailing zero bits of a mantissa. *)
Fixpoint norm (m : positive) (e : Z) : positive * Z :=
  match m with
  | xO m' => norm m' (e + 1)
  | _ => (m, e)
  end.

(** [a / b] rounded to the nearest integer, ties to even ([0 <= a], [0 < b]). *)
Definition div_half_even (a b : Z) : Z :=
  let q := a / b in
  match 2 * (a mod b) ?= b with
  | Lt => q
  | Gt => q + 1
  | Eq => if Z.even q then q else q + 1
  end.

(** [floor (log2 (a / b))] for positive [a] and [b]. *)
Definition ilog2 (a b : Z) : Z :=
  let l := Z.log2 a - Z.log2 b in
  if (if 0 <=? l then b * 2 ^ l <=? a else b <=? a * 2 ^ (- l))
  then l else l - 1.

(** The double nearest to the rational [a / b] ([0 <= a], [0 < b]), with the
    given sign: round to nearest, ties to even, 53 bits of precision, gradual
    underflow below [2^-1022] and overflow to infinity from [2^1024 - 2^970]. *)
Definition round64 (neg : bool) (a b : Z) : number :=
  if a <=? 0 then Zero neg
  else
    let k := Z.max (ilog2 a b - 52) (-1074) in
    let n := if 0 <=? k then div_half_even a (b * 2 ^ k)
             else div_half_even (a * 2 ^ (- k)) b in
    if n =? 0 then Zero neg
    else if (971 <? k) || ((k =? 971) && (n =? 2 ^ 53)) then Inf neg
    else let (m, e) := norm (Z.to_pos n) k in Fin neg m e.

(** The double nearest to [d * 10^x] ([0 <= d]). *)
Definition of_decimal (neg : bool) (d x : Z) : number :=
  if 0 <=? x then round64 neg (d * 10 ^ x) 1 else round64 neg d (10 ^ (- x)).

Definition of_Z (n : Z) : number := round64 (n <? 0) (Z.abs n) 1.

(** The value of a finite non-zero double as a fraction. *)
Definition ratio (m : positive) (e : Z) : Z * Z :=
  if 0 <=? e then (Zpos m * 2 ^ e, 1) else (Zpos m, 2 ^ (- e)).

(** The integer a double stands for, when it stands for one. *)
Definition to_Z (x : number) : option Z :=
  match x with
  | Zero _ => Some 0
  | Fin neg m e =>
      if 0 <=? e then Some ((if neg then -1 else 1) * (Zpos m * 2 ^ e))
      else None
  | _ => None
  end.

Definition isNaN (x : number) : bool :=
  match x with NaN => true | _ => false end.

(** [x > 0] *)
Definition gt_zero (x : number) : bool :=
  match x with
  | Inf false | Fin false _ _ => true
  | _ => false
  end.

(** [x === 0]: both zeros are equal to the literal [0]. *)
Definition is_zero (x : number) : bool :=
  match x with Zero _ => true | _ => false end.

(** ToBoolean on a number. *)
Definition truthy (x : number) : bool :=
  match x with NaN | Zero _ => false | _ => true end.

(** The [%] operator (Number::remainder): the result takes the sign of the
    dividend and is exact. *)
Definition rem (x y : number) : number :=
  match x, y with
  | NaN, _ => NaN
  | _, NaN => NaN
  | Inf _, _ => NaN
  | _, Zero _ => NaN
  | _, Inf _ => x
  | Zero _, _ => x
  | Fin s1 m1 e1, Fin _ m2 e2 =>
      let e := Z.min e1 e2 in
      let r := (Zpos m1 * 2 ^ (e1 - e)) mod (Zpos m2 * 2 ^ (e2 - e)) in
      if r =? 0 then Zero s1
      else let (m, e') := norm (Z.to_pos r) e in Fin s1 m e'
  end.

(** ** Decimal digits *)

Definition digit_char (d : Z) : ascii :=
  ascii_of_nat (48 + Z.to_nat d).

Fixpoint digits_fuel (fuel : nat) (n : Z) (acc : string) : string :=
  match fuel with
  | O => acc
  | S f =>
      let acc' := String (digit_char (n mod 10)) acc in
      if n <? 10 then acc' else digits_fuel f (n / 10) acc'
  end.

(** The decimal numeral of a natural number, without leading zeros. *)
Definition decimal (n : Z) : string :=
  digits_fuel (S (Z.to_nat (Z.log2 n))) n "".

Fixpoint zeros (n : nat) : string :=
  match n with O => "" | S n' => String "0" (zeros n') end.

(** ** Number::toString, radix 10 *)

(** [a / b < 10^n] *)
Definition lt_pow10 (a b n : Z) : bool :=
  if 0 <=? n then a <? b * 10 ^ n else a * 10 ^ (- n) <? b.

Fixpoint magnitude_from (fuel : nat) (a b n : Z) : Z :=
  match fuel with
  | O => n
  | S f => if lt_pow10 a b n then n else magnitude_from f a b (n + 1)
  end.

(** The [n] with [10^(n-1) <= a / b < 10^n]. *)
Definition magnitude10 (a b : Z) : Z :=
  magnitude_from 8 a b ((Z.log2 a - Z.log2 b) * 30103 / 100000 - 2).

Fixpoint strip_zeros (fuel : nat) (s x : Z) : Z * Z :=
  match fuel with
  | O => (s, x)
  | S f => if (s mod 10 =? 0) && (0 <? s) then strip_zeros f (s / 10) (x + 1)
           else (s, x)
  end.

(** Search for the shortest digit string [s] (of [k] digits, [k] growing)
    such that [s * 10^(n-k)] reads back as the double [m * 2^e]; of the two
    neighbours of the value on the grid the closer one wins, then the even. *)
Fixpoint shortest_from (fuel : nat) (k : Z) (m : positive) (e a b n : Z)
  : Z * Z :=
  match fuel with
  | O => (0, 0)
  | S f =>
      let x := n - k in
      let num := if 0 <=? x then a else a * 10 ^ (- x) in
      let den := if 0 <=? x then b * 10 ^ x else b in
      let lo := num / den in
      let hi := lo + 1 in
      let ok c := match of_decimal false c x with
                  | Fin _ m' e' => Pos.eqb m m' && (e =? e')
                  | _ => false
                  end in
      let lo_first := match 2 * (num mod den) ?= den with
                      | Lt => true
                      | Gt => false
                      | Eq => Z.even lo
                      end in
      match ok lo, ok hi with
      | true, true => if lo_first then (lo, x) else (hi, x)
      | true, false => (lo, x)
      | false, true => (hi, x)
      | false, false => shortest_from f (k + 1) m e a b n
      end
  end.

(** The shortest decimal numeral of the double [m * 2^e], as an integer [s]
    without trailing zeros and a power of ten: [s * 10^x]. *)
Definition shortest_decimal (m : positive) (e : Z) : Z * Z :=
  let (a, b) := ratio m e in
  let (s, x) := shortest_from 17 1 m e a b (magnitude10 a b) in
  strip_zeros 400 s x.

(** The digits [s] and the decimal point position [n] of Number::toString:
    the value prints as [0.s * 10^n]. *)
Definition shortest (m : positive) (e : Z) : string * Z :=
  let (s, x) := shortest_decimal m e in
  let ds := decimal s in
  (ds, x + Z.of_nat (String.length ds)).

Definition exponent_part (n : Z) : string :=
  String "e" ((if n - 1 <? 0 then "-" else "+") ++ decimal (Z.abs (n - 1))).

Definition to_string (x : number) : string :=
  match x with
  | NaN => "NaN"
  | Inf neg => (if neg then "-" else "") ++ "Infinity"
  | Zero _ => "0"
  | Fin neg m e =>
      let (ds, n) := shortest m e in
      let k := Z.of_nat (String.length ds) in
      (if neg then "-" else "") ++
      (if (k <=? n) && (n <=? 21) then ds ++ zeros (Z.to_nat (n - k))
       else if (0 <? n) && (n <=? 21) then
         substring 0 (Z.to_nat n) ds ++ "." ++
         substring (Z.to_nat n) (Z.to_nat (k - n)) ds
       else if (-6 <? n) && (n <=? 0) then
         "0." ++ zeros (Z.to_nat (- n)) ++ ds
       else
         match ds with
         | String d "" => String d (exponent_part n)
         | String d rest => String d ("." ++ rest) ++ exponent_part n
         | "" => ""
         end)
  end.

(** ** Number.prototype.toLocaleString('zh-CN',
       { minimumFractionDigits: 2, maximumFractionDigits: 2 }) *)

(** Insert a comma before every group of three digits, counted from the
    right; the argument is the digit list in reverse. *)
Fixpoint group_rev (l : list ascii) : list ascii :=
  match l with
  | a :: b :: c :: ((_ :: _) as rest) =>
      a :: b :: c :: ","%char :: group_rev rest
  | _ => l
  end.

Definition group (ds : string) : string :=
  string_of_list_ascii
    (rev (group_rev (rev (list_ascii_of_string ds)))).

(** [s * 10^x] in hundredths, rounded half away from zero (the rounding
    mode "half-expand", the default of [Intl.NumberFormat]). *)
Definition cents (s x : Z) : Z :=
  if 0 <=? x + 2 then s * 10 ^ (x + 2)
  else (2 * s + 10 ^ (- (x + 2))) / (2 * 10 ^ (- (x + 2))).

Definition fixed2 (neg : bool) (c : Z) : string :=
  (if neg then "-" else "") ++ group (decimal (c / 100)) ++ "." ++
  String (digit_char (c mod 100 / 10))
    (String (digit_char (c mod 10)) "").

(** The digits that are rounded are those of the shortest decimal numeral of
    the double, which is how ICU, the library behind V8's [Intl], reads a
    double; the result differs from a rounding of the exact binary value only
    when that numeral has a 5 as its third decimal and nothing after it. *)
Definition toLocaleString (x : number) : string :=
  match x with
  | NaN => "NaN"
  | Inf neg => (if neg then "-" else "") ++ "∞"
  | Zero neg => fixed2 neg 0
  | Fin neg m e => let (s, x) := shortest_decimal m e in fixed2 neg (cents s x)
  end.

End Num.

(* ================================================================== *)
(** * Strings: white space, [trim], StringToNumber *)
(* ================================================================== *)

Module Str.

Definition code (c : ascii) : Z := Z.of_N (N_of_ascii c).

(** The characters of WhiteSpace and LineTerminator that take one, two and
    three bytes in UTF-8: U+0009..U+000D and U+0020; U+00A0; U+1680,
    U+2000..U+200A, U+2028, U+2029, U+202F, U+205F, U+3000 and U+FEFF. *)
Definition ws1 (c : ascii) : bool :=
  let n := code c in ((9 <=? n) && (n <=? 13)) || (n =? 32).

Definition ws2 (c1 c2 : ascii) : bool :=
  (code c1 =? 194) && (code c2 =? 160).

Definition ws3 (c1 c2 c3 : ascii) : bool :=
  let n1 := code c1 in
  let n2 := code c2 in
  let n3 := code c3 in
  ((n1 =? 225) && (n2 =? 154) && (n3 =? 128)) ||
  ((n1 =? 226) && (n2 =? 128) &&
   (((128 <=? n3) && (n3 <=? 138)) || (n3 =? 168) || (n3 =? 169) ||
    (n3 =? 175))) ||
  ((n1 =? 226) && (n2 =? 129) && (n3 =? 159)) ||
  ((n1 =? 227) && (n2 =? 128) && (n3 =? 128)) ||
  ((n1 =? 239) && (n2 =? 187) && (n3 =? 191)).

(** Drop the white space at the front of a byte list. *)
Fixpoint strip_front (l : list ascii) : list ascii :=
  match l with
  | [] => []
  | c1 :: r1 =>
      if ws1 c1 then strip_front r1
      else
        match r1 with
        | [] => l
        | c2 :: r2 =>
            if ws2 c1 c2 then strip_front r2
            else
              match r2 with
              | [] => l
              | c3 :: r3 => if ws3 c1 c2 c3 then strip_front r3 else l
              end
        end
  end.

(** Drop the white space at the front of a reversed byte list, that is, at
    the end of the string. *)
Fixpoint strip_back (l : list ascii) : list ascii :=
  match l with
  | [] => []
  | c1 :: r1 =>
      if ws1 c1 then strip_back r1
      else
        match r1 with
        | [] => l
        | c2 :: r2 =>
            if ws2 c2 c1 then strip_back r2
            else
              match r2 with
              | [] => l
              | c3 :: r3 => if ws3 c3 c2 c1 then strip_back r3 else l
              end
        end
  end.

Definition trim_list (l : list ascii) : list ascii :=
  rev (strip_back (rev (strip_front l))).

(** String.prototype.trim *)
Definition trim (s : string) : string :=
  string_of_list_ascii (trim_list (list_ascii_of_string s)).

(** ** StringToNumber *)

Definition is_digit (c : ascii) : bool :=
  (48 <=? code c) && (code c <=? 57).

(** The value of a digit in the given radix, if it is one. *)
Definition digit_value (radix : Z) (c : ascii) : option Z :=
  let n := code c in
  let v := if (48 <=? n) && (n <=? 57) then n - 48
           else if (97 <=? n) && (n <=? 102) then n - 87
           else if (65 <=? n) && (n <=? 70) then n - 55
           else 99 in
  if v <? radix then Some v else None.

(** Read a run of digits: its value, its length and what follows. *)
Fixpoint digits (radix acc len : Z) (l : list ascii) : Z * Z * list ascii :=
  match l with
  | [] => (acc, len, [])
  | c :: r =>
      match digit_value radix c with
      | Some v => digits radix (radix * acc + v) (len + 1) r
      | None => (acc, len, l)
      end
  end.

Definition is_e (c : ascii) : bool := (code c =? 101) || (code c =? 69).

(** An optional exponent part; [None] when an [e] is not followed by
    digits. *)
Definition exponent (l : list ascii) : option (Z * list ascii) :=
  match l with
  | c :: r =>
      if is_e c then
        let '(neg, r') :=
          match r with
          | "-"%char :: r' => (true, r')
          | "+"%char :: r' => (false, r')
          | _ => (false, r)
          end in
        let '(v, len, rest) := digits 10 0 0 r' in
        if len =? 0 then None else Some (if neg then - v else v, rest)
      else Some (0, l)
  | [] => Some (0, [])
  end.

(** StrUnsignedDecimalLiteral without [Infinity]: digits with an optional
    fraction and exponent, to the end of the input. *)
Definition unsigned_decimal (neg : bool) (l : list ascii) : Num.number :=
  let '(i, ilen, r) := digits 10 0 0 l in
  let '(m, flen, r') :=
    match r with
    | "."%char :: r1 =>
        let '(m, len, r2) := digits 10 i ilen r1 in (m, len - ilen, r2)
    | _ => (i, 0, r)
    end in
  if ilen + flen =? 0 then Num.NaN
  else
    match exponent r' with
    | Some (x, []) => Num.of_decimal neg m (x - flen)
    | _ => Num.NaN
    end.

Definition infinity_chars : list ascii := list_ascii_of_string "Infinity".

Definition list_eqb (a b : list ascii) : bool :=
  String.eqb (string_of_list_ascii a) (string_of_list_ascii b).

Definition signed_decimal (neg : bool) (l : list ascii) : Num.number :=
  if list_eqb l infinity_chars then Num.Inf neg else unsigned_decimal neg l.

(** NonDecimalIntegerLiteral: all of [l] is digits of the radix. *)
Definition radix_literal (radix : Z) (l : list ascii) : Num.number :=
  match digits radix 0 0 l with
  | (v, len, []) => if len =? 0 then Num.NaN else Num.round64 false v 1
  | _ => Num.NaN
  end.

(** StringToNumber: what [Number(s)] is for a string [s]. *)
Definition to_number (s : string) : Num.number :=
  match trim_list (list_ascii_of_string s) with
  | [] => Num.Zero false
  | "-"%char :: r => signed_decimal true r
  | "+"%char :: r => signed_decimal false r
  | "0"%char :: c :: r =>
      if (code c =? 120) || (code c =? 88) then radix_literal 16 r
      else if (code c =? 111) || (code c =? 79) then radix_literal 8 r
      else if (code c =? 98) || (code c =? 66) then radix_literal 2 r
      else signed_decimal false ("0"%char :: c :: r)
  | l => signed_decimal false l
  end.

End Str.

(* ================================================================== *)
(** * Values, conversions and property access *)
(* ================================================================== *)

(** The outcome of an expression that may throw.  The only exception the
    modelled code can raise on values that come out of [JSON.parse] is the
    [TypeError] of a failed conversion to a primitive. *)
Inductive result (A : Type) : Type :=
  | Ok (a : A)
  | TypeError.

Arguments Ok {A} a.
Arguments TypeError {A}.

Definition bind {A B : Type} (r : result A) (f : A -> result B) : result B :=
  match r with
  | Ok a => f a
  | TypeError => TypeError
  end.

Notation "x <- r ;; k" := (bind r (fun x => k))
  (at level 61, r at next level, right associativity).

Module Js.

(** What a program can hold after [res.json()] or [JSON.parse]: the JSON
    values, and [undefined] for what is absent.  An object is the list of its
    own properties; a lookup takes the first binding of a key. *)
#[warning="-register-all"]
Inductive value : Type :=
  | VUndefined
  | VNull
  | VBool (b : bool)
  | VNum (n : Num.number)
  | VStr (s : string)
  | VArr (l : list value)
  | VObj (kvs : list (string * value)).

Fixpoint lookup (kvs : list (string * value)) (k : string) : option value :=
  match kvs with
  | [] => None
  | (k', v) :: rest => if String.eqb k' k then Some v else lookup rest k
  end.

(** [v?.k] for the property names the program reads, none of which is a
    member of a built-in prototype: the own property of an object,
    [undefined] on anything else. *)
Definition get (v : value) (k : string) : value :=
  match v with
  | VObj kvs => match lookup kvs k with Some x => x | None => VUndefined end
  | _ => VUndefined
  end.

(** ToBoolean *)
Definition truthy (v : value) : bool :=
  match v with
  | VUndefined | VNull => false
  | VBool b => b
  | VNum n => Num.truthy n
  | VStr s => negb (String.eqb s "")
  | VArr _ | VObj _ => true
  end.

(** [a || b] *)
Definition or (a b : value) : value := if truthy a then a else b.

(** [a ?? b] *)
Definition coalesce (a b : value) : value :=
  match a with
  | VUndefined | VNull => b
  | _ => a
  end.

(** ToString.  A plain object prints through [Object.prototype.toString]
    unless it has an own property [toString]: that one, a JSON value, is not
    callable, the inherited [valueOf] returns the object itself, and
    OrdinaryToPrimitive throws.  An array prints through [join]. *)
Fixpoint to_string (v : value) : result string :=
  match v with
  | VUndefined => Ok "undefined"
  | VNull => Ok "null"
  | VBool b => Ok (if b then "true" else "false")
  | VNum n => Ok (Num.to_string n)
  | VStr s => Ok s
  | VArr l =>
      (fix join (l : list value) : result string :=
         match l with
         | [] => Ok ""
         | x :: r =>
             e <- match x with
                  | VUndefined | VNull => Ok ""
                  | _ => to_string x
                  end ;;
             match r with
             | [] => Ok e
             | _ => t <- join r ;; Ok (e ++ "," ++ t)
             end
         end) l
  | VObj kvs =>
      match lookup kvs "toString" with
      | Some _ => TypeError
      | None => Ok "[object Object]"
      end
  end.

(** [Array.prototype.join]: [null] and [undefined] elements print as the
    empty string. *)
Fixpoint join (sep : string) (l : list value) : result string :=
  match l with
  | [] => Ok ""
  | x :: r =>
      e <- match x with
           | VUndefined | VNull => Ok ""
           | _ => to_string x
           end ;;
      match r with
      | [] => Ok e
      | _ => t <- join sep r ;; Ok (e ++ sep ++ t)
      end
  end.

(** ToNumber: an array or object goes through ToPrimitive, which for JSON
    values is the string of [to_string]. *)
Definition to_number (v : value) : result Num.number :=
  match v with
  | VUndefined => Ok Num.NaN
  | VNull => Ok (Num.Zero false)
  | VBool b => Ok (if b then Num.of_Z 1 else Num.Zero false)
  | VNum n => Ok n
  | VStr s => Ok (Str.to_number s)
  | VArr _ | VObj _ => s <- to_string v ;; Ok (Str.to_number s)
  end.

(** [v === null] and [v === undefined] *)
Definition is_null (v : value) : bool :=
  match v with VNull => true | _ => false end.

Definition is_undefined (v : value) : bool :=
  match v with VUndefined => true | _ => false end.

(** [typeof v === 'string'] *)
Definition is_string (v : value) : bool :=
  match v with VStr _ => true | _ => false end.

(** [v === ''] *)
Definition is_empty_string (v : value) : bool :=
  match v with VStr "" => true | _ => false end.

End Js.

(* ================================================================== *)
(** * JSON.parse *)
(* ================================================================== *)

Module Json.

Import Js.

Definition is_ws (c : ascii) : bool :=
  let n := Str.code c in (n =? 32) || (n =? 9) || (n =? 10) || (n =? 13).

Fixpoint skip_ws (l : list ascii) : list ascii :=
  match l with
  | c :: r => if is_ws c then skip_ws r else l
  | [] => []
  end.

Definition byte (n : Z) : ascii := ascii_of_N (Z.to_N n).

(** UTF-8 (generalised to lone surrogates) of a code point. *)
Definition utf8 (cp : Z) : list ascii :=
  if cp <? 128 then [byte cp]
  else if cp <? 2048 then [byte (192 + cp / 64); byte (128 + cp mod 64)]
  else if cp <? 65536 then
    [byte (224 + cp / 4096); byte (128 + cp / 64 mod 64);
     byte (128 + cp mod 64)]
  else
    [byte (240 + cp / 262144); byte (128 + cp / 4096 mod 64);
     byte (128 + cp / 64 mod 64); byte (128 + cp mod 64)].

(** Four hexadecimal digits. *)
Definition hex4 (l : list ascii) : option (Z * list ascii) :=
  match l with
  | a :: b :: c :: d :: r =>
      match Str.digit_value 16 a, Str.digit_value 16 b,
            Str.digit_value 16 c, Str.digit_value 16 d with
      | Some x, Some y, Some z, Some w =>
          Some (((x * 16 + y) * 16 + z) * 16 + w, r)
      | _, _, _, _ => None
      end
  | _ => None
  end.

(** A [\uXXXX] escape whose [\u] has been read; a high surrogate takes the
    low surrogate escape that follows it. *)
Definition unicode_escape (l : list ascii) : option (list ascii * list ascii) :=
  match hex4 l with
  | None => None
  | Some (hi, r) =>
      let single := Some (utf8 hi, r) in
      if (55296 <=? hi) && (hi <=? 56319) then
        match r with
        | "\"%char :: "u"%char :: r' =>
            match hex4 r' with
            | Some (lo, r'') =>
                if (56320 <=? lo) && (lo <=? 57343) then
                  Some (utf8 (65536 + (hi - 55296) * 1024 + (lo - 56320)),
                        r'')
                else single
            | None => single
            end
        | _ => single
        end
      else single
  end.

(** The characters of a string literal after its opening quote. *)
Fixpoint string_body (fuel : nat) (l acc : list ascii)
  : option (string * list ascii) :=
  match fuel with
  | O => None
  | S f =>
      match l with
      | [] => None
      | c :: r =>
          if Str.code c =? 34 then Some (string_of_list_ascii (rev acc), r)
          else if Str.code c =? 92 then
            match r with
            | [] => None
            | e :: r' =>
                let n := Str.code e in
                let plain b := string_body f r' (byte b :: acc) in
                if n =? 34 then plain 34
                else if n =? 92 then plain 92
                else if n =? 47 then plain 47
                else if n =? 98 then plain 8
                else if n =? 102 then plain 12
                else if n =? 110 then plain 10
                else if n =? 114 then plain 13
                else if n =? 116 then plain 9
                else if n =? 117 then
                  match unicode_escape r' with
                  | Some (bytes, r'') => string_body f r'' (rev bytes ++ acc)
                  | None => None
                  end
                else None
            end
          else if Str.code c <? 32 then None
          else string_body f r (c :: acc)
      end
  end.

(** A JSON number: an optional minus sign, an integer part without a leading
    zero (unless it is the single digit zero), an optional fraction of at
    least one digit and an optional exponent. *)
Definition number (l : list ascii) : option (Num.number * list ascii) :=
  let '(neg, l1) := match l with
                    | "-"%char :: r => (true, r)
                    | _ => (false, l)
                    end in
  let '(i, ilen, r) := Str.digits 10 0 0 l1 in
  let leading_zero := match l1 with
                      | "0"%char :: _ => 1 <? ilen
                      | _ => false
                      end in
  if (ilen =? 0) || leading_zero then None
  else
    let frac :=
      match r with
      | "."%char :: r1 =>
          let '(m, len, r2) := Str.digits 10 i ilen r1 in
          if len =? ilen then None else Some (m, len - ilen, r2)
      | _ => Some (i, 0, r)
      end in
    match frac with
    | None => None
    | Some (m, flen, r') =>
        match Str.exponent r' with
        | Some (x, rest) => Some (Num.of_decimal neg m (x - flen), rest)
        | None => None
        end
    end.

Fixpoint prefix (p l : list ascii) : option (list ascii) :=
  match p, l with
  | [], _ => Some l
  | a :: p', b :: l' => if Ascii.eqb a b then prefix p' l' else None
  | _ :: _, [] => None
  end.

(** CreateDataProperty: a repeated key overwrites the earlier value. *)
Fixpoint set (kvs : list (string * value)) (k : string) (v : value)
  : list (string * value) :=
  match kvs with
  | [] => [(k, v)]
  | (k', v') :: rest =>
      if String.eqb k' k then (k', v) :: rest else (k', v') :: set rest k v
  end.

Fixpoint parse_value (fuel : nat) (l : list ascii)
  : option (value * list ascii) :=
  match fuel with
  | O => None
  | S f =>
      match skip_ws l with
      | [] => None
      | c :: r =>
          let n := Str.code c in
          if n =? 110 then
            option_map (pair VNull) (prefix (list_ascii_of_string "ull") r)
          else if n =? 116 then
            option_map (pair (VBool true))
              (prefix (list_ascii_of_string "rue") r)
          else if n =? 102 then
            option_map (pair (VBool false))
              (prefix (list_ascii_of_string "alse") r)
          else if n =? 34 then
            match string_body (S (List.length r)) r [] with
            | Some (s, rest) => Some (VStr s, rest)
            | None => None
            end
          else if n =? 91 then
            match skip_ws r with
            | "]"%char :: rest => Some (VArr [], rest)
            | _ =>
                match parse_elements f r with
                | Some (vs, rest) => Some (VArr vs, rest)
                | None => None
                end
            end
          else if n =? 123 then
            match skip_ws r with
            | "}"%char :: rest => Some (VObj [], rest)
            | _ =>
                match parse_members f r [] with
                | Some (kvs, rest) => Some (VObj kvs, rest)
                | None => None
                end
            end
          else
            match number (c :: r) with
            | Some (x, rest) => Some (VNum x, rest)
            | None => None
            end
      end
  end

with parse_elements (fuel : nat) (l : list ascii)
  : option (list value * list ascii) :=
  match fuel with
  | O => None
  | S f =>
      match parse_value f l with
      | None => None
      | Some (v, r) =>
          match skip_ws r with
          | "]"%char :: rest => Some ([v], rest)
          | ","%char :: rest =>
              match parse_elements f rest with
              | Some (vs, rest') => Some (v :: vs, rest')
              | None => None
              end
          | _ => None
          end
      end
  end

with parse_members (fuel : nat) (l : list ascii) (acc : list (string * value))
  : option (list (string * value) * list ascii) :=
  match fuel with
  | O => None
  | S f =>
      match skip_ws l with
      | c :: r =>
          match (if Str.code c =? 34
                 then string_body (S (List.length r)) r [] else None) with
          | None => None
          | Some (k, r1) =>
              match skip_ws r1 with
              | ":"%char :: r2 =>
                  match parse_value f r2 with
                  | None => None
                  | Some (v, r3) =>
                      let acc' := set acc k v in
                      match skip_ws r3 with
                      | "}"%char :: rest => Some (acc', rest)
                      | ","%char :: rest => parse_members f rest acc'
                      | _ => None
                      end
                  end
              | _ => None
              end
          end
      | _ => None
      end
  end.

(** [JSON.parse(s)]: [None] stands for the SyntaxError. *)
Definition parse (s : string) : option value :=
  let l := list_ascii_of_string s in
  match parse_value (2 * List.length l + 2) l with
  | Some (v, rest) => match skip_ws rest with [] => Some v | _ => None end
  | None => None
  end.

(** JSON text is written below with an apostrophe where the text has a
    double quote. *)
Definition quoted (s : string) : string :=
  string_of_list_ascii
    (map (fun c => if Str.code c =? 39 then byte 34 else c)
       (list_ascii_of_string s)).

End Json.


(* ================================================================== *)
(** * src/app/api/order/summary/route.ts *)
(* ================================================================== *)

Module Route.

Import Js.

Definition formatCurrency (amount : value) : result string :=
  if is_null amount || is_undefined amount || is_empty_string amount
  then Ok "--"
  else
    n <- to_number amount ;;
    if Num.isNaN n then to_string amount
    else Ok ("¥" ++ Num.toLocaleString n).

Fixpoint pick (candidates : list value) : value :=
  match candidates with
  | [] => VStr "--"
  | v :: rest =>
      if negb (is_null v) && negb (is_undefined v) &&
         negb (is_empty_string v)
      then v else pick rest
  end.

(** The clock is an input: [now] is what
    [new Date().toLocaleString('zh-CN', { hour12: false, timeZone:
    'Asia/Shanghai' })] returns at the time of the call. *)
Definition formatRequestTime (now : string) : string := now.

Record OrderSummary : Type := {
  requestTime : value;
  orderNo : value;
  businessOrderNo : value;
  orderDate : value;
  payDate : value;
  buyerName : value;
  buyerTel : value;
  buyerIdNo : value;
  cityName : value;
  dealerName : value;
  vehicleModel : value;
  vehicleVersion : value;
  colorName : value;
  retailPrice : value;
  vehicleVin : value;
  configurationFullName : value;
  configurationRetailPrice : value
}.

(** The expression bound to [sku] in [buildOrderSummary]:
    [typeof skuRaw === 'string'
       ? (() => { try { return JSON.parse(skuRaw) } catch { return {} } })()
       : (skuRaw || {})] *)
Definition skuOf (skuRaw : value) : value :=
  match skuRaw with
  | VStr text =>
      match Json.parse text with
      | Some parsed => parsed
      | None => VObj []
      end
  | _ => or skuRaw (VObj [])
  end.

Definition buildOrderSummary (now : string) (data : value)
  : result OrderSummary :=
  let skuRaw := get data "skuDetail" in
  let sku := skuOf skuRaw in
  province <- to_string (or (get data "buyerProvinceName") (VStr "")) ;;
  city <- to_string (or (get data "buyerCityName") (VStr "")) ;;
  exterior <- to_string (or (get data "exteriorColor") (VStr "--")) ;;
  interior <- to_string (or (get data "interiorColor") (VStr "--")) ;;
  price <- formatCurrency (pick [get data "retailPrice"; get data "price"]) ;;
  configurationPrice <-
    formatCurrency
      (pick [get sku "configurationRetailPrice";
             get (get sku "materialConfig") "totalPrice"]) ;;
  Ok {|
    requestTime := VStr (formatRequestTime now);
    orderNo := pick [get data "orderNo"; get data "orderSn"];
    businessOrderNo :=
      pick [get data "businessOrderNo"; get data "businessOrderSn"];
    orderDate := pick [get data "orderDate"; get data "orderTime"];
    payDate := pick [get data "payDate"; get data "payTime"];
    buyerName := pick [get data "buyerName"; get data "realName"];
    buyerTel := pick [get data "buyerTel"; get data "mobile"];
    buyerIdNo := pick [get data "buyerIdNo"; get data "idNo"];
    cityName :=
      pick [VStr (Str.trim (province ++ " " ++ city)); get data "cityName"];
    dealerName :=
      pick [get data "dealerFullName"; get data "dealerName";
            get data "storeName"];
    vehicleModel := pick [get data "vehicleModel"; get data "carSeriesName"];
    vehicleVersion :=
      pick [get data "vehicleVersion"; get data "carTypeName"];
    colorName :=
      pick [VStr (exterior ++ " / " ++ interior); get data "colorName"];
    retailPrice := VStr price;
    vehicleVin := coalesce (get data "vehicleVin") (VStr "--");
    configurationFullName :=
      pick [get sku "configurationFullName";
            get (get sku "materialConfig") "fullName"];
    configurationRetailPrice := VStr configurationPrice
  |}.

(** What [fetchOrderInfo] resolves to, or the message of the error it
    rejects with. *)
Inductive fetched : Type :=
  | Payload (payload : value)
  | Rejected (message : string).

Inductive response : Type :=
  | Json200 (hasVin : bool) (summary : OrderSummary)
  | Json500 (error : string).

(** [err?.message || '请求失败'] *)
Definition error_text (message : string) : string :=
  if String.eqb message "" then "请求失败" else message.

(** The message of the TypeError of a failed conversion (as V8 words it). *)
Definition type_error_message : string :=
  "Cannot convert object to primitive value".

Definition GET (now : string) (f : fetched) : response :=
  match f with
  | Rejected message => Json500 (error_text message)
  | Payload payload =>
      let data := coalesce (get payload "data") payload in
      match buildOrderSummary now data with
      | Ok summary =>
          let hasVin := truthy (get data "vehicleVin") in
          Json200 hasVin summary
      | TypeError => Json500 (error_text type_error_message)
      end
  end.

End Route.

(* ================================================================== *)
(** * src/lib/order.ts and src/app/page.tsx *)
(* ================================================================== *)

Module Page.

Import Js.

(** [safeJsonParse] of src/lib/order.ts: [JSON.parse] converts its argument
    to a string first, and an exception of either step is caught. *)
Definition safeJsonParse (text : value) : value :=
  if negb (truthy text) then VNull
  else
    match to_string text with
    | Ok s => match Json.parse s with Some v => v | None => VNull end
    | TypeError => VNull
    end.

Definition formatCurrency (amount : value) : result string :=
  if is_null amount || is_undefined amount then Ok "--"
  else t <- to_string amount ;; Ok ("¥" ++ t).

Definition formatRequestTime (now : string) : string := now.

Definition buildOrderSummary (now : string) (data : value)
  : result (list (string * value)) :=
  provinceCity <-
    join " "
      (filter truthy
         [get data "buyerProvinceName"; get data "buyerCityName"]) ;;
  let dealer :=
    or (or (get data "dealerFullName") (get data "dealerName")) (VStr "--") in
  let sku := safeJsonParse (coalesce (get data "skuDetail") VNull) in
  exterior <- to_string (coalesce (get data "exteriorColor") (VStr "--")) ;;
  interior <- to_string (coalesce (get data "interiorColor") (VStr "--")) ;;
  price <-
    formatCurrency
      (coalesce (coalesce (get data "retailPrice") (get data "price"))
         VNull) ;;
  configurationPrice <-
    formatCurrency
      (coalesce (get (get sku "materialConfig") "totalPrice") VNull) ;;
  Ok [ ("请求时间", VStr (formatRequestTime now));
       ("订单号", or (get data "orderNo") (VStr "--"));
       ("商业订单号", or (get data "businessOrderNo") (VStr "--"));
       ("下单时间", or (get data "orderDate") (VStr "--"));
       ("支付时间", or (get data "payDate") (VStr "--"));
       ("姓名", or (get data "buyerName") (VStr "--"));
       ("手机号", or (get data "buyerTel") (VStr "--"));
       ("证件号", or (get data "buyerIdNo") (VStr "--"));
       ("所在城市", or (VStr provinceCity) (VStr "--"));
       ("购车门店", dealer);
       ("车型", or (get data "vehicleModel") (VStr "--"));
       ("版本/车款", or (get data "vehicleVersion") (VStr "--"));
       ("颜色", VStr (exterior ++ " / " ++ interior));
       ("统一零售价", VStr price);
       ("VIN", or (get data "vehicleVin") (VStr "--"));
       ("配置全称",
        or (get (get sku "materialConfig") "fullName") (VStr "--"));
       ("配置零售价", VStr configurationPrice) ].

End Page.

(* ================================================================== *)
(** * next.config.ts: the two mail scripts *)
(* ================================================================== *)

(** A number below 100 as two decimal digits. *)
Definition two_digits (h : Z) : string :=
  String (Num.digit_char (h / 10)) (String (Num.digit_char (h mod 10)) "").

(** What the two scripts have word for word in common. *)
Module Script.

Import Js.

Definition formatCurrency (amount : value) : result string :=
  if is_null amount || is_undefined amount || is_empty_string amount
  then Ok "--"
  else
    n <- to_number amount ;;
    if Num.isNaN n then to_string amount
    else Ok ("¥" ++ Num.toLocaleString n).

Definition safeJsonParse (text : value) : value :=
  if negb (truthy text) || negb (is_string text) then VNull
  else
    match text with
    | VStr s => match Json.parse s with Some v => v | None => VNull end
    | _ => VNull
    end.

Fixpoint pick (candidates : list value) : value :=
  match candidates with
  | [] => VStr "--"
  | v :: rest =>
      if negb (is_null v) && negb (is_undefined v) &&
         negb (is_empty_string v)
      then v else pick rest
  end.

Definition formatRequestTime (now : string) : string := now.

Definition newline : string := String (ascii_of_nat 10) "".

(** [parts.join('\n')] on an array of strings. *)
Fixpoint join_lines (parts : list string) : string :=
  match parts with
  | [] => ""
  | [p] => p
  | p :: rest => p ++ newline ++ join_lines rest
  end.

(** [line = (k, v) => `${k}: ${v ?? '--'}`] *)
Definition line (k : string) (v : value) : result string :=
  t <- to_string (coalesce v (VStr "--")) ;; Ok (k ++ ": " ++ t).

(** The array [parts] of [buildOrderSummaryText]. *)
Definition summaryParts (now : string) (data : value)
  : result (list string) :=
  let skuRaw := get data "skuDetail" in
  let skuObj :=
    if is_string skuRaw then or (safeJsonParse skuRaw) (VObj [])
    else or skuRaw (VObj []) in
  l1 <- line "请求时间" (VStr (formatRequestTime now)) ;;
  l2 <- line "VIN" (get data "vehicleVin") ;;
  l3 <- line "订单号" (pick [get data "orderNo"; get data "orderSn"]) ;;
  l4 <- line "商业订单号"
          (pick [get data "businessOrderNo"; get data "businessOrderSn"]) ;;
  l5 <- line "下单时间" (pick [get data "orderDate"; get data "orderTime"]) ;;
  l6 <- line "支付时间" (pick [get data "payDate"; get data "payTime"]) ;;
  l7 <- line "姓名" (pick [get data "buyerName"; get data "realName"]) ;;
  l8 <- line "手机号" (pick [get data "buyerTel"; get data "mobile"]) ;;
  l9 <- line "证件号" (pick [get data "buyerIdNo"; get data "idNo"]) ;;
  province <- to_string (or (get data "buyerProvinceName") (VStr "")) ;;
  city <- to_string (or (get data "buyerCityName") (VStr "")) ;;
  l10 <- line "所在城市"
           (pick [VStr (Str.trim (province ++ " " ++ city));
                  get data "cityName"]) ;;
  l11 <- line "购车门店"
           (pick [get data "dealerFullName"; get data "dealerName";
                  get data "storeName"]) ;;
  l12 <- line "车型"
           (pick [get data "vehicleModel"; get data "carSeriesName"]) ;;
  l13 <- line "版本/车款"
           (pick [get data "vehicleVersion"; get data "carTypeName"]) ;;
  exterior <- to_string (or (get data "exteriorColor") (VStr "--")) ;;
  interior <- to_string (or (get data "interiorColor") (VStr "--")) ;;
  l14 <- line "颜色"
           (pick [VStr (exterior ++ " / " ++ interior);
                  get data "colorName"]) ;;
  price <- formatCurrency (pick [get data "retailPrice"; get data "price"]) ;;
  l15 <- line "统一零售价" (VStr price) ;;
  Ok [l1; l2; l3; l4; l5; l6; l7; l8; l9; l10; l11; l12; l13; l14; l15].

Definition buildOrderSummaryText (now : string) (data : value)
  : result string :=
  parts <- summaryParts now data ;; Ok (join_lines parts).

(** What a run decides: to mail a subject and a body, or to stay silent.
    ([sendEmail] itself does nothing when SMTP is not configured.) *)
Inductive decision : Type :=
  | Send (subject text : string)
  | Skip.

(** What a run reads from its surroundings: the environment variable
    [GITHUB_RUN_NUMBER] ([None] when it is not set), the hour of the day,
    0 to 23, that the clock shows in the time zone Asia/Shanghai, and the
    request time text. *)
Record surroundings : Type := {
  GITHUB_RUN_NUMBER : option string;
  hour : Z;
  requestTime : string
}.

End Script.

(** The script that runs every hour: a summary every third run. *)
Module Hourly.

Import Js Script.

(** [new Intl.DateTimeFormat('zh-CN', { hour: '2-digit', hour12: false,
    timeZone: 'Asia/Shanghai' }).format(now)]: for the hour alone the zh-CN
    pattern of ICU, the library behind V8's [Intl], is [HH时], so that the
    text is the two digits of the hour followed by the character 时
    (U+65F6): ["09时"] at nine o'clock. *)
Definition fmt_format (h : Z) : string := two_digits h ++ "时".

Definition getBeijingHour (w : surroundings) : Num.number :=
  let hourStr := fmt_format (hour w) in
  Str.to_number hourStr.

Definition shouldSendSummaryByCycle (w : surroundings) : bool :=
  let runStr := GITHUB_RUN_NUMBER w in
  let runNum :=
    match runStr with
    | Some s => if String.eqb s "" then Num.NaN else Str.to_number s
    | None => Num.NaN
    end in
  if negb (Num.isNaN runNum) && Num.gt_zero runNum then
    Num.is_zero (Num.rem runNum (Num.of_Z 3))
  else
    let hour := getBeijingHour w in
    Num.is_zero (Num.rem hour (Num.of_Z 3)).

(** [main] after [fetchOrderJson] has resolved to [payload]. *)
Definition main (w : surroundings) (payload : value) : result decision :=
  let data := or (get payload "data") payload in
  let vin := get data "vehicleVin" in
  summaryText <- buildOrderSummaryText (requestTime w) data ;;
  if truthy vin then
    v <- to_string vin ;;
    Ok (Send ("VIN生成通知：" ++ v) summaryText)
  else if shouldSendSummaryByCycle w then
    Ok (Send "订单进度提醒：暂未生成VIN" summaryText)
  else Ok Skip.

End Hourly.

(** The script that runs every three hours: a summary every second run. *)
Module ThreeHourly.

Import Js Script.

(** [Number(process.env.GITHUB_RUN_NUMBER || 0) || 0] *)
Definition runNumber (w : surroundings) : Num.number :=
  let n :=
    match GITHUB_RUN_NUMBER w with
    | Some s => if String.eqb s "" then Num.Zero false else Str.to_number s
    | None => Num.Zero false
    end in
  if Num.truthy n then n else Num.Zero false.

Definition main (w : surroundings) (payload : value) : result decision :=
  let runNumber := runNumber w in
  let data := or (get payload "data") payload in
  let vin := get data "vehicleVin" in
  summaryText <- buildOrderSummaryText (requestTime w) data ;;
  if truthy vin then
    v <- to_string vin ;;
    Ok (Send ("VIN生成通知：" ++ v) summaryText)
  else if Num.is_zero (Num.rem runNumber (Num.of_Z 2)) then
    Ok (Send "订单进度提醒：暂未生成VIN" summaryText)
  else Ok Skip.

End ThreeHourly.

(* ================================================================== *)
(** * What a run does to the outside: requests, mails, console lines *)
(* ================================================================== *)

Module Sys.

Import Js.

(** A thrown [Error] (or the rejection of a promise), by its message. *)
Inductive failure : Type :=
  | Failure (message : string).

Definition message (e : failure) : string :=
  match e with Failure m => m end.

(** An HTTP response that has arrived: its status and its body as text. *)
Record reply : Type := {
  status : Z;
  body : string
}.

(** [res.ok] *)
Definition ok (r : reply) : bool := (200 <=? status r) && (status r <=? 299).

(** What [nodemailer.createTransport] is given. *)
Record transporter : Type := {
  host : string;
  port : Num.number;
  secure : bool;
  user : string;
  pass : string
}.

(** What [transporter.sendMail] is given ([html] is never passed). *)
Record mail : Type := {
  via : transporter;
  from : string;
  to : string;
  subject : string;
  text : string
}.

Inductive event : Type :=
  | Requested (url : string) (headers : list (string * value))
  | Mailed (m : mail)
  | Logged (line : string)
  | Warned (line : string)
  | Errored (line : string) (e : failure)
  | Exited (code : Z).

(** What a run finds around it: the environment variables, what [fetch]
    does with a GET request, what [sendMail] does with a mail ([None]: it
    resolves), and the two readings of the clock: the hour of the day in
    Asia/Shanghai and the request time text. *)
Record world : Type := {
  env : string -> option string;
  fetch : string -> list (string * value) -> failure + reply;
  sendMail : mail -> option failure;
  hour : Z;
  now : string
}.

(** [process.env.NAME] where the code tests it for truth: an unset and an
    empty variable count the same. *)
Definition setting (w : world) (name : string) : option string :=
  match env w name with
  | Some s => if String.eqb s "" then None else Some s
  | None => None
  end.

(** The result of a computation that may throw. *)
Inductive outcome (A : Type) : Type :=
  | Returned (a : A)
  | Threw (e : failure).

Arguments Returned {A} a.
Arguments Threw {A} e.

(** A computation: the events it causes, in order, and how it ends. *)
Definition eff (A : Type) : Type := list event * outcome A.

Definition ret {A : Type} (a : A) : eff A := ([], Returned a).

Definition throw {A : Type} (e : failure) : eff A := ([], Threw e).

Definition emit (e : event) : eff unit := ([e], Returned tt).

Definition andThen {A B : Type} (c : eff A) (k : A -> eff B) : eff B :=
  match c with
  | (l, Returned a) => let (l', r) := k a in ((l ++ l')%list, r)
  | (l, Threw e) => (l, Threw e)
  end.

(** A conversion that throws its TypeError. *)
Definition lift {A : Type} (r : result A) : eff A :=
  match r with
  | Ok a => ret a
  | TypeError => throw (Failure Route.type_error_message)
  end.

(** The index keys of an array, from [i] on. *)
Fixpoint indexed (i : nat) (l : list value) : list (string * value) :=
  match l with
  | [] => []
  | v :: r => (Num.decimal (Z.of_nat i), v) :: indexed (S i) r
  end.

(** The UTF-16 code units of a string, each as a string of its own. *)
Fixpoint code_units (l : list ascii) : list string :=
  match l with
  | [] => []
  | c1 :: r1 =>
      let one := String c1 "" :: code_units r1 in
      if Str.code c1 <? 192 then one
      else
        match r1 with
        | [] => one
        | c2 :: r2 =>
            if Str.code c1 <? 224 then
              String c1 (String c2 "") :: code_units r2
            else
              match r2 with
              | [] => one
              | c3 :: r3 =>
                  if Str.code c1 <? 240 then
                    String c1 (String c2 (String c3 "")) :: code_units r3
                  else
                    match r3 with
                    | [] => one
                    | c4 :: r4 =>
                        let cp := (Str.code c1 - 240) * 262144 +
                                  (Str.code c2 - 128) * 4096 +
                                  (Str.code c3 - 128) * 64 +
                                  (Str.code c4 - 128) - 65536 in
                        string_of_list_ascii (Json.utf8 (55296 + cp / 1024))
                        :: string_of_list_ascii
                             (Json.utf8 (56320 + cp mod 1024))
                        :: code_units r4
                    end
              end
        end
  end.

(** The properties that the list of an object stands for: of two bindings
    of a key the first is the property. *)
Fixpoint own (kvs : list (string * value)) : list (string * value) :=
  match kvs with
  | [] => []
  | (k, v) :: rest =>
      (k, v) :: filter (fun kv => negb (String.eqb (fst kv) k)) (own rest)
  end.

(** The own enumerable properties of a value, as [Object.assign] reads
    them from its source, in the order of the list. *)
Definition properties (source : value) : list (string * value) :=
  match source with
  | VObj kvs => own kvs
  | VArr l => indexed 0 l
  | VStr s => indexed 0 (map VStr (code_units (list_ascii_of_string s)))
  | _ => []
  end.

(** [target[k] = v] on a plain object, the [[Set]] that [Object.assign]
    performs.  The key [__proto__] reaches the setter that the object
    inherits from [Object.prototype]: it changes the prototype when [v] is
    an object or [null], does nothing otherwise, and creates no property
    either way.  Any other key becomes a new own property, after the
    others, or overwrites the own property of that name. *)
Definition put (target : list (string * value)) (k : string) (v : value)
  : list (string * value) :=
  if String.eqb k "__proto__" then target else Json.set target k v.

(** [Object.assign(target, source)]: the properties of the source are put
    one after the other, in their order.  The list of the target keeps the
    order in which its properties were created; that JavaScript lists
    integer-like keys before the others is not modelled, and the headers are
    read by name. *)
Definition assign (target : list (string * value)) (source : value)
  : list (string * value) :=
  fold_left (fun t kv => put t (fst kv) (snd kv)) (properties source) target.

(** Set a header when the variable holds something. *)
Definition with_setting (w : world) (name header : string)
  (headers : list (string * value)) : list (string * value) :=
  match setting w name with
  | Some s => Json.set headers header (VStr s)
  | None => headers
  end.

End Sys.

Notation "x <~ c ;; k" := (Sys.andThen c (fun x => k))
  (at level 61, c at next level, right associativity).

Notation "c ;;; k" := (Sys.andThen c (fun _ => k))
  (at level 61, right associativity).

(** The functions of the mail scripts that reach outside; the two scripts
    have them word for word in common. *)
Module ScriptIO.

Import Js Sys.

Definition getMailTo (w : world) : string :=
  match setting w "MAIL_TO" with
  | Some s => s
  | None => "1196270151@qq.com"
  end.

(** The headers that [fetchOrderJson] sends, and the warning it prints when
    [ORDER_HEADERS_JSON] does not parse. *)
Definition requestHeaders (w : world) : eff (list (string * value)) :=
  let headers := [("content-type", VStr "application/json")] in
  let headers := with_setting w "ORDER_TOKEN" "token" headers in
  let headers := with_setting w "ORDER_BRAND_CODE" "brandCode" headers in
  let headers := with_setting w "ORDER_API_KEY" "apikey" headers in
  match setting w "ORDER_HEADERS_JSON" with
  | None => ret headers
  | Some j =>
      match Json.parse j with
      | None =>
          emit (Warned "[提示] ORDER_HEADERS_JSON 解析失败，将忽略该配置。") ;;;
          ret headers
      | Some extra =>
          if truthy extra &&
             match extra with VObj _ | VArr _ => true | _ => false end
          then ret (assign headers extra)
          else ret headers
      end
  end.

Definition fetchOrderJson (w : world) : eff value :=
  match setting w "ORDER_URL" with
  | None => throw (Failure "缺少环境变量 ORDER_URL，无法请求订单数据")
  | Some url =>
      headers <~ requestHeaders w ;;
      emit (Requested url headers) ;;;
      match fetch w url headers with
      | inl e => throw e
      | inr res =>
          if negb (ok res) then
            throw (Failure ("接口请求失败 " ++
                            Num.to_string (Num.of_Z (status res)) ++
                            ": " ++ body res))
          else
            let json := match Json.parse (body res) with
                        | Some v => v
                        | None => VNull
                        end in
            if negb (truthy json) then throw (Failure "返回非JSON或解析失败")
            else ret json
      end
  end.

(** [x === 465] on numbers. *)
Definition is_465 (x : Num.number) : bool :=
  match x with
  | Num.Fin false m e => Pos.eqb m 465 && (e =? 0)
  | _ => false
  end.

Definition createTransporter (w : world) : option transporter :=
  let host := setting w "SMTP_HOST" in
  let port := match setting w "SMTP_PORT" with
              | Some s => Some (Str.to_number s)
              | None => None
              end in
  let user := setting w "SMTP_USER" in
  let pass := setting w "SMTP_PASS" in
  match host, port, user, pass with
  | Some h, Some p, Some u, Some q =>
      if Num.truthy p then
        Some {| host := h; port := p; secure := is_465 p;
                user := u; pass := q |}
      else None
  | _, _, _, _ => None
  end.

Definition sendEmail (w : world) (subject text : string) : eff unit :=
  let transporter := createTransporter w in
  let from := setting w "MAIL_FROM" in
  let to := getMailTo w in
  match transporter, from with
  | Some t, Some f =>
      let m := {| via := t; from := f; to := to;
                  subject := subject; text := text |} in
      emit (Mailed m) ;;;
      match sendMail w m with
      | None => ret tt
      | Some e => throw e
      end
  | _, _ => emit (Logged "[提示] SMTP/发件人未配置，跳过发送邮件。")
  end.

(** What the cadence check reads. *)
Definition surroundings_of (w : world) : Script.surroundings :=
  {| Script.GITHUB_RUN_NUMBER := env w "GITHUB_RUN_NUMBER";
     Script.hour := hour w;
     Script.requestTime := now w |}.

(** [main().catch((err) => { console.error(...); process.exit(1) })] *)
Definition guarded (c : eff unit) : list event :=
  match c with
  | (l, Returned _) => l
  | (l, Threw e) =>
      (l ++ [Errored "[错误] 脚本执行失败：" e; Exited 1])%list
  end.

End ScriptIO.

(** The hourly script, from its entry point. *)
Module HourlyRun.

Import Js Sys ScriptIO.

Definition main (w : world) : eff unit :=
  payload <~ fetchOrderJson w ;;
  let data := or (get payload "data") payload in
  let vin := get data "vehicleVin" in
  summaryText <~ lift (Script.buildOrderSummaryText (now w) data) ;;
  if truthy vin then
    v <~ lift (to_string vin) ;;
    sendEmail w ("VIN生成通知：" ++ v) summaryText ;;;
    emit (Logged "[通知] 已发送 VIN 生成邮件。")
  else if Hourly.shouldSendSummaryByCycle (surroundings_of w) then
    sendEmail w "订单进度提醒：暂未生成VIN" summaryText ;;;
    emit (Logged "[提醒] 已发送周期性订单摘要邮件（每第3次）。")
  else
    emit (Logged "[提醒] 暂未生成VIN，本次不发送邮件（等待第3次）").

Definition entry (w : world) : list event := guarded (main w).

End HourlyRun.

(** The three-hourly script, from its entry point. *)
Module ThreeHourlyRun.

Import Js Sys ScriptIO.

Definition main (w : world) : eff unit :=
  let runNumber := ThreeHourly.runNumber (surroundings_of w) in
  payload <~ fetchOrderJson w ;;
  let data := or (get payload "data") payload in
  let vin := get data "vehicleVin" in
  summaryText <~ lift (Script.buildOrderSummaryText (now w) data) ;;
  if truthy vin then
    v <~ lift (to_string vin) ;;
    sendEmail w ("VIN生成通知：" ++ v) summaryText ;;;
    emit (Logged "[通知] 已发送 VIN 生成邮件。")
  else if Num.is_zero (Num.rem runNumber (Num.of_Z 2)) then
    sendEmail w "订单进度提醒：暂未生成VIN" summaryText ;;;
    emit (Logged "[提醒] 已发送周期性订单摘要邮件。")
  else
    emit (Logged "[提醒] 暂未生成VIN，本次不发送邮件").

Definition entry (w : world) : list event := guarded (main w).

End ThreeHourlyRun.

(** src/lib/order.ts: [fetchOrderInfo], and the route and the page on top
    of it. *)
Module Lib.

Import Js Sys.

Definition userAgent : string :=
  "Mozilla/5.0 (Linux; Android 16; 2509FPN0BC Build/BP2A.250605.031.A3; wv) AppleWebKit/537.36 (KHTML, like Gecko) Version/4.0 Chrome/141.0.7390.122 Mobile Safari/537.36;MG;2.1.0".

Definition requestHeaders (w : world) : list (string * value) :=
  let headers := [("Accept", VStr "application/json, text/plain, */*");
                  ("User-Agent", VStr userAgent)] in
  let headers := with_setting w "ORDER_BRAND_CODE" "brandCode" headers in
  let headers := with_setting w "ORDER_API_KEY" "apikey" headers in
  let headers := with_setting w "ORDER_TOKEN" "token" headers in
  let extraHeaders :=
    or (Page.safeJsonParse
          (match setting w "ORDER_HEADERS_JSON" with
           | Some j => VStr j
           | None => VNull
           end))
       (VObj []) in
  assign headers extraHeaders.

Section FetchOrderInfo.

(** The message of the SyntaxError that [res.json()] rejects with on a body
    that is not JSON; its wording is the engine's. *)
Variable syntaxError : string -> string.

Definition fetchOrderInfo (w : world) : eff value :=
  match setting w "ORDER_URL" with
  | None =>
      throw (Failure
               "缺少环境变量 ORDER_URL，请在 .env.local 中配置订单接口地址")
  | Some url =>
      let headers := requestHeaders w in
      emit (Requested url headers) ;;;
      match fetch w url headers with
      | inl e => throw e
      | inr res =>
          if negb (ok res) then
            throw (Failure ("请求失败，状态码：" ++
                            Num.to_string (Num.of_Z (status res))))
          else
            match Json.parse (body res) with
            | Some json => ret json
            | None => throw (Failure (syntaxError (body res)))
            end
      end
  end.

(** [GET] of route.ts, from the request to the answer. *)
Definition GET (w : world) : list event * Route.response :=
  match fetchOrderInfo w with
  | (l, Returned payload) => (l, Route.GET (now w) (Route.Payload payload))
  | (l, Threw e) => (l, Route.GET (now w) (Route.Rejected (message e)))
  end.

(** What the page of page.tsx shows. *)
Inductive section : Type :=
  | Summary (entries : list (string * value))
  | NoData.

Record view : Type := {
  image : option value;
  errorBox : option string;
  content : section
}.

(** [Home] of page.tsx. *)
Definition Home (w : world) : list event * result view :=
  let '(l, r) := fetchOrderInfo w in
  let order := match r with Returned o => o | Threw _ => VNull end in
  let errorMsg :=
    match r with
    | Returned _ => None
    | Threw e => Some (Route.error_text (message e))
    end in
  let data := coalesce (get order "data") VNull in
  let image := if truthy (get data "imgUrl")
               then Some (get data "imgUrl") else None in
  if truthy data then
    (l, entries <- Page.buildOrderSummary (now w) data ;;
        Ok {| image := image; errorBox := errorMsg;
              content := Summary entries |})
  else
    (l, Ok {| image := image; errorBox := errorMsg; content := NoData |}).

End FetchOrderInfo.

End Lib.

(* ================================================================== *)
(** * The vocabulary of the statements *)
(* ================================================================== *)

Import Js.

(** A candidate that the selection skips: [null], [undefined] or ['']. *)
Definition blank (v : value) : bool :=
  is_null v || is_undefined v || is_empty_string v.

(** The subject of the VIN notice. *)
Definition vin_subject (vin : string) : string := "VIN生成通知：" ++ vin.

(** The subject of the periodic reminder. *)
Definition reminder_subject : string := "订单进度提醒：暂未生成VIN".

(** The mantissa of a finite non-zero double is odd. *)
Definition canonical (x : Num.number) : bool :=
  match x with
  | Num.Fin _ (xO _) _ => false
  | _ => true
  end.

(** The run counter as the hourly script reads it: [NaN] when the variable
    is unset or empty. *)
Definition counter (w : Script.surroundings) : Num.number :=
  match Script.GITHUB_RUN_NUMBER w with
  | Some s => if String.eqb s "" then Num.NaN else Str.to_number s
  | None => Num.NaN
  end.

(** [x < 0] *)
Definition negative (x : Num.number) : bool :=
  match x with
  | Num.Inf true | Num.Fin true _ _ => true
  | _ => false
  end.

(** The counter is unset, empty, or its text reads as [NaN], as zero or
    as a negative number. *)
Definition malformed (w : Script.surroundings) : Prop :=
  match Script.GITHUB_RUN_NUMBER w with
  | None => True
  | Some s =>
      s = "" \/ Num.isNaN (Str.to_number s) = true \/
      Num.is_zero (Str.to_number s) = true \/
      negative (Str.to_number s) = true
  end.

(** The counter is unset, empty, or its text reads as [NaN] or as zero. *)
Definition unusable (w : Script.surroundings) : Prop :=
  match Script.GITHUB_RUN_NUMBER w with
  | None => True
  | Some s =>
      s = "" \/ Num.isNaN (Str.to_number s) = true \/
      Num.is_zero (Str.to_number s) = true
  end.

(** A decimal digit. *)
Definition digit (c : ascii) : Prop := Str.is_digit c = true.

(** The number that a list of digits spells after the digits read so far. *)
Definition spelled (acc : Z) (l : list ascii) : Z :=
  fold_left (fun a c => 10 * a + (Str.code c - 48)) l acc.

(** Digits in groups: a first group of one to three digits, then groups of
    a comma and exactly three digits. *)
Inductive Grouped : list ascii -> Prop :=
  | Grouped_first (g : list ascii) :
      (1 <= List.length g <= 3)%nat ->
      Forall (fun c => Str.is_digit c = true) g ->
      Grouped g
  | Grouped_more (s : list ascii) (a b c : ascii) :
      Grouped s ->
      Str.is_digit a = true -> Str.is_digit b = true ->
      Str.is_digit c = true ->
      Grouped (s ++ [","%char; a; b; c])%list.

(** The yen sign, an optional minus sign, the integer part in groups of
    three, a point and exactly two decimals. *)
Definition CurrencyText (s : string) : Prop :=
  exists (sign : string) (int : list ascii) (d1 d2 : ascii),
    s = "¥" ++ sign ++ string_of_list_ascii int ++ "." ++
        String d1 (String d2 "") /\
    (sign = "" \/ sign = "-") /\
    Grouped int /\
    Str.is_digit d1 = true /\ Str.is_digit d2 = true.

Definition finite (x : Num.number) : bool :=
  match x with
  | Num.Zero _ | Num.Fin _ _ _ => true
  | _ => false
  end.

(** [2^t <= a / b], for [t] of either sign. *)
Definition above_pow2 (a b t : Z) : bool :=
  if 0 <=? t then b * 2 ^ t <=? a else b <=? a * 2 ^ (- t).

(** The digits of a grouped integer part, without the commas. *)
Definition ungrouped (l : list ascii) : list ascii :=
  filter (fun c => negb (Ascii.eqb c ","%char)) l.

(** [c] is the decimal numeral [s * 10^x], which is not negative, counted in
    hundredths and rounded to the nearest hundredth, a half going up:
    [c - 1/2 <= s * 10^(x+2) < c + 1/2]. *)
Definition NearestHundredth (s x c : Z) : Prop :=
  if 0 <=? x + 2 then c = s * 10 ^ (x + 2)
  else 2 * c * 10 ^ (- (x + 2)) - 10 ^ (- (x + 2)) <= 2 * s
       /\ 2 * s < 2 * c * 10 ^ (- (x + 2)) + 10 ^ (- (x + 2)).

(** [c] is the size of the finite number [n] in hundredths: the shortest
    decimal numeral of [n], the one that [String(n)] prints, rounded to the
    nearest hundredth with a half going away from zero. *)
Definition Hundredths (n : Num.number) (c : Z) : Prop :=
  match n with
  | Num.Zero _ => c = 0
  | Num.Fin _ m e =>
      NearestHundredth (fst (Num.shortest_decimal m e))
        (snd (Num.shortest_decimal m e)) c
  | _ => False
  end.

(** The minus sign of a negative number, minus zero included. *)
Definition minus (n : Num.number) : string :=
  match n with
  | Num.Zero true | Num.Fin true _ _ => "-"
  | _ => ""
  end.

(** The currency text of [c] hundredths: the yen sign, the sign, the
    numeral of [c / 100] in groups of three, a point, and the two digits of
    [c mod 100]. *)
Definition MoneyText (sign : string) (c : Z) (t : string) : Prop :=
  exists (int : list ascii) (d1 d2 : ascii),
    t = "¥" ++ sign ++ string_of_list_ascii int ++ "." ++
        String d1 (String d2 "") /\
    Grouped int /\
    ungrouped int = list_ascii_of_string (Num.decimal (c / 100)) /\
    spelled 0 (ungrouped int) = c / 100 /\
    Str.is_digit d1 = true /\ Str.is_digit d2 = true /\
    spelled 0 [d1; d2] = c mod 100.

(** A field of the summary that [buildOrderSummary] returns. *)
Definition field (f : Route.OrderSummary -> value)
  (r : result Route.OrderSummary) : result value :=
  match r with
  | Ok s => Ok (f s)
  | TypeError => TypeError
  end.

Definition fields (s : Route.OrderSummary) : list value :=
  [Route.requestTime s; Route.orderNo s; Route.businessOrderNo s;
   Route.orderDate s; Route.payDate s; Route.buyerName s; Route.buyerTel s;
   Route.buyerIdNo s; Route.cityName s; Route.dealerName s;
   Route.vehicleModel s; Route.vehicleVersion s; Route.colorName s;
   Route.retailPrice s; Route.vehicleVin s; Route.configurationFullName s;
   Route.configurationRetailPrice s].

(** The conversion of a value to text does not throw. *)
Definition prints (v : value) : bool :=
  match to_string v with
  | Ok _ => true
  | TypeError => false
  end.

(** A string, or nothing. *)
Definition textual (v : value) : bool :=
  match v with
  | VStr _ | VNull | VUndefined => true
  | _ => false
  end.

Definition present (v : value) : bool :=
  negb (is_null v) && negb (is_undefined v).

(** The values of a record that [buildOrderSummary] turns into text. *)
Definition rendered (data : value) : list value :=
  let sku := Route.skuOf (get data "skuDetail") in
  [get data "buyerProvinceName"; get data "buyerCityName";
   get data "exteriorColor"; get data "interiorColor";
   get data "retailPrice"; get data "price";
   get sku "configurationRetailPrice";
   get (get sku "materialConfig") "totalPrice"].

(** The values of a record that [buildOrderSummary] hands over as they
    are. *)
Definition selected (data : value) : list value :=
  let sku := Route.skuOf (get data "skuDetail") in
  [get data "orderNo"; get data "orderSn";
   get data "businessOrderNo"; get data "businessOrderSn";
   get data "orderDate"; get data "orderTime";
   get data "payDate"; get data "payTime";
   get data "buyerName"; get data "realName";
   get data "buyerTel"; get data "mobile";
   get data "buyerIdNo"; get data "idNo";
   get data "cityName";
   get data "dealerFullName"; get data "dealerName"; get data "storeName";
   get data "vehicleModel"; get data "carSeriesName";
   get data "vehicleVersion"; get data "carTypeName";
   get data "vehicleVin";
   get sku "configurationFullName";
   get (get sku "materialConfig") "fullName"].

Definition space : ascii := " "%char.

(** The fields of a summary that the mail body prints, with their labels,
    in the order of the lines. *)
Definition mail_fields (s : Route.OrderSummary) : list (string * value) :=
  [("请求时间", Route.requestTime s); ("VIN", Route.vehicleVin s);
   ("订单号", Route.orderNo s); ("商业订单号", Route.businessOrderNo s);
   ("下单时间", Route.orderDate s); ("支付时间", Route.payDate s);
   ("姓名", Route.buyerName s); ("手机号", Route.buyerTel s);
   ("证件号", Route.buyerIdNo s); ("所在城市", Route.cityName s);
   ("购车门店", Route.dealerName s); ("车型", Route.vehicleModel s);
   ("版本/车款", Route.vehicleVersion s); ("颜色", Route.colorName s);
   ("统一零售价", Route.retailPrice s)].

(** The summary of a record that has none of the fields. *)
Definition placeholders (now : string) : Route.OrderSummary :=
  {| Route.requestTime := VStr now;
     Route.orderNo := VStr "--";
     Route.businessOrderNo := VStr "--";
     Route.orderDate := VStr "--";
     Route.payDate := VStr "--";
     Route.buyerName := VStr "--";
     Route.buyerTel := VStr "--";
     Route.buyerIdNo := VStr "--";
     Route.cityName := VStr "--";
     Route.dealerName := VStr "--";
     Route.vehicleModel := VStr "--";
     Route.vehicleVersion := VStr "--";
     Route.colorName := VStr "-- / --";
     Route.retailPrice := VStr "--";
     Route.vehicleVin := VStr "--";
     Route.configurationFullName := VStr "--";
     Route.configurationRetailPrice := VStr "--" |}.

(** [v === null || v === undefined] *)
Definition nullish (v : value) : bool := is_null v || is_undefined v.

(** How many of the given runs send. *)
Definition sends (runs : list bool) : nat :=
  List.length (filter (fun b => b) runs).

(** The mails, the requests and the exit codes among the events of a run. *)
Definition mails (l : list Sys.event) : list Sys.mail :=
  flat_map (fun e => match e with Sys.Mailed m => [m] | _ => [] end) l.

Definition requests (l : list Sys.event)
  : list (string * list (string * value)) :=
  flat_map (fun e => match e with
                     | Sys.Requested u h => [(u, h)]
                     | _ => []
                     end) l.

Definition exits (l : list Sys.event) : list Z :=
  flat_map (fun e => match e with Sys.Exited c => [c] | _ => [] end) l.

(** A computation that starts after the events [l]. *)
Definition after {A : Type} (l : list Sys.event) (c : Sys.eff A)
  : Sys.eff A :=
  ((l ++ fst c)%list, snd c).

(** The headers of the mail scripts before [ORDER_HEADERS_JSON] is merged
    in, by name. *)
Definition script_default (w : Sys.world) (k : string) : option value :=
  if String.eqb k "apikey" then option_map VStr (Sys.setting w "ORDER_API_KEY")
  else if String.eqb k "brandCode"
  then option_map VStr (Sys.setting w "ORDER_BRAND_CODE")
  else if String.eqb k "token"
  then option_map VStr (Sys.setting w "ORDER_TOKEN")
  else if String.eqb k "content-type" then Some (VStr "application/json")
  else None.

(** The headers of src/lib/order.ts before [ORDER_HEADERS_JSON] is merged
    in, by name. *)
Definition lib_default (w : Sys.world) (k : string) : option value :=
  if String.eqb k "token" then option_map VStr (Sys.setting w "ORDER_TOKEN")
  else if String.eqb k "apikey"
  then option_map VStr (Sys.setting w "ORDER_API_KEY")
  else if String.eqb k "brandCode"
  then option_map VStr (Sys.setting w "ORDER_BRAND_CODE")
  else if String.eqb k "User-Agent" then Some (VStr Lib.userAgent)
  else if String.eqb k "Accept"
  then Some (VStr "application/json, text/plain, */*")
  else None.

(** The mail that [sendEmail] hands to the transport, when there is one. *)
Definition outgoing (w : Sys.world) (subject text : string)
  : option Sys.mail :=
  match ScriptIO.createTransporter w, Sys.setting w "MAIL_FROM" with
  | Some t, Some f =>
      Some {| Sys.via := t; Sys.from := f; Sys.to := ScriptIO.getMailTo w;
              Sys.subject := subject; Sys.text := text |}
  | _, _ => None
  end.

(** What a script does once the order has been fetched and the run has
    decided: [sent] is the line it prints after [sendEmail], [waiting] the
    line of a run that stays silent. *)
Definition performed (w : Sys.world) (sent waiting : string)
  (d : result Script.decision) : Sys.eff unit :=
  match d with
  | TypeError => Sys.throw (Sys.Failure Route.type_error_message)
  | Ok (Script.Send subject text) =>
      ScriptIO.sendEmail w subject text ;;; Sys.emit (Sys.Logged sent)
  | Ok Script.Skip => Sys.emit (Sys.Logged waiting)
  end.

(** The events of a run that ends with the error [e]. *)
Definition failed (l : list Sys.event) (e : Sys.failure) : list Sys.event :=
  (l ++ [Sys.Errored "[错误] 脚本执行失败：" e; Sys.Exited 1])%list.

(** The labels of the page, in order. *)
Definition page_labels : list string :=
  ["请求时间"; "订单号"; "商业订单号"; "下单时间"; "支付时间"; "姓名";
   "手机号"; "证件号"; "所在城市"; "购车门店"; "车型"; "版本/车款"; "颜色";
   "统一零售价"; "VIN"; "配置全称"; "配置零售价"].

(* ================================================================== *)
(** * Sample records and runs *)
(* ================================================================== *)

Definition sample_record : value :=
  VObj [("vehicleVin", VStr "LSJA1234567890"); ("orderNo", VStr "O123");
        ("retailPrice", VNum (Num.of_Z 199999))].

Definition sample_run : Script.surroundings :=
  {| Script.GITHUB_RUN_NUMBER := Some "4";
     Script.hour := 10;
     Script.requestTime := "2025/1/1 10:00:00" |}.

Definition sample_text : string :=
  Eval vm_compute in
    match Script.buildOrderSummaryText "2025/1/1 10:00:00" sample_record with
    | Ok t => t
    | TypeError => ""
    end.

(** A record with a VIN and a colour that cannot be printed: an object
    whose own [toString] is [null]. *)
Definition unprintable_vin_record : value :=
  VObj [("vehicleVin", VStr "LSJA1234567890");
        ("exteriorColor", VObj [("toString", VNull)])].

Definition white_record : value :=
  VObj [("exteriorColor", VStr "珍珠白"); ("colorName", VStr "legacy")].

Definition empty_vin_payload : value :=
  VObj [("data", VObj [("vehicleVin", VStr ""); ("orderNo", VStr "O123")])].

Definition run_with (counter : option string) (hour : Z)
  : Script.surroundings :=
  {| Script.GITHUB_RUN_NUMBER := counter;
     Script.hour := hour;
     Script.requestTime := "2025/1/1 10:00:00" |}.

Definition no_vin_record : value := VObj [("orderNo", VStr "O123")].

Definition no_vin_text : string :=
  Eval vm_compute in
    match Script.buildOrderSummaryText "2025/1/1 10:00:00" no_vin_record with
    | Ok t => t
    | TypeError => ""
    end.

Definition typical_record : value :=
  VObj [("orderNo", VStr "O123"); ("buyerProvinceName", VStr "广东省");
        ("buyerCityName", VStr "深圳市"); ("retailPrice", VStr "199999");
        ("skuDetail",
         VStr (Json.quoted "{'materialConfig':{'fullName':'Pro','totalPrice':1200.5}}"))].

Definition configuration_text : string :=
  Json.quoted
    "{'configurationFullName':'Pro Max','materialConfig':{'totalPrice':1200.5}}".

Definition configuration_object : list (string * value) :=
  [("configurationFullName", VStr "Pro Max");
   ("materialConfig",
    VObj [("totalPrice", VNum (Num.of_decimal false 12005 (-1)))])].

Definition province_only_record : value :=
  VObj [("buyerProvinceName", VStr " 广东省 "); ("cityName", VStr "深圳")].

(** An environment given as a list of variables. *)
Definition env_of (vars : list (string * string)) (name : string)
  : option string :=
  match find (fun kv => String.eqb (fst kv) name) vars with
  | Some kv => Some (snd kv)
  | None => None
  end.

(** A world with the given variables whose server answers every request
    with the given status and body and whose mail transport accepts every
    mail. *)
Definition world_with (vars : list (string * string)) (status : Z)
  (body : string) : Sys.world :=
  {| Sys.env := env_of vars;
     Sys.fetch := fun _ _ => inr {| Sys.status := status; Sys.body := body |};
     Sys.sendMail := fun _ => None;
     Sys.hour := 10;
     Sys.now := "2025/1/1 10:00:00" |}.

(** The same world with a mail transport that rejects every mail. *)
Definition rejecting (w : Sys.world) (e : Sys.failure) : Sys.world :=
  {| Sys.env := Sys.env w;
     Sys.fetch := Sys.fetch w;
     Sys.sendMail := fun _ => Some e;
     Sys.hour := Sys.hour w;
     Sys.now := Sys.now w |}.

Definition mail_settings : list (string * string) :=
  [("ORDER_URL", "https://orders.example/api"); ("ORDER_TOKEN", "t0ken");
   ("SMTP_HOST", "smtp.example"); ("SMTP_PORT", "465");
   ("SMTP_USER", "robot"); ("SMTP_PASS", "secret");
   ("MAIL_FROM", "robot@example"); ("GITHUB_RUN_NUMBER", "4")].

Definition unprintable_vin_body : string :=
  Json.quoted
    "{'data':{'vehicleVin':'LSJA1234567890','exteriorColor':{'toString':null}}}".

Definition vin_body : string :=
  Json.quoted "{'data':{'vehicleVin':'LSJA1234567890','orderNo':'O123'}}".

(* ================================================================== *)
(** * Properties *)
(* ================================================================== *)

(** ** Reasoning about results *)

Lemma bind_Ok {A B : Type} (r : result A) (f : A -> result B) (b : B) :
  bind r f = Ok b -> exists a, r = Ok a /\ f a = Ok b.
Proof.
  destruct r as [a|]; simpl; intros H; [exists a; split; trivial | discriminate].
Qed.

(** Split a hypothesis [x <- r ;; k = Ok b] into [r = Ok x] and [k = Ok b]. *)
Tactic Notation "bind_inv" hyp(H) "as" ident(a) ident(Ha) :=
  apply bind_Ok in H; destruct H as (a & Ha & H).

Lemma Ok_inj {A : Type} (a b : A) : Ok a = Ok b -> a = b.
Proof. intros H. now injection H. Qed.

Ltac ok_inv H := apply Ok_inj in H.

(** Split a goal into its conjuncts, and nothing more. *)
Ltac conjuncts := repeat match goal with |- _ /\ _ => split end.

(** ** Candidates *)

Lemma skip_test (v : value) :
  negb (is_null v) && negb (is_undefined v) && negb (is_empty_string v)
  = negb (blank v).
Proof. unfold blank. now rewrite !negb_orb. Qed.

Lemma script_pick_route_pick (cs : list value) :
  Script.pick cs = Route.pick cs.
Proof. reflexivity. Qed.

Lemma script_formatCurrency_route (v : value) :
  Script.formatCurrency v = Route.formatCurrency v.
Proof. reflexivity. Qed.

Lemma pick_skips (pre rest : list value) :
  forallb blank pre = true -> Route.pick (pre ++ rest) = Route.pick rest.
Proof.
  induction pre as [|c pre IH]; simpl; intros H; [reflexivity|].
  apply andb_prop in H. destruct H as [Hc Hpre].
  rewrite skip_test, Hc. simpl. now apply IH.
Qed.

Lemma pick_head (v : value) (rest : list value) :
  blank v = false -> Route.pick (v :: rest) = v.
Proof. intros H. simpl. now rewrite skip_test, H. Qed.

Lemma pick_not_blank (cs : list value) : blank (Route.pick cs) = false.
Proof.
  induction cs as [|c cs IH]; simpl; [reflexivity|].
  rewrite skip_test. destruct (blank c) eqn:E; simpl; assumption.
Qed.

(** C6. For every candidate list, [pick] returns the first candidate that is
    not [null], not [undefined] and not the empty string, as it is and
    whatever comes after it; when every candidate is skipped it returns the
    placeholder ["--"].  Both copies of [pick] (route.ts, next.config.ts)
    agree. *)
Theorem pick_first_non_empty_wins (skipped : list value) :
  forallb blank skipped = true ->
  Route.pick skipped = VStr "--" /\
  Script.pick skipped = VStr "--" /\
  forall (v : value) (later : list value),
    blank v = false ->
    Route.pick (skipped ++ v :: later) = v /\
    Script.pick (skipped ++ v :: later) = v.
Proof.
  intros H. change Script.pick with Route.pick.
  assert (E : Route.pick skipped = VStr "--").
  { pose proof (pick_skips skipped [] H) as E. now rewrite app_nil_r in E. }
  repeat split; trivial;
    rewrite pick_skips by assumption; now apply pick_head.
Qed.

Lemma pick_first_non_empty_wins_witness :
  Route.pick [VNull; VStr ""; VUndefined] = VStr "--" /\
  Route.pick [VNull; VStr ""; VUndefined; VNum (Num.Zero false); VStr "x"]
  = VNum (Num.Zero false) /\
  Script.pick [VNull; VStr ""; VUndefined; VBool false; VNull] = VBool false.
Proof.
  pose proof (pick_first_non_empty_wins [VNull; VStr ""; VUndefined] eq_refl)
    as (H1 & _ & H3).
  split; [exact H1|]. split.
  - exact (proj1 (H3 (VNum (Num.Zero false)) [VStr "x"] eq_refl)).
  - exact (proj2 (H3 (VBool false) [VNull] eq_refl)).
Defined.

(** ** The decision once a VIN exists *)

Lemma truthy_coalesce (v d : value) : truthy v = true -> coalesce v d = v.
Proof. destruct v; simpl; intros H; trivial; discriminate. Qed.

(** The second line of the mail body prints the VIN. *)
Lemma summaryParts_prints_vin (now : string) (data : value)
  (parts : list string) :
  Script.summaryParts now data = Ok parts ->
  exists t, to_string (coalesce (get data "vehicleVin") (VStr "--")) = Ok t.
Proof.
  unfold Script.summaryParts. intros H.
  bind_inv H as l1 H1. bind_inv H as l2 H2.
  unfold Script.line in H2. bind_inv H2 as t Ht. eauto.
Qed.

(** With a VIN and a mail body, both scripts send the VIN notice. *)
Lemma vin_branch (w : Script.surroundings) (payload data : value)
  (text : string) :
  data = or (get payload "data") payload ->
  truthy (get data "vehicleVin") = true ->
  Script.buildOrderSummaryText (Script.requestTime w) data = Ok text ->
  exists vin,
    to_string (get data "vehicleVin") = Ok vin /\
    Hourly.main w payload = Ok (Script.Send (vin_subject vin) text) /\
    ThreeHourly.main w payload = Ok (Script.Send (vin_subject vin) text).
Proof.
  intros Hdata Hvin Htext.
  assert (Hs : exists vin, to_string (get data "vehicleVin") = Ok vin).
  { unfold Script.buildOrderSummaryText in Htext. bind_inv Htext as ps Hps.
    destruct (summaryParts_prints_vin _ _ _ Hps) as [t Ht].
    rewrite truthy_coalesce in Ht by assumption. eauto. }
  destruct Hs as [vin Hs]. exists vin. split; [assumption|].
  unfold Hourly.main, ThreeHourly.main. rewrite <- Hdata, Htext. simpl.
  rewrite Hvin, Hs. simpl. split; reflexivity.
Qed.

(** Without a VIN, what is left of the decision is the cadence check. *)
Lemma no_vin_branch (w : Script.surroundings) (payload data : value)
  (text : string) :
  data = or (get payload "data") payload ->
  truthy (get data "vehicleVin") = false ->
  Script.buildOrderSummaryText (Script.requestTime w) data = Ok text ->
  Hourly.main w payload
  = Ok (if Hourly.shouldSendSummaryByCycle w
        then Script.Send reminder_subject text else Script.Skip) /\
  ThreeHourly.main w payload
  = Ok (if Num.is_zero (Num.rem (ThreeHourly.runNumber w) (Num.of_Z 2))
        then Script.Send reminder_subject text else Script.Skip).
Proof.
  intros Hdata Hvin Htext.
  unfold Hourly.main, ThreeHourly.main. rewrite <- Hdata, Htext. simpl.
  rewrite Hvin.
  split; match goal with |- context [if ?b then _ else _] => destruct b end;
    reflexivity.
Qed.

(** Without a mail body there is no decision: [main] throws where
    [buildOrderSummaryText] does. *)
Lemma no_body_no_decision (w : Script.surroundings) (payload data : value) :
  data = or (get payload "data") payload ->
  Script.buildOrderSummaryText (Script.requestTime w) data = TypeError ->
  Hourly.main w payload = TypeError /\ ThreeHourly.main w payload = TypeError.
Proof.
  intros Hdata Htext. unfold Hourly.main, ThreeHourly.main.
  rewrite <- Hdata, Htext. split; reflexivity.
Qed.

(** C1 (as the code has it). Whatever the run counter, the hour and the
    request time are, and in the script of period three as in the script of
    period two: when the record has a (truthy) VIN and the mail body can be
    built, the run decides to send, with the subject "VIN生成通知：" followed
    by the VIN; neither the counter nor the hour has a part in the outcome.
    The body is built before the VIN is tested: when it cannot be built,
    because a printed field does not convert to a string, [main] throws and
    there is no decision. *)
Theorem vin_always_sends (w : Script.surroundings) (payload data : value) :
  data = or (get payload "data") payload ->
  truthy (get data "vehicleVin") = true ->
  (forall text,
     Script.buildOrderSummaryText (Script.requestTime w) data = Ok text ->
     exists vin,
       to_string (get data "vehicleVin") = Ok vin /\
       Hourly.main w payload = Ok (Script.Send (vin_subject vin) text) /\
       ThreeHourly.main w payload = Ok (Script.Send (vin_subject vin) text)) /\
  (Script.buildOrderSummaryText (Script.requestTime w) data = TypeError ->
   Hourly.main w payload = TypeError /\
   ThreeHourly.main w payload = TypeError).
Proof.
  intros Hdata Hvin. split.
  - intros text. exact (vin_branch w payload data text Hdata Hvin).
  - exact (no_body_no_decision w payload data Hdata).
Qed.

Lemma vin_always_sends_witness :
  exists vin,
    to_string (get sample_record "vehicleVin") = Ok vin /\
    Hourly.main sample_run sample_record
    = Ok (Script.Send (vin_subject vin) sample_text) /\
    ThreeHourly.main sample_run sample_record
    = Ok (Script.Send (vin_subject vin) sample_text).
Proof.
  apply (proj1 (vin_always_sends sample_run sample_record sample_record
                  eq_refl eq_refl) sample_text).
  vm_compute. reflexivity.
Defined.

(** C1, counterexample. The record has a VIN, and its colour is an object
    whose own [toString] is [null]: the template literal of the colour line
    throws a TypeError while the body is built, before the VIN is tested.
    Neither script decides to send, and the run of the hourly script, with
    the mail transport configured, sends nothing and exits with code 1. *)
Lemma vin_notice_needs_the_mail_body :
  truthy (get unprintable_vin_record "vehicleVin") = true /\
  Hourly.main sample_run unprintable_vin_record = TypeError /\
  ThreeHourly.main sample_run unprintable_vin_record = TypeError /\
  Json.parse unprintable_vin_body
  = Some (VObj [("data", unprintable_vin_record)]) /\
  mails (HourlyRun.entry (world_with mail_settings 200 unprintable_vin_body))
  = [] /\
  exits (HourlyRun.entry (world_with mail_settings 200 unprintable_vin_body))
  = [1] /\
  mails (ThreeHourlyRun.entry
           (world_with mail_settings 200 unprintable_vin_body)) = [].
Proof. vm_compute. repeat split. Qed.

(** The end-to-end scenario of the specification. *)
Example sample_run_decision :
  exists text lines,
    Hourly.main sample_run sample_record
    = Ok (Script.Send "VIN生成通知：LSJA1234567890" text) /\
    Script.summaryParts "2025/1/1 10:00:00" sample_record = Ok lines /\
    nth 14 lines "" = "统一零售价: ¥199,999.00".
Proof. eexists. eexists. vm_compute. repeat split. Qed.

(** ** The colour and the VIN of a summary *)

(** C8. The colour of a summary is the text ["<exterior> / <interior>"],
    where a side that is absent reads ["--"] and a side that is a non-empty
    string reads as itself, each side on its own; this text is the first
    candidate handed to [pick] and the legacy field [colorName] the second.
    As the first candidate is never empty, it is the one selected.  The mail
    body has the same text on its colour line. *)
Theorem color_is_exterior_slash_interior (now : string) (data : value)
  (s : Route.OrderSummary) :
  Route.buildOrderSummary now data = Ok s ->
  exists exterior interior,
    to_string (or (get data "exteriorColor") (VStr "--")) = Ok exterior /\
    to_string (or (get data "interiorColor") (VStr "--")) = Ok interior /\
    (get data "exteriorColor" = VUndefined -> exterior = "--") /\
    (get data "interiorColor" = VUndefined -> interior = "--") /\
    (forall t, get data "exteriorColor" = VStr t -> t <> "" -> exterior = t) /\
    (forall t, get data "interiorColor" = VStr t -> t <> "" -> interior = t) /\
    Route.colorName s
    = Route.pick [VStr (exterior ++ " / " ++ interior);
                  get data "colorName"] /\
    Route.colorName s = VStr (exterior ++ " / " ++ interior) /\
    forall parts, Script.summaryParts now data = Ok parts ->
      nth 13 parts "" = "颜色: " ++ exterior ++ " / " ++ interior.
Proof.
  unfold Route.buildOrderSummary. intros H.
  bind_inv H as province Hprovince. bind_inv H as city Hcity.
  bind_inv H as exterior Hext. bind_inv H as interior Hint.
  bind_inv H as price Hprice. bind_inv H as cprice Hcprice.
  ok_inv H. subst s. cbn [Route.colorName].
  exists exterior, interior.
  assert (Hne : forall x y, blank (VStr (x ++ " / " ++ y)) = false).
  { intros x y. destruct x; reflexivity. }
  conjuncts; trivial.
  - intros E. rewrite E in Hext. simpl in Hext. now ok_inv Hext.
  - intros E. rewrite E in Hint. simpl in Hint. now ok_inv Hint.
  - intros t E Ht. rewrite E in Hext. unfold or in Hext. simpl in Hext.
    destruct (String.eqb_spec t ""); [contradiction|].
    simpl in Hext. now ok_inv Hext.
  - intros t E Ht. rewrite E in Hint. unfold or in Hint. simpl in Hint.
    destruct (String.eqb_spec t ""); [contradiction|].
    simpl in Hint. now ok_inv Hint.
  - change (Route.pick [VStr (exterior ++ " / " ++ interior);
                        get data "colorName"]
            = VStr (exterior ++ " / " ++ interior)).
    now apply pick_head.
  - intros parts Hp. unfold Script.summaryParts in Hp.
    bind_inv Hp as l1 H1. bind_inv Hp as l2 H2. bind_inv Hp as l3 H3.
    bind_inv Hp as l4 H4. bind_inv Hp as l5 H5. bind_inv Hp as l6 H6.
    bind_inv Hp as l7 H7. bind_inv Hp as l8 H8. bind_inv Hp as l9 H9.
    bind_inv Hp as province' Hprovince'. bind_inv Hp as city' Hcity'.
    bind_inv Hp as l10 H10. bind_inv Hp as l11 H11.
    bind_inv Hp as l12 H12. bind_inv Hp as l13 H13.
    bind_inv Hp as exterior' Hext'. bind_inv Hp as interior' Hint'.
    bind_inv Hp as l14 H14. bind_inv Hp as price' Hprice'.
    bind_inv Hp as l15 H15. ok_inv Hp. subst parts.
    rewrite Hext in Hext'. ok_inv Hext'. rewrite Hint in Hint'. ok_inv Hint'.
    subst exterior' interior'.
    change Script.pick with Route.pick in H14.
    rewrite pick_head in H14 by apply Hne.
    unfold Script.line in H14. simpl in H14. ok_inv H14. subst l14.
    reflexivity.
Qed.

Lemma color_is_exterior_slash_interior_witness :
  exists s,
    Route.buildOrderSummary "2025/1/1 10:00:00" white_record = Ok s /\
    Route.colorName s = VStr "珍珠白 / --".
Proof.
  eexists. split; [vm_compute; reflexivity|].
  destruct (color_is_exterior_slash_interior "2025/1/1 10:00:00"
              white_record _ eq_refl)
    as (e & i & _ & _ & _ & Hi & He & _ & _ & Hc & _).
  refine (eq_trans Hc _).
  rewrite (Hi eq_refl), (He "珍珠白" eq_refl) by discriminate.
  reflexivity.
Defined.

(** C9. When the record's [vehicleVin] is the empty string, the summary's
    [vehicleVin] is the empty string too and not the placeholder: this field
    is filled with [??], which lets the empty string through, where the
    first-non-empty rule of [pick] would have given ["--"].  The route then
    answers with [hasVin] false. *)
Theorem empty_vin_is_kept (now : string) (payload data : value)
  (s : Route.OrderSummary) :
  data = coalesce (get payload "data") payload ->
  get data "vehicleVin" = VStr "" ->
  Route.buildOrderSummary now data = Ok s ->
  Route.vehicleVin s = VStr "" /\
  Route.pick [get data "vehicleVin"] = VStr "--" /\
  Route.GET now (Route.Payload payload) = Route.Json200 false s.
Proof.
  intros Hdata Hvin Hs. conjuncts.
  - unfold Route.buildOrderSummary in Hs.
    bind_inv Hs as province Hprovince. bind_inv Hs as city Hcity.
    bind_inv Hs as exterior Hext. bind_inv Hs as interior Hint.
    bind_inv Hs as price Hprice. bind_inv Hs as cprice Hcprice.
    ok_inv Hs. subst s. cbn [Route.vehicleVin]. rewrite Hvin. reflexivity.
  - rewrite Hvin. reflexivity.
  - unfold Route.GET. rewrite <- Hdata, Hs, Hvin. reflexivity.
Qed.

Lemma empty_vin_is_kept_witness :
  exists s,
    Route.GET "2025/1/1 10:00:00" (Route.Payload empty_vin_payload)
    = Route.Json200 false s /\
    Route.vehicleVin s = VStr "" /\ Route.orderNo s = VStr "O123".
Proof.
  eexists.
  destruct (empty_vin_is_kept "2025/1/1 10:00:00" empty_vin_payload
              (get empty_vin_payload "data") _ eq_refl eq_refl eq_refl)
    as (Hv & _ & Hg).
  split; [exact Hg|]. split; [exact Hv|]. reflexivity.
Defined.

(** ** Doubles: canonical form and remainders by an integer *)

Lemma norm_odd (m : positive) (e : Z) :
  match fst (Num.norm m e) with xO _ => False | _ => True end.
Proof.
  revert e. induction m as [m IH|m IH|]; intros e; simpl;
    [exact I | apply IH | exact I].
Qed.

Lemma round64_canonical (neg : bool) (a b : Z) :
  canonical (Num.round64 neg a b) = true.
Proof.
  unfold Num.round64.
  destruct (a <=? 0); [reflexivity|].
  destruct (_ =? 0); [reflexivity|].
  destruct (_ || _); [reflexivity|].
  match goal with |- context [Num.norm ?m ?e] =>
    pose proof (norm_odd m e) as H; destruct (Num.norm m e) as [m' e']
  end.
  simpl in *. destruct m'; tauto.
Qed.

Lemma of_decimal_canonical (neg : bool) (d x : Z) :
  canonical (Num.of_decimal neg d x) = true.
Proof.
  unfold Num.of_decimal. destruct (0 <=? x); apply round64_canonical.
Qed.

Lemma signed_decimal_canonical (neg : bool) (l : list ascii) :
  canonical (Str.signed_decimal neg l) = true.
Proof.
  unfold Str.signed_decimal, Str.unsigned_decimal.
  destruct (Str.list_eqb _ _); [reflexivity|].
  destruct (Str.digits 10 0 0 l) as [[i ilen] r].
  assert (G : forall m flen r',
    canonical (if ilen + flen =? 0 then Num.NaN
               else match Str.exponent r' with
                    | Some (x, []) => Num.of_decimal neg m (x - flen)
                    | _ => Num.NaN
                    end) = true).
  { intros m flen r'. destruct (_ =? 0); [reflexivity|].
    destruct (Str.exponent r') as [[x [|c t]]|]; trivial.
    apply of_decimal_canonical. }
  destruct r as [|c r1]; [apply G|].
  destruct (Ascii.eqb_spec c "."%char) as [->|Hc].
  - destruct (Str.digits 10 i ilen r1) as [[m len] r2]. apply G.
  - destruct c as [[] [] [] [] [] [] [] []]; try apply G; congruence.
Qed.

Lemma radix_literal_canonical (radix : Z) (l : list ascii) :
  canonical (Str.radix_literal radix l) = true.
Proof.
  unfold Str.radix_literal.
  destruct (Str.digits radix 0 0 l) as [[v len] [|c t]]; trivial.
  destruct (len =? 0); [reflexivity | apply round64_canonical].
Qed.

Lemma to_number_canonical (s : string) : canonical (Str.to_number s) = true.
Proof.
  unfold Str.to_number.
  destruct (Str.trim_list _) as [|c l]; [reflexivity|].
  assert (D : canonical (Str.signed_decimal false (c :: l)) = true)
    by apply signed_decimal_canonical.
  assert (G : forall d r,
    canonical
      (if (Str.code d =? 120) || (Str.code d =? 88)
       then Str.radix_literal 16 r
       else if (Str.code d =? 111) || (Str.code d =? 79)
       then Str.radix_literal 8 r
       else if (Str.code d =? 98) || (Str.code d =? 66)
       then Str.radix_literal 2 r
       else Str.signed_decimal false ("0"%char :: d :: r)) = true).
  { intros d r.
    repeat match goal with
           | |- context [if ?b then _ else _] => destruct b
           end;
      first [apply radix_literal_canonical | apply signed_decimal_canonical]. }
  destruct c as [[] [] [] [] [] [] [] []];
    try exact D; try apply signed_decimal_canonical.
  destruct l as [|d r]; [exact D | apply G].
Qed.

Lemma pow2_pos (e : Z) : 0 <= e -> 0 < 2 ^ e.
Proof. intros H. now apply Z.pow_pos_nonneg. Qed.

Lemma is_zero_rem_result (s : bool) (r e : Z) :
  Num.is_zero
    (if r =? 0 then Num.Zero s
     else let (m, e') := Num.norm (Z.to_pos r) e in Num.Fin s m e')
  = (r =? 0).
Proof.
  destruct (r =? 0); [reflexivity|].
  destruct (Num.norm (Z.to_pos r) e). reflexivity.
Qed.

Lemma mod_opp_zero (a k : Z) : 0 < k -> ((- a) mod k =? 0) = (a mod k =? 0).
Proof.
  intros Hk.
  destruct (Z.eqb_spec (a mod k) 0) as [E|E].
  - apply Z.eqb_eq. apply Z.mod_divide in E; [|lia].
    apply Z.mod_divide; [lia|]. destruct E as [q Hq]. exists (- q). lia.
  - apply Z.eqb_neq. intros E'. apply E.
    apply Z.mod_divide in E'; [|lia].
    apply Z.mod_divide; [lia|]. destruct E' as [q Hq]. exists (- q). lia.
Qed.

Lemma to_Z_Fin (s : bool) (m : positive) (e n : Z) :
  Num.to_Z (Num.Fin s m e) = Some n ->
  0 <= e /\ n = (if s then -1 else 1) * (Zpos m * 2 ^ e).
Proof.
  unfold Num.to_Z. destruct (Z.leb_spec 0 e) as [He|He]; [|discriminate].
  intros H. split; [assumption | congruence].
Qed.

(** The remainder of an integral double by a positive integral double is
    zero exactly when the integers divide. *)
Lemma rem_integral (x : Num.number) (n : Z) (mk : positive) (ek : Z) :
  0 <= ek ->
  Num.to_Z x = Some n ->
  Num.is_zero (Num.rem x (Num.Fin false mk ek))
  = (n mod (Zpos mk * 2 ^ ek) =? 0).
Proof.
  intros Hek Hx. destruct x as [| |s|s m e]; try discriminate.
  - simpl in Hx. injection Hx as <-. reflexivity.
  - apply to_Z_Fin in Hx. destruct Hx as [He ->].
    unfold Num.rem. rewrite is_zero_rem_result.
    set (c := Z.min e ek).
    assert (Hc : 0 <= c) by (unfold c; lia).
    assert (E1 : 2 ^ e = 2 ^ (e - c) * 2 ^ c).
    { rewrite <- Z.pow_add_r by (unfold c; lia). f_equal. lia. }
    assert (E2 : 2 ^ ek = 2 ^ (ek - c) * 2 ^ c).
    { rewrite <- Z.pow_add_r by (unfold c; lia). f_equal. lia. }
    pose proof (pow2_pos c Hc) as Pc.
    assert (P2 : 0 < 2 ^ (ek - c)) by (apply pow2_pos; unfold c; lia).
    set (A := Zpos m * 2 ^ (e - c)). set (B := Zpos mk * 2 ^ (ek - c)).
    assert (HB : 0 < B) by (unfold B; lia).
    assert (E : (Zpos m * 2 ^ e) mod (Zpos mk * 2 ^ ek)
                = (A mod B) * 2 ^ c).
    { rewrite E1, E2, !Z.mul_assoc. fold A B.
      rewrite Z.mul_mod_distr_r by lia. reflexivity. }
    assert (R : ((Zpos m * 2 ^ e) mod (Zpos mk * 2 ^ ek) =? 0)
                = (A mod B =? 0)).
    { rewrite E. destruct (Z.eqb_spec (A mod B) 0) as [Z0|Z0].
      - rewrite Z0. reflexivity.
      - apply Z.eqb_neq. nia. }
    rewrite <- R. destruct s.
    + replace (-1 * (Zpos m * 2 ^ e)) with (- (Zpos m * 2 ^ e)) by lia.
      symmetry. apply mod_opp_zero.
      pose proof (pow2_pos ek Hek). lia.
    + now rewrite Z.mul_1_l.
Qed.

(** The remainder of any other double by a positive integral double is not
    zero. *)
Lemma rem_not_integral (x : Num.number) (mk : positive) (ek : Z) :
  0 <= ek ->
  canonical x = true ->
  Num.to_Z x = None ->
  Num.is_zero (Num.rem x (Num.Fin false mk ek)) = false.
Proof.
  intros Hek Hc Hx. destruct x as [| |s|s m e]; try reflexivity;
    try discriminate.
  simpl in Hx. destruct (Z.leb_spec 0 e) as [He|He]; [discriminate|].
  unfold Num.rem. rewrite is_zero_rem_result.
  replace (Z.min e ek) with e by lia.
  replace (e - e) with 0 by lia. rewrite Z.pow_0_r, Z.mul_1_r.
  apply Z.eqb_neq. intros E.
  assert (P : 0 < 2 ^ (ek - e - 1)) by (apply pow2_pos; lia).
  assert (E2 : 2 ^ (ek - e) = 2 * 2 ^ (ek - e - 1)).
  { rewrite <- (Z.pow_succ_r 2) by lia. f_equal. lia. }
  apply Z.mod_divide in E; [|lia].
  destruct E as [q Hq]. rewrite E2 in Hq.
  destruct m as [p|p|]; simpl in Hc; try discriminate; lia.
Qed.

(** ** Integers that doubles hold exactly *)

Lemma norm_value (m : positive) (e : Z) :
  e <= snd (Num.norm m e) /\
  Zpos m = Zpos (fst (Num.norm m e)) * 2 ^ (snd (Num.norm m e) - e).
Proof.
  revert e. induction m as [m IH|m IH|]; intros e; cbn [Num.norm fst snd].
  - split; [lia|]. replace (e - e) with 0 by lia. simpl. lia.
  - destruct (IH (e + 1)) as [Hle Hv]. split; [lia|].
    replace (snd (Num.norm m (e + 1)) - e)
      with (Z.succ (snd (Num.norm m (e + 1)) - (e + 1))) by lia.
    rewrite Z.pow_succ_r by lia. lia.
  - split; [lia|]. replace (e - e) with 0 by lia. reflexivity.
Qed.

Lemma div_half_even_one (a : Z) : Num.div_half_even a 1 = a.
Proof.
  unfold Num.div_half_even. rewrite Z.mod_1_r, Z.div_1_r. reflexivity.
Qed.

(** A positive integer below [2^53] is a double, and reads back. *)
Lemma of_Z_exact (n : Z) :
  0 < n < 2 ^ 53 -> Num.to_Z (Num.of_Z n) = Some n.
Proof.
  intros [Hpos Hlt]. unfold Num.of_Z, Num.round64.
  replace (n <? 0) with false by (symmetry; apply Z.ltb_ge; lia).
  rewrite Z.abs_eq by lia.
  replace (n <=? 0) with false by (symmetry; apply Z.leb_gt; lia).
  assert (L0 : 0 <= Z.log2 n) by apply Z.log2_nonneg.
  assert (L1 : Z.log2 n < 53) by (apply Z.log2_lt_pow2; lia).
  assert (Hi : Num.ilog2 n 1 = Z.log2 n).
  { unfold Num.ilog2. change (Z.log2 1) with 0. rewrite Z.sub_0_r.
    replace (0 <=? Z.log2 n) with true by (symmetry; apply Z.leb_le; lia).
    destruct (Z.log2_spec n Hpos) as [Hs _].
    replace (1 * 2 ^ Z.log2 n <=? n) with true
      by (symmetry; apply Z.leb_le; lia).
    reflexivity. }
  rewrite Hi. set (k := Z.max (Z.log2 n - 52) (-1074)).
  assert (Hk : k = Z.log2 n - 52) by (unfold k; lia).
  assert (Hk0 : -52 <= k <= 0) by lia.
  assert (P : 0 < 2 ^ (- k)) by (apply pow2_pos; lia).
  assert (Hn' : (if 0 <=? k then Num.div_half_even n (1 * 2 ^ k)
                 else Num.div_half_even (n * 2 ^ (- k)) 1)
                = n * 2 ^ (- k)).
  { destruct (Z.leb_spec 0 k).
    - replace k with 0 by lia. simpl. rewrite div_half_even_one. lia.
    - apply div_half_even_one. }
  rewrite Hn'.
  replace (n * 2 ^ (- k) =? 0) with false by (symmetry; apply Z.eqb_neq; nia).
  replace (971 <? k) with false by (symmetry; apply Z.ltb_ge; lia).
  replace (k =? 971) with false by (symmetry; apply Z.eqb_neq; lia).
  cbn [orb andb].
  pose proof (norm_value (Z.to_pos (n * 2 ^ (- k))) k) as [Hle Hv].
  pose proof (norm_odd (Z.to_pos (n * 2 ^ (- k))) k) as Hodd.
  destruct (Num.norm (Z.to_pos (n * 2 ^ (- k))) k) as [m e].
  cbn [fst snd] in *. rewrite Z2Pos.id in Hv by nia.
  unfold Num.to_Z. destruct (Z.leb_spec 0 e) as [He|He].
  - f_equal. rewrite Z.mul_1_l.
    assert (E : 2 ^ (e - k) = 2 ^ e * 2 ^ (- k)).
    { rewrite <- Z.pow_add_r by lia. f_equal; lia. }
    rewrite E in Hv. nia.
  - exfalso.
    assert (E : 2 ^ (- k) = 2 ^ (e - k) * (2 * 2 ^ (- e - 1))).
    { rewrite <- (Z.pow_succ_r 2), <- Z.pow_add_r by lia. f_equal; lia. }
    assert (P' : 0 < 2 ^ (e - k)) by (apply pow2_pos; lia).
    rewrite E in Hv.
    assert (Hm : Zpos m = 2 * (n * 2 ^ (- e - 1))) by nia.
    destruct m; simpl in Hodd; try contradiction; lia.
Qed.

Lemma of_Z_3 : Num.of_Z 3 = Num.Fin false 3 0.
Proof. reflexivity. Qed.

Lemma of_Z_2 : Num.of_Z 2 = Num.Fin false 1 1.
Proof. reflexivity. Qed.

(** ** Currency text *)

Lemma digit_char_is_digit (d : Z) :
  0 <= d < 10 -> Str.is_digit (Num.digit_char d) = true.
Proof.
  intros H.
  assert (C : d = 0 \/ d = 1 \/ d = 2 \/ d = 3 \/ d = 4 \/ d = 5 \/ d = 6 \/
              d = 7 \/ d = 8 \/ d = 9) by lia.
  repeat destruct C as [C|C]; subst d; reflexivity.
Qed.

Lemma digits_fuel_digits (fuel : nat) (n : Z) (acc : string) :
  Forall (fun c => Str.is_digit c = true) (list_ascii_of_string acc) ->
  Forall (fun c => Str.is_digit c = true)
    (list_ascii_of_string (Num.digits_fuel fuel n acc)).
Proof.
  revert n acc. induction fuel as [|f IH]; intros n acc H; simpl; trivial.
  assert (H' : Forall (fun c => Str.is_digit c = true)
                 (list_ascii_of_string
                    (String (Num.digit_char (n mod 10)) acc))).
  { simpl. constructor; trivial. apply digit_char_is_digit.
    apply Z.mod_pos_bound. lia. }
  destruct (n <? 10); [exact H' | now apply IH].
Qed.

Lemma digits_fuel_length (fuel : nat) (n : Z) (acc : string) :
  (String.length acc <= String.length (Num.digits_fuel fuel n acc))%nat.
Proof.
  revert n acc. induction fuel as [|f IH]; intros n acc; simpl; [lia|].
  destruct (n <? 10); simpl; [lia|].
  etransitivity; [|apply IH]. simpl. lia.
Qed.

Lemma decimal_digits (n : Z) :
  Forall (fun c => Str.is_digit c = true)
    (list_ascii_of_string (Num.decimal n)) /\
  Num.decimal n <> "".
Proof.
  unfold Num.decimal. split.
  - apply digits_fuel_digits. constructor.
  - simpl. intros E.
    destruct (n <? 10); [discriminate|].
    pose proof (digits_fuel_length (Z.to_nat (Z.log2 n)) (n / 10)
                  (String (Num.digit_char (n mod 10)) "")) as L.
    rewrite E in L. simpl in L. lia.
Qed.

Lemma rev_group_step (a b c : ascii) (l : list ascii) :
  rev (a :: b :: c :: ","%char :: l) = (rev l ++ [","%char; c; b; a])%list.
Proof. simpl. now rewrite <- !app_assoc. Qed.

Lemma group_rev_grouped (n : nat) (l : list ascii) :
  (List.length l <= n)%nat -> l <> [] ->
  Forall (fun c => Str.is_digit c = true) l ->
  Grouped (rev (Num.group_rev l)).
Proof.
  revert l. induction n as [|n IH]; intros l Hn Hl Hd.
  - destruct l; [contradiction | simpl in Hn; lia].
  - destruct l as [|a [|b [|c [|d rest]]]]; try contradiction;
      try (apply Grouped_first;
           [rewrite length_rev; simpl; lia | now apply Forall_rev]).
    change (Num.group_rev (a :: b :: c :: d :: rest))
      with (a :: b :: c :: ","%char :: Num.group_rev (d :: rest)).
    rewrite rev_group_step.
    inversion Hd as [|? ? Ha Hd1]; subst.
    inversion Hd1 as [|? ? Hb Hd2]; subst.
    inversion Hd2 as [|? ? Hc Hd3]; subst.
    apply Grouped_more; trivial.
    apply IH; [simpl in *; lia | discriminate | assumption].
Qed.

Lemma group_grouped (ds : string) :
  ds <> "" ->
  Forall (fun c => Str.is_digit c = true) (list_ascii_of_string ds) ->
  exists int, Num.group ds = string_of_list_ascii int /\ Grouped int.
Proof.
  intros Hne Hd. unfold Num.group. eexists. split; [reflexivity|].
  apply (group_rev_grouped (List.length (rev (list_ascii_of_string ds)))).
  - lia.
  - destruct ds; [contradiction|]. simpl. intros E.
    apply app_eq_nil in E. destruct E; discriminate.
  - now apply Forall_rev.
Qed.

Lemma fixed2_shape (neg : bool) (c : Z) :
  0 <= c -> CurrencyText ("¥" ++ Num.fixed2 neg c).
Proof.
  intros Hc. unfold Num.fixed2.
  destruct (decimal_digits (c / 100)) as [Hd Hne].
  destruct (group_grouped _ Hne Hd) as (int & E & G).
  exists (if neg then "-" else ""), int,
    (Num.digit_char (c mod 100 / 10)), (Num.digit_char (c mod 10)).
  rewrite E. conjuncts; trivial.
  - destruct neg; auto.
  - apply digit_char_is_digit.
    pose proof (Z.mod_pos_bound c 100 ltac:(lia)).
    split; [apply Z.div_pos; lia | apply Z.div_lt_upper_bound; lia].
  - apply digit_char_is_digit. apply Z.mod_pos_bound. lia.
Qed.

Lemma strip_zeros_nonneg (fuel : nat) (s x : Z) :
  0 <= s -> 0 <= fst (Num.strip_zeros fuel s x).
Proof.
  revert s x. induction fuel as [|f IH]; intros s x Hs; simpl; trivial.
  destruct (_ && _); simpl; trivial. apply IH. apply Z.div_pos; lia.
Qed.

Lemma shortest_from_nonneg (fuel : nat) (k : Z) (m : positive)
  (e a b n : Z) :
  0 < a -> 0 < b -> 0 <= fst (Num.shortest_from fuel k m e a b n).
Proof.
  intros Ha Hb. revert k. induction fuel as [|f IH]; intros k; [simpl; lia|].
  cbn [Num.shortest_from]. cbv zeta.
  set (x := n - k).
  set (num := if 0 <=? x then a else a * 10 ^ (- x)).
  set (den := if 0 <=? x then b * 10 ^ x else b).
  assert (Hnum : 0 <= num).
  { unfold num. destruct (Z.leb_spec 0 x); [lia|].
    assert (0 < 10 ^ (- x)) by (apply Z.pow_pos_nonneg; lia). nia. }
  assert (Hden : 0 < den).
  { unfold den. destruct (Z.leb_spec 0 x); [|lia].
    assert (0 < 10 ^ x) by (apply Z.pow_pos_nonneg; lia). nia. }
  assert (Hlo : 0 <= num / den) by (apply Z.div_pos; lia).
  repeat match goal with
         | |- context [match ?c with _ => _ end] =>
             lazymatch c with
             | Num.of_decimal _ _ _ => destruct c
             | (_ ?= _) => destruct c
             | (_ && _)%bool => destruct c
             | Z.even _ => destruct c
             end
         end; cbn [fst]; try lia; apply IH.
Qed.

Lemma shortest_decimal_nonneg (m : positive) (e : Z) :
  0 <= fst (Num.shortest_decimal m e).
Proof.
  unfold Num.shortest_decimal, Num.ratio.
  assert (G : forall a b, 0 < a -> 0 < b ->
            0 <= fst (let (s, x) :=
                        Num.shortest_from 17 1 m e a b (Num.magnitude10 a b)
                      in Num.strip_zeros 400 s x)).
  { intros a b Ha Hb.
    pose proof (shortest_from_nonneg 17 1 m e a b (Num.magnitude10 a b)
                  Ha Hb) as H.
    destruct (Num.shortest_from 17 1 m e a b (Num.magnitude10 a b))
      as [s x].
    now apply strip_zeros_nonneg. }
  destruct (Z.leb_spec 0 e) as [He|He]; apply G; lia.
Qed.

Lemma cents_nonneg (s x : Z) : 0 <= s -> 0 <= Num.cents s x.
Proof.
  intros Hs. unfold Num.cents. destruct (Z.leb_spec 0 (x + 2)).
  - assert (0 < 10 ^ (x + 2)) by (apply Z.pow_pos_nonneg; lia). nia.
  - assert (0 < 10 ^ (- (x + 2))) by (apply Z.pow_pos_nonneg; lia).
    apply Z.div_pos; lia.
Qed.

Lemma toLocaleString_shape (x : Num.number) :
  finite x = true -> CurrencyText ("¥" ++ Num.toLocaleString x).
Proof.
  destruct x as [| |s|s m e]; try discriminate; intros _;
    cbn [Num.toLocaleString].
  - apply fixed2_shape. lia.
  - pose proof (shortest_decimal_nonneg m e) as H.
    destruct (Num.shortest_decimal m e) as [d x].
    apply fixed2_shape. now apply cents_nonneg.
Qed.

Lemma grouped_not_empty : ~ Grouped [].
Proof.
  intros G. remember (@nil ascii) as l eqn:E.
  destruct G as [g Hl _|s a b c _ _ _ _].
  - subst g. simpl in Hl. lia.
  - destruct s; discriminate.
Qed.

Lemma length_append (a b : string) :
  String.length (a ++ b) = (String.length a + String.length b)%nat.
Proof. induction a as [|c a IH]; simpl; [|rewrite IH]; reflexivity. Qed.

Lemma length_of_list (l : list ascii) :
  String.length (string_of_list_ascii l) = List.length l.
Proof. induction l as [|c l IH]; simpl; [|rewrite IH]; reflexivity. Qed.

(** A currency text has at least six bytes: the yen sign takes two. *)
Lemma currency_text_length (s : string) :
  CurrencyText s -> (6 <= String.length s)%nat.
Proof.
  intros (sign & int & d1 & d2 & E & _ & G & _). subst s.
  rewrite !length_append, length_of_list. simpl.
  destruct int; [now apply grouped_not_empty in G | simpl; lia].
Qed.

(** What [formatCurrency] of route.ts and of the mail scripts returns. *)
Lemma formatCurrency_numeric (amount : value) (n : Num.number) :
  blank amount = false ->
  to_number amount = Ok n ->
  Route.formatCurrency amount
  = if Num.isNaN n then to_string amount
    else Ok ("¥" ++ Num.toLocaleString n).
Proof.
  intros Hb Hn. unfold Route.formatCurrency. fold (blank amount).
  rewrite Hb, Hn. reflexivity.
Qed.

(** ** Decimal numerals read back *)

Lemma digit_cases (c : ascii) :
  digit c ->
  c = "0"%char \/ c = "1"%char \/ c = "2"%char \/ c = "3"%char \/
  c = "4"%char \/ c = "5"%char \/ c = "6"%char \/ c = "7"%char \/
  c = "8"%char \/ c = "9"%char.
Proof.
  unfold digit.
  destruct c as [[] [] [] [] [] [] [] []]; intros H;
    try discriminate H; tauto.
Qed.

(** Case analysis on a digit. *)
Ltac digit_cases c H :=
  let D := fresh "D" in
  pose proof (digit_cases c H) as D;
  repeat (destruct D as [D|D]; [subst c|]); [..|subst c].

Lemma digit_value_digit (c : ascii) :
  digit c -> Str.digit_value 10 c = Some (Str.code c - 48).
Proof. intros H. digit_cases c H; reflexivity. Qed.

Lemma digits_spelled (l : list ascii) (acc len : Z) :
  Forall digit l ->
  Str.digits 10 acc len l
  = (spelled acc l, len + Z.of_nat (List.length l), []).
Proof.
  intros H. revert acc len.
  induction H as [|c l Hc Hl IH]; intros acc len; cbn [Str.digits].
  - simpl. now rewrite Z.add_0_r.
  - rewrite (digit_value_digit c Hc), IH. unfold spelled.
    cbn [fold_left List.length]. do 2 f_equal. lia.
Qed.

Lemma spelled_app (acc : Z) (l1 l2 : list ascii) :
  spelled acc (l1 ++ l2) = spelled (spelled acc l1) l2.
Proof. apply fold_left_app. Qed.

Lemma code_digit_char (d : Z) :
  0 <= d < 10 -> Str.code (Num.digit_char d) = 48 + d.
Proof.
  intros H.
  assert (C : d = 0 \/ d = 1 \/ d = 2 \/ d = 3 \/ d = 4 \/ d = 5 \/ d = 6 \/
              d = 7 \/ d = 8 \/ d = 9) by lia.
  repeat destruct C as [C|C]; subst d; reflexivity.
Qed.

(** [digits_fuel] puts the digits of [n] in front of its accumulator. *)
Lemma digits_fuel_spells (fuel : nat) (n : Z) (acc : string) :
  (0 < fuel)%nat -> 0 <= n < 10 ^ Z.of_nat fuel ->
  exists ds,
    list_ascii_of_string (Num.digits_fuel fuel n acc)
    = (ds ++ list_ascii_of_string acc)%list /\
    ds <> [] /\ Forall digit ds /\ spelled 0 ds = n.
Proof.
  revert n acc. induction fuel as [|f IH]; intros n acc Hf Hn; [lia|].
  cbn [Num.digits_fuel].
  assert (Hd : 0 <= n mod 10 < 10) by (apply Z.mod_pos_bound; lia).
  destruct (Z.ltb_spec n 10) as [Hlt|Hge].
  - exists [Num.digit_char (n mod 10)]. conjuncts.
    + reflexivity.
    + discriminate.
    + constructor; [|constructor]. now apply digit_char_is_digit.
    + cbn [spelled fold_left]. rewrite code_digit_char by assumption.
      rewrite Z.mod_small by lia. lia.
  - assert (Hf' : (0 < f)%nat).
    { destruct f; [simpl in Hn; lia | lia]. }
    assert (Hq : 0 <= n / 10 < 10 ^ Z.of_nat f).
    { split; [apply Z.div_pos; lia|].
      apply Z.div_lt_upper_bound; [lia|].
      rewrite Nat2Z.inj_succ, Z.pow_succ_r in Hn by lia. lia. }
    destruct (IH (n / 10) (String (Num.digit_char (n mod 10)) acc) Hf' Hq)
      as (ds & E & _ & Hds & Hv).
    exists (ds ++ [Num.digit_char (n mod 10)])%list. conjuncts.
    + rewrite E. cbn [list_ascii_of_string]. now rewrite <- app_assoc.
    + destruct ds; discriminate.
    + apply Forall_app. split; [assumption|].
      constructor; [|constructor]. now apply digit_char_is_digit.
    + rewrite spelled_app, Hv. cbn [spelled fold_left].
      rewrite code_digit_char by assumption.
      pose proof (Z.div_mod n 10 ltac:(lia)). lia.
Qed.

Lemma decimal_spells (n : Z) :
  0 <= n ->
  exists ds,
    list_ascii_of_string (Num.decimal n) = ds /\
    ds <> [] /\ Forall digit ds /\ spelled 0 ds = n.
Proof.
  intros Hn. unfold Num.decimal.
  destruct (digits_fuel_spells (S (Z.to_nat (Z.log2 n))) n "")
    as (ds & E & Hne & Hd & Hv).
  - lia.
  - split; [assumption|].
    destruct (Z.eq_dec n 0) as [->|Hz]; [reflexivity|].
    rewrite Nat2Z.inj_succ, Z2Nat.id by apply Z.log2_nonneg.
    destruct (Z.log2_spec n ltac:(lia)) as [_ Hlt].
    apply Z.lt_le_trans with (1 := Hlt).
    apply Z.pow_le_mono_l. lia.
  - exists ds. rewrite E. cbn [list_ascii_of_string]. rewrite app_nil_r.
    auto.
Qed.

Lemma strip_front_digit (c : ascii) (l : list ascii) :
  digit c -> Str.strip_front (c :: l) = c :: l.
Proof.
  intros H. digit_cases c H; destruct l as [|c2 [|c3 r]]; reflexivity.
Qed.

Lemma strip_back_digit (c : ascii) (l : list ascii) :
  digit c -> Str.strip_back (c :: l) = c :: l.
Proof.
  intros H.
  digit_cases c H; destruct l as [|c2 [|c3 r]]; cbn [Str.strip_back];
    try reflexivity;
    unfold Str.ws1, Str.ws2, Str.ws3;
    cbn [Str.code N_of_ascii N_of_digits Z.of_N N.add N.mul Pos.add Pos.mul
         Pos.succ Z.eqb Z.leb Z.compare Pos.compare Pos.compare_cont Pos.eqb
         andb orb];
    rewrite ?andb_false_r; reflexivity.
Qed.

Lemma trim_list_digits (ds : list ascii) :
  Forall digit ds -> Str.trim_list ds = ds.
Proof.
  intros H. unfold Str.trim_list. destruct H as [|c l Hc Hl]; [reflexivity|].
  rewrite strip_front_digit by assumption.
  assert (Hr : Forall digit (rev (c :: l)))
    by (apply Forall_rev; now constructor).
  destruct (rev (c :: l)) as [|d r] eqn:E.
  - apply (f_equal (@List.length ascii)) in E.
    rewrite length_rev in E. discriminate.
  - inversion Hr; subst. rewrite strip_back_digit by assumption.
    rewrite <- E. apply rev_involutive.
Qed.

Lemma unsigned_decimal_digits (ds : list ascii) :
  ds <> [] -> Forall digit ds ->
  Str.unsigned_decimal false ds = Num.of_decimal false (spelled 0 ds) 0.
Proof.
  intros Hne Hd. unfold Str.unsigned_decimal.
  rewrite (digits_spelled ds 0 0 Hd). cbn [Str.exponent].
  destruct ds as [|c l]; [contradiction|].
  replace (0 + Z.of_nat (List.length (c :: l)) + 0 =? 0) with false.
  - reflexivity.
  - symmetry. apply Z.eqb_neq. simpl List.length. lia.
Qed.

Lemma to_number_digits (ds : list ascii) :
  ds <> [] -> Forall digit ds ->
  Str.to_number (string_of_list_ascii ds)
  = Num.of_decimal false (spelled 0 ds) 0.
Proof.
  intros Hne Hd. unfold Str.to_number.
  rewrite list_ascii_of_string_of_list_ascii, trim_list_digits by assumption.
  rewrite <- (unsigned_decimal_digits ds Hne Hd).
  destruct Hd as [|c l Hc Hl]; [contradiction|].
  digit_cases c Hc; try reflexivity.
  destruct Hl as [|d r Hd Hr]; [reflexivity|].
  digit_cases d Hd; reflexivity.
Qed.

(** [Number] of the decimal numeral of a positive integer below [2^53] is
    that integer. *)
Lemma to_number_decimal (n : Z) :
  0 < n < 2 ^ 53 -> Num.to_Z (Str.to_number (Num.decimal n)) = Some n.
Proof.
  intros Hn.
  destruct (decimal_spells n ltac:(lia)) as (ds & E & Hne & Hd & Hv).
  rewrite <- (string_of_list_ascii_of_string (Num.decimal n)), E.
  rewrite to_number_digits, Hv by assumption.
  unfold Num.of_decimal. cbn [Z.leb Z.compare]. rewrite Z.pow_0_r, Z.mul_1_r.
  pose proof (of_Z_exact n Hn) as H. unfold Num.of_Z in H.
  replace (n <? 0) with false in H by (symmetry; apply Z.ltb_ge; lia).
  now rewrite Z.abs_eq in H by lia.
Qed.

(** The text of the hour formatter does not read as a number: [Number]
    takes a numeral and nothing after it but white space. *)
Lemma fmt_format_not_a_number (h : Z) :
  0 <= h <= 23 -> Str.to_number (Hourly.fmt_format h) = Num.NaN.
Proof.
  intros H.
  assert (C : h = 0 \/ h = 1 \/ h = 2 \/ h = 3 \/ h = 4 \/ h = 5 \/ h = 6 \/
              h = 7 \/ h = 8 \/ h = 9 \/ h = 10 \/ h = 11 \/ h = 12 \/
              h = 13 \/ h = 14 \/ h = 15 \/ h = 16 \/ h = 17 \/ h = 18 \/
              h = 19 \/ h = 20 \/ h = 21 \/ h = 22 \/ h = 23) by lia.
  repeat destruct C as [C|C]; subst h; vm_compute; reflexivity.
Qed.

Lemma round64_not_NaN (neg : bool) (a b : Z) :
  Num.isNaN (Num.round64 neg a b) = false.
Proof.
  unfold Num.round64.
  destruct (a <=? 0); [reflexivity|].
  destruct (_ =? 0); [reflexivity|].
  destruct (_ || _); [reflexivity|].
  destruct (Num.norm _ _). reflexivity.
Qed.

Lemma to_number_numeral (n : Z) :
  0 <= n -> Str.to_number (Num.decimal n) = Num.of_Z n.
Proof.
  intros Hn.
  destruct (decimal_spells n Hn) as (ds & E & Hne & Hd & Hv).
  rewrite <- (string_of_list_ascii_of_string (Num.decimal n)), E.
  rewrite to_number_digits, Hv by assumption.
  unfold Num.of_decimal, Num.of_Z. cbn [Z.leb Z.compare].
  rewrite Z.pow_0_r, Z.mul_1_r, Z.abs_eq by lia.
  replace (n <? 0) with false by (symmetry; apply Z.ltb_ge; lia).
  reflexivity.
Qed.

(** ** The amount that is printed *)

Lemma digit_not_comma (c : ascii) :
  Str.is_digit c = true -> negb (Ascii.eqb c ","%char) = true.
Proof.
  intros H. destruct (Ascii.eqb_spec c ","%char) as [->|]; [discriminate|].
  reflexivity.
Qed.

Lemma ungrouped_digits (l : list ascii) :
  Forall (fun c => Str.is_digit c = true) l -> ungrouped l = l.
Proof.
  induction 1 as [|c l Hc Hl IH]; [reflexivity|].
  unfold ungrouped in *. cbn [filter]. rewrite (digit_not_comma c Hc).
  now rewrite IH.
Qed.

Lemma ungrouped_app (l1 l2 : list ascii) :
  ungrouped (l1 ++ l2) = (ungrouped l1 ++ ungrouped l2)%list.
Proof. apply filter_app. Qed.

Lemma ungrouped_rev (l : list ascii) : ungrouped (rev l) = rev (ungrouped l).
Proof.
  induction l as [|c l IH]; [reflexivity|].
  cbn [rev]. rewrite ungrouped_app, IH. unfold ungrouped. cbn [filter].
  destruct (negb (Ascii.eqb c ","%char)); cbn [rev app];
    [reflexivity | now rewrite app_nil_r].
Qed.

(** Grouping adds commas and nothing else. *)
Lemma group_rev_ungrouped (n : nat) (l : list ascii) :
  (List.length l <= n)%nat ->
  Forall (fun c => Str.is_digit c = true) l ->
  ungrouped (Num.group_rev l) = l.
Proof.
  revert l. induction n as [|n IH]; intros l Hn Hd.
  - destruct l; [reflexivity | simpl in Hn; lia].
  - destruct l as [|a [|b [|c [|d rest]]]];
      try (now apply ungrouped_digits).
    change (Num.group_rev (a :: b :: c :: d :: rest))
      with (a :: b :: c :: ","%char :: Num.group_rev (d :: rest)).
    inversion Hd as [|? ? Ha Hd1]; subst.
    inversion Hd1 as [|? ? Hb Hd2]; subst.
    inversion Hd2 as [|? ? Hc Hd3]; subst.
    unfold ungrouped in *. cbn [filter].
    rewrite (digit_not_comma a Ha), (digit_not_comma b Hb),
      (digit_not_comma c Hc).
    change (negb (Ascii.eqb ","%char ","%char)) with false. cbv iota.
    rewrite IH; [reflexivity | simpl in *; lia | assumption].
Qed.

Lemma group_ungrouped (ds : string) :
  Forall (fun c => Str.is_digit c = true) (list_ascii_of_string ds) ->
  ungrouped (list_ascii_of_string (Num.group ds)) = list_ascii_of_string ds.
Proof.
  intros Hd. unfold Num.group.
  rewrite list_ascii_of_string_of_list_ascii, ungrouped_rev.
  rewrite (group_rev_ungrouped (List.length (rev (list_ascii_of_string ds))))
    by (trivial; now apply Forall_rev).
  apply rev_involutive.
Qed.

(** The two decimals spell the hundredths that are left. *)
Lemma two_decimals_spell (c : Z) :
  0 <= c ->
  spelled 0 [Num.digit_char (c mod 100 / 10); Num.digit_char (c mod 10)]
  = c mod 100.
Proof.
  intros Hc. unfold spelled. cbn [fold_left].
  pose proof (Z.mod_pos_bound c 100 ltac:(lia)) as H100.
  pose proof (Z.mod_pos_bound c 10 ltac:(lia)) as H10.
  rewrite !code_digit_char
    by (trivial; split;
        [apply Z.div_pos; lia | apply Z.div_lt_upper_bound; lia]).
  assert (E : c mod 10 = (c mod 100) mod 10).
  { rewrite (Z.div_mod c 100) at 1 by lia.
    replace (100 * (c / 100) + c mod 100)
      with (c mod 100 + 10 * (c / 100) * 10) by lia.
    apply Z.mod_add. lia. }
  rewrite E, code_digit_char by (apply Z.mod_pos_bound; lia).
  pose proof (Z.div_mod (c mod 100) 10 ltac:(lia)). lia.
Qed.

(** What [fixed2] prints is the amount it is given. *)
Lemma fixed2_value (neg : bool) (c : Z) :
  0 <= c -> MoneyText (if neg then "-" else "") c ("¥" ++ Num.fixed2 neg c).
Proof.
  intros Hc. unfold Num.fixed2.
  destruct (decimal_digits (c / 100)) as [Hd Hne].
  destruct (group_grouped _ Hne Hd) as (int & E & G).
  assert (Hu : ungrouped int = list_ascii_of_string (Num.decimal (c / 100))).
  { rewrite <- (group_ungrouped _ Hd), E.
    now rewrite list_ascii_of_string_of_list_ascii. }
  exists int, (Num.digit_char (c mod 100 / 10)), (Num.digit_char (c mod 10)).
  rewrite E. conjuncts; trivial.
  - rewrite Hu.
    destruct (decimal_spells (c / 100) ltac:(apply Z.div_pos; lia))
      as (ds & Eds & _ & _ & Hv).
    now rewrite Eds.
  - apply digit_char_is_digit.
    pose proof (Z.mod_pos_bound c 100 ltac:(lia)).
    split; [apply Z.div_pos; lia | apply Z.div_lt_upper_bound; lia].
  - apply digit_char_is_digit. apply Z.mod_pos_bound. lia.
  - now apply two_decimals_spell.
Qed.

(** [cents] rounds to the nearest hundredth, a half going up. *)
Lemma cents_nearest (s x : Z) :
  0 <= s -> NearestHundredth s x (Num.cents s x).
Proof.
  intros Hs. unfold NearestHundredth, Num.cents.
  destruct (Z.leb_spec 0 (x + 2)); [reflexivity|].
  assert (Hq : 0 < 10 ^ (- (x + 2))) by (apply Z.pow_pos_nonneg; lia).
  set (q := 10 ^ (- (x + 2))) in *.
  pose proof (Z.div_mod (2 * s + q) (2 * q) ltac:(lia)) as E.
  pose proof (Z.mod_pos_bound (2 * s + q) (2 * q) ltac:(lia)) as B.
  set (c := (2 * s + q) / (2 * q)) in *.
  split; nia.
Qed.

(** No other number of hundredths is as near. *)
Lemma nearest_unique (s x c c' : Z) :
  NearestHundredth s x c -> NearestHundredth s x c' -> c' = c.
Proof.
  unfold NearestHundredth. destruct (Z.leb_spec 0 (x + 2)); [congruence|].
  assert (Hq : 0 < 10 ^ (- (x + 2))) by (apply Z.pow_pos_nonneg; lia).
  set (q := 10 ^ (- (x + 2))) in *. intros [H1 H2] [H1' H2']. nia.
Qed.

(** What [toLocaleString] prints for a finite number is that number in
    hundredths. *)
Lemma toLocaleString_value (n : Num.number) :
  finite n = true ->
  exists c,
    Hundredths n c /\ (forall c', Hundredths n c' -> c' = c) /\
    MoneyText (minus n) c ("¥" ++ Num.toLocaleString n).
Proof.
  destruct n as [| |neg|neg m e]; try discriminate; intros _;
    cbn [Num.toLocaleString Hundredths].
  - exists 0. conjuncts; trivial.
    destruct neg;
      [apply (fixed2_value true 0) | apply (fixed2_value false 0)]; lia.
  - pose proof (shortest_decimal_nonneg m e) as H.
    destruct (Num.shortest_decimal m e) as [s x]. cbn [fst snd] in *.
    exists (Num.cents s x). conjuncts.
    + now apply cents_nearest.
    + intros c' Hc'. exact (nearest_unique s x _ _ (cents_nearest s x H) Hc').
    + destruct neg;
        [apply (fixed2_value true) | apply (fixed2_value false)];
        now apply cents_nonneg.
Qed.

(** ** Whole amounts *)

Lemma strip_zeros_value (fuel : nat) (s x : Z) :
  x <= snd (Num.strip_zeros fuel s x) /\
  s = fst (Num.strip_zeros fuel s x)
      * 10 ^ (snd (Num.strip_zeros fuel s x) - x).
Proof.
  revert s x. induction fuel as [|f IH]; intros s x; cbn [Num.strip_zeros].
  - cbn [fst snd]. rewrite Z.sub_diag. simpl. lia.
  - destruct (Z.eqb_spec (s mod 10) 0) as [Hm|Hm]; cbn [andb];
      [|cbn [fst snd]; rewrite Z.sub_diag; simpl; lia].
    destruct (0 <? s); [|cbn [fst snd]; rewrite Z.sub_diag; simpl; lia].
    destruct (IH (s / 10) (x + 1)) as [Hle Hv]. split; [lia|].
    replace (snd (Num.strip_zeros f (s / 10) (x + 1)) - x)
      with (Z.succ (snd (Num.strip_zeros f (s / 10) (x + 1)) - (x + 1)))
      by lia.
    rewrite Z.pow_succ_r by lia.
    pose proof (Z.div_mod s 10 ltac:(lia)) as E. nia.
Qed.

Lemma magnitude_from_upper (fuel : nat) (n t : Z) :
  n < 10 ^ 15 -> t <= 15 -> Num.magnitude_from fuel n 1 t <= 15.
Proof.
  intros Hn. revert t. induction fuel as [|f IH]; intros t Ht;
    cbn [Num.magnitude_from]; [assumption|].
  destruct (Num.lt_pow10 n 1 t) eqn:E; [assumption|].
  apply IH. destruct (Z.eq_dec t 15) as [->|]; [|lia].
  unfold Num.lt_pow10 in E. cbn [Z.leb Z.compare] in E.
  apply Z.ltb_ge in E. lia.
Qed.

Lemma magnitude_from_lower (fuel : nat) (n t : Z) :
  1 <= n ->
  1 <= Num.magnitude_from fuel n 1 t \/
  Num.magnitude_from fuel n 1 t = t + Z.of_nat fuel.
Proof.
  intros Hn. revert t. induction fuel as [|f IH]; intros t;
    cbn [Num.magnitude_from]; [right; simpl; lia|].
  destruct (Num.lt_pow10 n 1 t) eqn:E.
  - left. unfold Num.lt_pow10 in E.
    destruct (Z.leb_spec 0 t) as [Ht|Ht].
    + apply Z.ltb_lt in E. destruct (Z.eq_dec t 0) as [->|]; [|lia].
      simpl in E. lia.
    + apply Z.ltb_lt in E.
      assert (0 < 10 ^ (- t)) by (apply Z.pow_pos_nonneg; lia). nia.
  - destruct (IH (t + 1)) as [H|H]; [now left | right].
    rewrite H. lia.
Qed.

(** The magnitude that the search for the digits starts from. *)
Lemma magnitude10_integer (n : Z) :
  0 < n < 10 ^ 15 -> 1 <= Num.magnitude10 n 1 <= 15.
Proof.
  intros Hn. unfold Num.magnitude10. change (Z.log2 1) with 0.
  rewrite Z.sub_0_r.
  assert (L0 : 0 <= Z.log2 n) by apply Z.log2_nonneg.
  assert (L1 : Z.log2 n < 50).
  { apply Z.log2_lt_pow2; [lia|]. apply Z.lt_trans with (10 ^ 15); [lia|].
    reflexivity. }
  assert (B : -2 <= Z.log2 n * 30103 / 100000 - 2 <= 12).
  { pose proof (Z.div_mod (Z.log2 n * 30103) 100000 ltac:(lia)).
    pose proof (Z.mod_pos_bound (Z.log2 n * 30103) 100000 ltac:(lia)).
    lia. }
  split.
  - destruct (magnitude_from_lower 8 n (Z.log2 n * 30103 / 100000 - 2))
      as [H|H]; [lia | assumption |]. rewrite H. simpl. lia.
  - apply magnitude_from_upper; lia.
Qed.

(** A numeral of digits and zeros that reads back as the double of a whole
    number below [2^53] is a numeral of that number. *)
Lemma reads_integer (m : positive) (e n c x : Z) (neg : bool) :
  Num.to_Z (Num.Fin false m e) = Some n -> 0 < n ->
  0 <= x -> c * 10 ^ x < 2 ^ 53 ->
  Num.of_decimal false c x = Num.Fin neg m e ->
  c * 10 ^ x = n.
Proof.
  intros Hn Hpos Hx Hc E. unfold Num.of_decimal in E.
  replace (0 <=? x) with true in E by (symmetry; apply Z.leb_le; lia).
  destruct (Z.leb_spec (c * 10 ^ x) 0) as [Hz|Hz].
  - unfold Num.round64 in E.
    replace (c * 10 ^ x <=? 0) with true in E
      by (symmetry; apply Z.leb_le; lia).
    discriminate.
  - pose proof (of_Z_exact (c * 10 ^ x) ltac:(lia)) as H.
    unfold Num.of_Z in H.
    replace (c * 10 ^ x <? 0) with false in H
      by (symmetry; apply Z.ltb_ge; lia).
    rewrite Z.abs_eq, E in H by lia.
    apply to_Z_Fin in H. apply to_Z_Fin in Hn.
    destruct H as [He H], Hn as [_ Hn].
    pose proof (pow2_pos e He).
    assert (0 < Zpos m * 2 ^ e) by (apply Z.mul_pos_pos; lia).
    destruct neg; lia.
Qed.

(** The search for the digits of a whole number ends on a numeral of that
    number, before the digits run past the units. *)
Lemma shortest_from_integer (m : positive) (e n N : Z) :
  0 < n < 10 ^ 15 ->
  Num.to_Z (Num.Fin false m e) = Some n ->
  Num.of_Z n = Num.Fin false m e ->
  N <= 15 ->
  forall (fuel : nat) (k : Z),
    1 <= k <= N -> N - k < Z.of_nat fuel ->
    0 <= snd (Num.shortest_from fuel k m e n 1 N) /\
    fst (Num.shortest_from fuel k m e n 1 N)
    * 10 ^ snd (Num.shortest_from fuel k m e n 1 N) = n.
Proof.
  intros Hn Hz Hof HN. induction fuel as [|f IH]; intros k Hk Hf; [lia|].
  cbn [Num.shortest_from]. cbv zeta.
  set (x := N - k). assert (Hx : 0 <= x <= 14) by (unfold x; lia).
  replace (0 <=? x) with true by (symmetry; apply Z.leb_le; lia).
  assert (P14 : 0 < 10 ^ x <= 10 ^ 14).
  { split; [apply Z.pow_pos_nonneg; lia | apply Z.pow_le_mono_r; lia]. }
  set (lo := n / (1 * 10 ^ x)).
  assert (Hlo : 0 <= lo /\ lo * 10 ^ x <= n).
  { unfold lo. rewrite Z.mul_1_l. split; [apply Z.div_pos; lia|].
    rewrite Z.mul_comm. apply Z.mul_div_le. lia. }
  assert (B53 : (10 : Z) ^ 15 + 10 ^ 14 < 2 ^ 53) by reflexivity.
  assert (Rlo : forall neg, Num.of_decimal false lo x = Num.Fin neg m e ->
                            lo * 10 ^ x = n).
  { intros neg. apply (reads_integer m e n lo x neg); trivial; lia. }
  assert (Rhi : forall neg,
             Num.of_decimal false (lo + 1) x = Num.Fin neg m e ->
             (lo + 1) * 10 ^ x = n).
  { intros neg. apply (reads_integer m e n (lo + 1) x neg); trivial; nia. }
  assert (Last : k = N -> Num.of_decimal false lo x = Num.Fin false m e).
  { intros ->. unfold lo, x. rewrite Z.sub_diag. change (10 ^ 0) with 1.
    change (1 * 1) with 1. rewrite Z.div_1_r. rewrite <- Hof.
    unfold Num.of_decimal, Num.of_Z. cbn [Z.leb Z.compare].
    change (10 ^ 0) with 1. rewrite Z.mul_1_r, Z.abs_eq by lia.
    replace (n <? 0) with false by (symmetry; apply Z.ltb_ge; lia).
    reflexivity. }
  assert (Next : k <> N ->
            0 <= snd (Num.shortest_from f (k + 1) m e n 1 N) /\
            fst (Num.shortest_from f (k + 1) m e n 1 N)
            * 10 ^ snd (Num.shortest_from f (k + 1) m e n 1 N) = n)
    by (intros Hne; apply IH; unfold x in *; lia).
  destruct (Num.of_decimal false lo x) as [| | |s1 m1 e1] eqn:Elo;
    destruct (Num.of_decimal false (lo + 1) x) as [| | |s2 m2 e2] eqn:Ehi;
    repeat match goal with
      | |- context [Pos.eqb m ?m'] =>
          destruct (Pos.eqb_spec m m') as [<-|]
      | |- context [Z.eqb e ?e'] =>
          destruct (Z.eqb_spec e e') as [<-|]
      | |- context [match (2 * ?a ?= ?b) with _ => _ end] =>
          destruct (2 * a ?= b)
      | |- context [if Z.even ?a then _ else _] => destruct (Z.even a)
      end;
    cbn [andb fst snd];
    try (split; [lia | solve [eapply Rlo; reflexivity
                             | eapply Rhi; reflexivity]]);
    try (apply Next; intros ->; specialize (Last eq_refl);
         congruence).
Qed.

(** The double of a positive whole number below [2^53]. *)
Lemma of_Z_positive (n : Z) :
  0 < n < 2 ^ 53 ->
  exists m e,
    Num.of_Z n = Num.Fin false m e /\ 0 <= e /\ n = Zpos m * 2 ^ e.
Proof.
  intros Hn. pose proof (of_Z_exact n Hn) as H.
  destruct (Num.of_Z n) as [| |s|s m e]; try discriminate.
  - unfold Num.to_Z in H. injection H as H. lia.
  - apply to_Z_Fin in H. destruct H as [He H].
    pose proof (pow2_pos e He).
    assert (0 < Zpos m * 2 ^ e) by (apply Z.mul_pos_pos; lia).
    destruct s; [lia|]. exists m, e. repeat split; lia.
Qed.

(** The shortest decimal numeral of a whole number is a numeral of that
    number. *)
Lemma shortest_decimal_integer (m : positive) (e n : Z) :
  0 < n < 10 ^ 15 ->
  Num.of_Z n = Num.Fin false m e -> 0 <= e -> n = Zpos m * 2 ^ e ->
  0 <= snd (Num.shortest_decimal m e) /\
  fst (Num.shortest_decimal m e) * 10 ^ snd (Num.shortest_decimal m e) = n.
Proof.
  intros Hn Hof He Hv.
  assert (Hz : Num.to_Z (Num.Fin false m e) = Some n).
  { unfold Num.to_Z.
    replace (0 <=? e) with true by (symmetry; apply Z.leb_le; lia).
    f_equal. lia. }
  unfold Num.shortest_decimal, Num.ratio.
  replace (0 <=? e) with true by (symmetry; apply Z.leb_le; lia).
  rewrite <- Hv.
  pose proof (magnitude10_integer n Hn) as HN.
  pose proof (shortest_from_integer m e n (Num.magnitude10 n 1) Hn Hz Hof
                ltac:(lia) 17 1 ltac:(lia) ltac:(simpl; lia)) as [Hx Hs].
  destruct (Num.shortest_from 17 1 m e n 1 (Num.magnitude10 n 1)) as [s x].
  cbn [fst snd] in Hx, Hs.
  destruct (strip_zeros_value 400 s x) as [Hle Hs'].
  split; [lia|].
  replace (10 ^ snd (Num.strip_zeros 400 s x))
    with (10 ^ (snd (Num.strip_zeros 400 s x) - x) * 10 ^ x)
    by (rewrite <- Z.pow_add_r by lia; f_equal; lia).
  rewrite Z.mul_assoc, <- Hs'. exact Hs.
Qed.

(** A whole amount is printed as its numeral in groups of three and two
    zeros. *)
Lemma toLocaleString_integer (n : Z) :
  0 <= n < 10 ^ 15 ->
  Num.toLocaleString (Num.of_Z n) = Num.group (Num.decimal n) ++ ".00".
Proof.
  intros Hn. destruct (Z.eq_dec n 0) as [->|Hz]; [reflexivity|].
  assert (H53 : (10 : Z) ^ 15 < 2 ^ 53) by reflexivity.
  destruct (of_Z_positive n ltac:(lia)) as (m & e & Hof & He & Hv).
  rewrite Hof. cbn [Num.toLocaleString].
  destruct (shortest_decimal_integer m e n ltac:(lia) Hof He Hv)
    as [Hx Hs].
  destruct (Num.shortest_decimal m e) as [s x]. cbn [fst snd] in Hx, Hs.
  assert (Hc : Num.cents s x = n * 100).
  { unfold Num.cents.
    replace (0 <=? x + 2) with true by (symmetry; apply Z.leb_le; lia).
    rewrite Z.pow_add_r by lia. change (10 ^ 2) with 100. lia. }
  rewrite Hc. unfold Num.fixed2.
  rewrite Z.div_mul by lia.
  replace (n * 100 mod 100) with 0 by (symmetry; apply Z.mod_mul; lia).
  replace (n * 100 mod 10) with 0.
  - reflexivity.
  - symmetry. replace (n * 100) with (n * 10 * 10) by lia.
    apply Z.mod_mul. lia.
Qed.

(** ** The shortest numeral reads back *)

Lemma above_pow2_shift (a b t K : Z) :
  0 < a -> 0 < b -> 0 <= K -> 0 <= t + K ->
  above_pow2 a b t = (b * 2 ^ (t + K) <=? a * 2 ^ K).
Proof.
  intros Ha Hb HK HtK. unfold above_pow2.
  assert (PK : 0 < 2 ^ K) by (apply Z.pow_pos_nonneg; lia).
  destruct (Z.leb_spec 0 t) as [Ht|Ht].
  - rewrite Z.pow_add_r by lia.
    assert (Pt : 0 < 2 ^ t) by (apply Z.pow_pos_nonneg; lia).
    destruct (Z.leb_spec (b * 2 ^ t) a), (Z.leb_spec (b * (2 ^ t * 2 ^ K)) (a * 2 ^ K));
      trivial; exfalso; nia.
  - replace K with ((t + K) + (- t)) at 2 by lia.
    rewrite (Z.pow_add_r 2 (t + K) (- t)) by lia.
    assert (Pt : 0 < 2 ^ (t + K)) by (apply Z.pow_pos_nonneg; lia).
    assert (Pn : 0 < 2 ^ (- t)) by (apply Z.pow_pos_nonneg; lia).
    destruct (Z.leb_spec b (a * 2 ^ (- t))),
      (Z.leb_spec (b * 2 ^ (t + K)) (a * (2 ^ (t + K) * 2 ^ (- t))));
      trivial; exfalso; nia.
Qed.

Lemma above_pow2_mono (a b t t' : Z) :
  0 < a -> 0 < b -> t <= t' ->
  above_pow2 a b t' = true -> above_pow2 a b t = true.
Proof.
  intros Ha Hb Hle.
  rewrite (above_pow2_shift a b t' (Z.abs t + Z.abs t')),
    (above_pow2_shift a b t (Z.abs t + Z.abs t')) by lia.
  intros H. apply Z.leb_le in H. apply Z.leb_le.
  apply Z.le_trans with (2 := H). apply Z.mul_le_mono_nonneg_l; [lia|].
  apply Z.pow_le_mono_r; lia.
Qed.

(** [ilog2 a b] is the [L] with [2^L <= a / b < 2^(L+1)]. *)
Lemma ilog2_spec (a b : Z) :
  0 < a -> 0 < b ->
  above_pow2 a b (Num.ilog2 a b) = true /\
  above_pow2 a b (Num.ilog2 a b + 1) = false.
Proof.
  intros Ha Hb.
  destruct (Z.log2_spec a Ha) as [La Ua], (Z.log2_spec b Hb) as [Lb Ub].
  assert (la : 0 <= Z.log2 a) by apply Z.log2_nonneg.
  assert (lb : 0 <= Z.log2 b) by apply Z.log2_nonneg.
  set (l := Z.log2 a - Z.log2 b).
  assert (Below : above_pow2 a b (l - 1) = true).
  { rewrite (above_pow2_shift a b (l - 1) (Z.log2 b + 1)) by (unfold l; lia).
    replace (l - 1 + (Z.log2 b + 1)) with (Z.log2 a) by (unfold l; lia).
    apply Z.leb_le. rewrite <- Z.add_1_r in Ub.
    assert (0 < 2 ^ Z.log2 a) by (apply Z.pow_pos_nonneg; lia). nia. }
  assert (Above : above_pow2 a b (l + 1) = false).
  { rewrite (above_pow2_shift a b (l + 1) (Z.log2 b + 1)) by (unfold l; lia).
    replace (l + 1 + (Z.log2 b + 1)) with (Z.succ (Z.succ (Z.log2 a)))
      by (unfold l; lia).
    apply Z.leb_gt. rewrite !Z.pow_succ_r, Z.pow_add_r by lia.
    rewrite Z.pow_succ_r in Ua by lia. change (2 ^ 1) with 2.
    assert (0 < 2 ^ Z.log2 a) by (apply Z.pow_pos_nonneg; lia).
    assert (0 < 2 ^ Z.log2 b) by (apply Z.pow_pos_nonneg; lia). nia. }
  unfold Num.ilog2. fold l. fold (above_pow2 a b l).
  destruct (above_pow2 a b l) eqn:E; [split; trivial|].
  split; [exact Below|]. now replace (l - 1 + 1) with l by lia.
Qed.

Lemma ilog2_unique (a b L : Z) :
  0 < a -> 0 < b ->
  above_pow2 a b L = true -> above_pow2 a b (L + 1) = false ->
  Num.ilog2 a b = L.
Proof.
  intros Ha Hb H1 H2. destruct (ilog2_spec a b Ha Hb) as [G1 G2].
  destruct (Z.lt_trichotomy (Num.ilog2 a b) L) as [Hlt|[->|Hgt]]; trivial.
  - rewrite (above_pow2_mono a b (Num.ilog2 a b + 1) L) in G2;
      trivial; [discriminate | lia].
  - rewrite (above_pow2_mono a b (L + 1) (Num.ilog2 a b)) in H2;
      trivial; [discriminate | lia].
Qed.

Lemma above_pow2_scale (a b c t : Z) :
  0 < c -> above_pow2 (a * c) (b * c) t = above_pow2 a b t.
Proof.
  intros Hc. unfold above_pow2. destruct (0 <=? t).
  - destruct (Z.leb_spec (b * 2 ^ t) a), (Z.leb_spec (b * c * 2 ^ t) (a * c));
      trivial; exfalso; nia.
  - destruct (Z.leb_spec b (a * 2 ^ (- t))),
      (Z.leb_spec (b * c) (a * c * 2 ^ (- t))); trivial; exfalso; nia.
Qed.

Lemma ilog2_scale (a b c : Z) :
  0 < a -> 0 < b -> 0 < c -> Num.ilog2 (a * c) (b * c) = Num.ilog2 a b.
Proof.
  intros Ha Hb Hc. destruct (ilog2_spec a b Ha Hb) as [G1 G2].
  apply ilog2_unique; try nia; now rewrite above_pow2_scale.
Qed.

Lemma div_half_even_scale (a b c : Z) :
  0 < b -> 0 < c -> Num.div_half_even (a * c) (b * c) = Num.div_half_even a b.
Proof.
  intros Hb Hc. unfold Num.div_half_even.
  rewrite Z.div_mul_cancel_r, Z.mul_mod_distr_r by lia.
  replace (2 * (a mod b * c)) with (2 * (a mod b) * c) by lia.
  assert (E : (2 * (a mod b) * c ?= b * c) = (2 * (a mod b) ?= b)).
  { destruct (Z.compare_spec (2 * (a mod b)) b),
      (Z.compare_spec (2 * (a mod b) * c) (b * c)); trivial; exfalso; nia. }
  rewrite E. reflexivity.
Qed.

(** The double nearest to a fraction does not depend on how the fraction is
    written. *)
Lemma round64_scale (neg : bool) (a b c : Z) :
  0 < a -> 0 < b -> 0 < c ->
  Num.round64 neg (a * c) (b * c) = Num.round64 neg a b.
Proof.
  intros Ha Hb Hc. unfold Num.round64.
  replace (a * c <=? 0) with false by (symmetry; apply Z.leb_gt; nia).
  replace (a <=? 0) with false by (symmetry; apply Z.leb_gt; lia).
  rewrite ilog2_scale by assumption.
  set (k := Z.max (Num.ilog2 a b - 52) (-1074)).
  assert (E : (if 0 <=? k then Num.div_half_even (a * c) (b * c * 2 ^ k)
               else Num.div_half_even (a * c * 2 ^ (- k)) (b * c))
              = (if 0 <=? k then Num.div_half_even a (b * 2 ^ k)
                 else Num.div_half_even (a * 2 ^ (- k)) b)).
  { destruct (Z.leb_spec 0 k).
    - replace (b * c * 2 ^ k) with (b * 2 ^ k * c) by lia.
      apply div_half_even_scale; trivial.
      assert (0 < 2 ^ k) by (apply Z.pow_pos_nonneg; lia). nia.
    - replace (a * c * 2 ^ (- k)) with (a * 2 ^ (- k) * c) by lia.
      now apply div_half_even_scale. }
  rewrite E. reflexivity.
Qed.

(** A zero at the end of the digits can go to the power of ten. *)
Lemma of_decimal_shift (s x : Z) :
  0 < s -> s mod 10 = 0 ->
  Num.of_decimal false (s / 10) (x + 1) = Num.of_decimal false s x.
Proof.
  intros Hs Hm.
  assert (E : s = s / 10 * 10)
    by (pose proof (Z.div_mod s 10 ltac:(lia)); lia).
  assert (Hq : 0 < s / 10) by lia.
  unfold Num.of_decimal.
  destruct (Z.leb_spec 0 x) as [Hx|Hx].
  - replace (0 <=? x + 1) with true by (symmetry; apply Z.leb_le; lia).
    f_equal. rewrite Z.pow_add_r by lia. change (10 ^ 1) with 10. lia.
  - destruct (Z.eq_dec x (-1)) as [->|Hx1].
    + cbn [Z.add Z.leb Z.compare Z.opp Z.pos_sub]. change (10 ^ 0) with 1.
      change (10 ^ 1) with 10. rewrite Z.mul_1_r.
      rewrite E at 2. rewrite <- (round64_scale false (s / 10) 1 10) by lia.
      reflexivity.
    + replace (0 <=? x + 1) with false by (symmetry; apply Z.leb_gt; lia).
      replace (- x) with (Z.succ (- (x + 1))) by lia.
      rewrite Z.pow_succ_r by lia.
      rewrite E at 2.
      rewrite (Z.mul_comm 10 (10 ^ (- (x + 1)))).
      apply eq_sym, round64_scale;
        [lia | apply Z.pow_pos_nonneg; lia | lia].
Qed.

Lemma strip_zeros_reads_back (fuel : nat) (s x : Z) (d : Num.number) :
  0 < s -> Num.of_decimal false s x = d ->
  Num.of_decimal false (fst (Num.strip_zeros fuel s x))
    (snd (Num.strip_zeros fuel s x)) = d.
Proof.
  revert s x. induction fuel as [|f IH]; intros s x Hs E;
    cbn [Num.strip_zeros]; [exact E|].
  destruct (Z.eqb_spec (s mod 10) 0) as [Hm|Hm]; cbn [andb]; [|exact E].
  replace (0 <? s) with true by (symmetry; apply Z.ltb_lt; lia).
  apply IH.
  - pose proof (Z.div_mod s 10 ltac:(lia)). lia.
  - now rewrite of_decimal_shift.
Qed.

Lemma round64_sign (neg neg' : bool) (a b : Z) (m : positive) (e : Z) :
  Num.round64 neg a b = Num.Fin neg' m e -> neg' = neg.
Proof.
  unfold Num.round64.
  destruct (a <=? 0); [discriminate|].
  destruct (_ =? 0); [discriminate|].
  destruct (_ || _); [discriminate|].
  destruct (Num.norm _ _). congruence.
Qed.

Lemma of_decimal_sign (neg neg' : bool) (d x : Z) (m : positive) (e : Z) :
  Num.of_decimal neg d x = Num.Fin neg' m e -> neg' = neg.
Proof.
  unfold Num.of_decimal. destruct (0 <=? x); apply round64_sign.
Qed.

(** The search stops on digits that read back as the double, or runs out
    of digits and returns none. *)
Lemma shortest_from_reads_back (fuel : nat) (k : Z) (m : positive)
  (e a b n : Z) :
  fst (Num.shortest_from fuel k m e a b n) <= 0 \/
  Num.of_decimal false (fst (Num.shortest_from fuel k m e a b n))
    (snd (Num.shortest_from fuel k m e a b n)) = Num.Fin false m e.
Proof.
  revert k. induction fuel as [|f IH]; intros k; [left; simpl; lia|].
  cbn [Num.shortest_from]. cbv zeta.
  set (x := n - k).
  set (num := if 0 <=? x then a else a * 10 ^ (- x)).
  set (den := if 0 <=? x then b * 10 ^ x else b).
  destruct (Num.of_decimal false (num / den) x) as [| | |s1 m1 e1] eqn:Elo;
    destruct (Num.of_decimal false (num / den + 1) x)
      as [| | |s2 m2 e2] eqn:Ehi;
    repeat match goal with
      | |- context [Pos.eqb m ?m'] =>
          destruct (Pos.eqb_spec m m') as [<-|]
      | |- context [Z.eqb e ?e'] =>
          destruct (Z.eqb_spec e e') as [<-|]
      | |- context [match (2 * ?u ?= ?v) with _ => _ end] =>
          destruct (2 * u ?= v)
      | |- context [if Z.even ?u then _ else _] => destruct (Z.even u)
      end;
    cbn [andb fst snd];
    try apply IH;
    right;
    first [ rewrite Elo; f_equal; apply (of_decimal_sign _ _ _ _ _ _ Elo)
          | rewrite Ehi; f_equal; apply (of_decimal_sign _ _ _ _ _ _ Ehi) ].
Qed.

(** The shortest decimal numeral of a double reads back as the double,
    whenever the search has found one. *)
Lemma shortest_decimal_reads_back (m : positive) (e : Z) :
  0 < fst (Num.shortest_decimal m e) ->
  Num.of_decimal false (fst (Num.shortest_decimal m e))
    (snd (Num.shortest_decimal m e)) = Num.Fin false m e.
Proof.
  unfold Num.shortest_decimal.
  destruct (Num.ratio m e) as [a b].
  pose proof (shortest_from_reads_back 17 1 m e a b (Num.magnitude10 a b))
    as H.
  destruct (Num.shortest_from 17 1 m e a b (Num.magnitude10 a b)) as [s x].
  cbn [fst snd] in H. intros Hpos.
  destruct (Z.leb_spec s 0) as [Hs|Hs].
  - exfalso. destruct (strip_zeros_value 400 s x) as [_ Hv].
    assert (0 < 10 ^ (snd (Num.strip_zeros 400 s x) - x))
      by (apply Z.pow_pos_nonneg;
          [lia | pose proof (proj1 (strip_zeros_value 400 s x)); lia]).
    nia.
  - destruct H as [H|H]; [lia|]. now apply strip_zeros_reads_back.
Qed.

Lemma round64_any_sign (neg : bool) (a b : Z) (m : positive) (e : Z) :
  Num.round64 false a b = Num.Fin false m e ->
  Num.round64 neg a b = Num.Fin neg m e.
Proof.
  unfold Num.round64.
  destruct (a <=? 0); [discriminate|].
  destruct (_ =? 0); [discriminate|].
  destruct (_ || _); [discriminate|].
  destruct (Num.norm _ _). congruence.
Qed.

(** The numeral that is rounded to hundredths reads back as the amount. *)
Lemma numeral_reads_back (neg : bool) (m : positive) (e : Z) :
  0 < fst (Num.shortest_decimal m e) ->
  Num.of_decimal neg (fst (Num.shortest_decimal m e))
    (snd (Num.shortest_decimal m e)) = Num.Fin neg m e.
Proof.
  intros H. pose proof (shortest_decimal_reads_back m e H) as E.
  unfold Num.of_decimal in *.
  destruct (0 <=? snd (Num.shortest_decimal m e));
    now apply round64_any_sign.
Qed.

(** ** Amounts in hundredths *)

Lemma div_half_even_bound (a b : Z) :
  0 <= a -> 0 < b ->
  a / b <= Num.div_half_even a b <= a / b + 1 /\
  Z.abs (2 * Num.div_half_even a b * b - 2 * a) <= b.
Proof.
  intros Ha Hb. unfold Num.div_half_even.
  pose proof (Z.div_mod a b ltac:(lia)) as E.
  pose proof (Z.mod_pos_bound a b Hb) as B.
  destruct (Z.compare_spec (2 * (a mod b)) b) as [C|C|C];
    [destruct (Z.even (a / b))| |]; split; try lia; nia.
Qed.

(** What [round64] returns for a positive fraction: a count [n] of units
    [2^k]. *)
Lemma round64_shape (a b : Z) (m : positive) (e : Z) :
  0 < a -> 0 < b ->
  Num.round64 false a b = Num.Fin false m e ->
  Z.max (Num.ilog2 a b - 52) (-1074) <= e /\
  0 < Zpos m * 2 ^ (e - Z.max (Num.ilog2 a b - 52) (-1074)) /\
  Zpos m * 2 ^ (e - Z.max (Num.ilog2 a b - 52) (-1074))
  = (if 0 <=? Z.max (Num.ilog2 a b - 52) (-1074)
     then Num.div_half_even a (b * 2 ^ Z.max (Num.ilog2 a b - 52) (-1074))
     else Num.div_half_even
            (a * 2 ^ (- Z.max (Num.ilog2 a b - 52) (-1074))) b).
Proof.
  intros Ha Hb. unfold Num.round64.
  replace (a <=? 0) with false by (symmetry; apply Z.leb_gt; lia).
  set (k := Z.max (Num.ilog2 a b - 52) (-1074)).
  set (n := if 0 <=? k then Num.div_half_even a (b * 2 ^ k)
            else Num.div_half_even (a * 2 ^ (- k)) b).
  assert (Hn : 0 <= n).
  { unfold n. destruct (Z.leb_spec 0 k).
    - assert (0 < 2 ^ k) by (apply Z.pow_pos_nonneg; lia).
      pose proof (proj1 (div_half_even_bound a (b * 2 ^ k) ltac:(lia)
                           ltac:(nia))).
      pose proof (Z.div_pos a (b * 2 ^ k) ltac:(lia) ltac:(nia)). lia.
    - assert (0 < 2 ^ (- k)) by (apply Z.pow_pos_nonneg; lia).
      pose proof (proj1 (div_half_even_bound (a * 2 ^ (- k)) b ltac:(nia)
                           Hb)).
      pose proof (Z.div_pos (a * 2 ^ (- k)) b ltac:(nia) Hb). lia. }
  destruct (Z.eqb_spec n 0) as [|Hz]; [discriminate|].
  destruct (_ || _); [discriminate|].
  pose proof (norm_value (Z.to_pos n) k) as [Hle Hv].
  destruct (Num.norm (Z.to_pos n) k) as [m' e']. cbn [fst snd] in *.
  intros H. injection H as -> ->.
  rewrite Z2Pos.id in Hv by lia. split; [lia|]. split; lia.
Qed.

Lemma ilog2_between (a b lo hi : Z) :
  0 < a -> 0 < b ->
  above_pow2 a b lo = true -> above_pow2 a b hi = false ->
  lo <= Num.ilog2 a b < hi.
Proof.
  intros Ha Hb H1 H2. destruct (ilog2_spec a b Ha Hb) as [G1 G2]. split.
  - destruct (Z.le_gt_cases lo (Num.ilog2 a b)) as [|Hlt]; trivial.
    rewrite (above_pow2_mono a b (Num.ilog2 a b + 1) lo) in G2;
      trivial; [discriminate | lia].
  - destruct (Z.lt_ge_cases (Num.ilog2 a b) hi) as [|Hge]; trivial.
    rewrite (above_pow2_mono a b hi (Num.ilog2 a b)) in H2;
      trivial; discriminate.
Qed.

(** The count of units has 53 bits. *)
Lemma round64_count (a b : Z) :
  0 < a -> 0 < b -> Num.ilog2 a b - 52 < 0 ->
  2 ^ 52 <= Num.div_half_even (a * 2 ^ (- (Num.ilog2 a b - 52))) b
         <= 2 ^ 53.
Proof.
  intros Ha Hb Hneg. destruct (ilog2_spec a b Ha Hb) as [G1 G2].
  set (L := Num.ilog2 a b) in *.
  rewrite (above_pow2_shift a b L (52 - L)) in G1 by lia.
  rewrite (above_pow2_shift a b (L + 1) (52 - L)) in G2 by lia.
  replace (L + (52 - L)) with 52 in G1 by lia.
  replace (L + 1 + (52 - L)) with 53 in G2 by lia.
  apply Z.leb_le in G1. apply Z.leb_gt in G2.
  replace (- (L - 52)) with (52 - L) by lia.
  assert (P : 0 < 2 ^ (52 - L)) by (apply Z.pow_pos_nonneg; lia).
  set (A := a * 2 ^ (52 - L)) in *.
  pose proof (proj1 (div_half_even_bound A b ltac:(unfold A; nia) Hb))
    as [Hlo Hhi].
  assert (2 ^ 52 <= A / b) by (apply Z.div_le_lower_bound; lia).
  assert (A / b < 2 ^ 53) by (apply Z.div_lt_upper_bound; lia).
  lia.
Qed.

Lemma round64_count_lower (a b : Z) :
  0 < a -> 0 < b -> -1074 <= Num.ilog2 a b - 52 ->
  2 ^ 52 <= (if 0 <=? Num.ilog2 a b - 52
             then Num.div_half_even a (b * 2 ^ (Num.ilog2 a b - 52))
             else Num.div_half_even
                    (a * 2 ^ (- (Num.ilog2 a b - 52))) b).
Proof.
  intros Ha Hb Hk. destruct (Z.leb_spec 0 (Num.ilog2 a b - 52)) as [Hp|Hn].
  - destruct (ilog2_spec a b Ha Hb) as [G1 _].
    set (L := Num.ilog2 a b) in *.
    unfold above_pow2 in G1.
    replace (0 <=? L) with true in G1 by (symmetry; apply Z.leb_le; lia).
    apply Z.leb_le in G1.
    replace L with (52 + (L - 52)) in G1 by lia.
    rewrite Z.pow_add_r in G1 by lia.
    assert (P : 0 < 2 ^ (L - 52)) by (apply Z.pow_pos_nonneg; lia).
    pose proof (proj1 (div_half_even_bound a (b * 2 ^ (L - 52))
                         ltac:(lia) ltac:(nia))) as [Hlo _].
    assert (2 ^ 52 <= a / (b * 2 ^ (L - 52)))
      by (apply Z.div_le_lower_bound; nia).
    lia.
  - now apply round64_count.
Qed.

(** A double differs from the hundredths it was read from by less than
    [100 * 2^(k-1)] hundredths, [2^k] being its unit. *)
Lemma round64_near (a K : Z) (m : positive) (e : Z) :
  0 < a -> 1 <= K ->
  Num.round64 false a 100 = Num.Fin false m e ->
  Z.max (Num.ilog2 a 100 - 52) (-1074) <= - K ->
  0 < fst (Num.ratio m e) /\ 0 < snd (Num.ratio m e) /\
  2 ^ K * Z.abs (200 * fst (Num.ratio m e) - 2 * a * snd (Num.ratio m e))
  <= 100 * snd (Num.ratio m e).
Proof.
  intros Ha HK E Hk.
  destruct (round64_shape a 100 m e Ha ltac:(lia) E) as (Hle & Hpos & Hn).
  set (k := Z.max (Num.ilog2 a 100 - 52) (-1074)) in *.
  replace (0 <=? k) with false in Hn by (symmetry; apply Z.leb_gt; lia).
  assert (Pk : 0 < 2 ^ (- k)) by (apply Z.pow_pos_nonneg; lia).
  pose proof (proj2 (div_half_even_bound (a * 2 ^ (- k)) 100 ltac:(nia)
                       ltac:(lia))) as B.
  rewrite <- Hn in B.
  assert (PK : 2 ^ K <= 2 ^ (- k)) by (apply Z.pow_le_mono_r; lia).
  assert (P0 : 0 < 2 ^ K) by (apply Z.pow_pos_nonneg; lia).
  assert (Pe : 0 < 2 ^ (e - k)) by (apply Z.pow_pos_nonneg; lia).
  unfold Num.ratio. destruct (Z.leb_spec 0 e) as [He|He]; cbn [fst snd].
  - assert (P : 0 < 2 ^ e) by (apply Z.pow_pos_nonneg; lia).
    split; [nia|]. split; [lia|].
    replace (e - k) with (e + - k) in B by lia.
    rewrite Z.pow_add_r in B by lia.
    replace (2 * (Z.pos m * (2 ^ e * 2 ^ (- k))) * 100
             - 2 * (a * 2 ^ (- k)))
      with (2 ^ (- k) * (200 * (Z.pos m * 2 ^ e) - 2 * a * 1)) in B by lia.
    rewrite Z.abs_mul, (Z.abs_eq (2 ^ (- k))) in B by lia.
    pose proof (Z.abs_nonneg (200 * (Z.pos m * 2 ^ e) - 2 * a * 1)). nia.
  - assert (P : 0 < 2 ^ (- e)) by (apply Z.pow_pos_nonneg; lia).
    split; [lia|]. split; [lia|].
    assert (Ek : 2 ^ (- k) = 2 ^ (e - k) * 2 ^ (- e))
      by (rewrite <- Z.pow_add_r by lia; f_equal; lia).
    rewrite Ek in B.
    replace (2 * (Z.pos m * 2 ^ (e - k)) * 100
             - 2 * (a * (2 ^ (e - k) * 2 ^ (- e))))
      with (2 ^ (e - k) * (200 * Z.pos m - 2 * a * 2 ^ (- e))) in B by lia.
    rewrite Z.abs_mul, (Z.abs_eq (2 ^ (e - k))) in B by lia.
    pose proof (Z.abs_nonneg (200 * Z.pos m - 2 * a * 2 ^ (- e))).
    rewrite Ek in PK. nia.
Qed.

(** The unit of the double of an amount below [10^13]. *)
Lemma hundredths_unit (c : Z) :
  0 < c < 10 ^ 15 -> Z.max (Num.ilog2 c 100 - 52) (-1074) <= -9.
Proof.
  intros Hc.
  destruct (ilog2_spec c 100 ltac:(lia) ltac:(lia)) as [G1 _].
  destruct (Z.lt_ge_cases (Num.ilog2 c 100) 44) as [|Hge]; [lia|].
  exfalso.
  pose proof (above_pow2_mono c 100 44 (Num.ilog2 c 100) ltac:(lia)
                ltac:(lia) Hge G1) as H.
  unfold above_pow2 in H. cbn [Z.leb Z.compare] in H.
  apply Z.leb_le in H.
  assert ((10 : Z) ^ 15 < 100 * 2 ^ 44) by reflexivity. lia.
Qed.

(** Two numbers of hundredths that read as one double have units that
    differ by one binary place at most. *)
Lemma same_double_unit (c S : Z) (m : positive) (e : Z) :
  0 < c < 10 ^ 15 -> 0 < S ->
  Num.round64 false c 100 = Num.Fin false m e ->
  Num.round64 false S 100 = Num.Fin false m e ->
  Z.max (Num.ilog2 S 100 - 52) (-1074) <= -8.
Proof.
  intros Hc HS Ec ES.
  pose proof (hundredths_unit c Hc) as Hk2.
  destruct (round64_shape c 100 m e ltac:(lia) ltac:(lia) Ec)
    as (Hle2 & Hpos2 & Hn2).
  destruct (round64_shape S 100 m e HS ltac:(lia) ES)
    as (Hle1 & Hpos1 & Hn1).
  set (k2 := Z.max (Num.ilog2 c 100 - 52) (-1074)) in *.
  set (k1 := Z.max (Num.ilog2 S 100 - 52) (-1074)) in *.
  destruct (Z.le_gt_cases k1 (-8)) as [|Hgt]; trivial. exfalso.
  assert (Ek1 : k1 = Num.ilog2 S 100 - 52) by (unfold k1 in *; lia).
  pose proof (round64_count_lower S 100 HS ltac:(lia) ltac:(lia)) as Lo.
  rewrite <- Ek1, <- Hn1 in Lo.
  assert (Hi : Zpos m * 2 ^ (e - k2) <= 2 ^ 53).
  { rewrite Hn2.
    replace (0 <=? k2) with false by (symmetry; apply Z.leb_gt; lia).
    destruct (Z.max_spec (Num.ilog2 c 100 - 52) (-1074)) as [[_ Em]|[_ Em]];
      fold k2 in Em.
    - (* the unit is the least one *)
      destruct (ilog2_spec c 100 ltac:(lia) ltac:(lia)) as [G1 _].
      exfalso.
      assert (Hb : above_pow2 c 100 (-7) = true).
      { unfold above_pow2. cbn [Z.leb Z.compare Z.opp].
        apply Z.leb_le. change (2 ^ 7) with 128. lia. }
      pose proof (ilog2_between c 100 (-7) (Num.ilog2 c 100 + 1)
                    ltac:(lia) ltac:(lia) Hb
                    (proj2 (ilog2_spec c 100 ltac:(lia) ltac:(lia)))).
      lia.
    - rewrite Em.
      apply (round64_count c 100); lia. }
  assert (E : 2 ^ (e - k2) = 2 ^ (e - k1) * 2 ^ (k1 - k2))
    by (rewrite <- Z.pow_add_r by lia; f_equal; lia).
  assert (P4 : 2 ^ 1 <= 2 ^ (k1 - k2)) by (apply Z.pow_le_mono_r; lia).
  change (2 ^ 1) with 2 in P4.
  assert (Pe : 0 < 2 ^ (e - k1)) by (apply Z.pow_pos_nonneg; lia).
  rewrite E in Hi.
  assert (B : (2 : Z) ^ 53 = 2 * 2 ^ 52) by reflexivity.
  assert (Hm : 0 < Zpos m) by lia.
  assert (4 <= 2 ^ (k1 - k2)).
  { change 4 with (2 ^ 2). apply Z.pow_le_mono_r; lia. }
  nia.
Qed.

(** Two numbers of hundredths that read as one double are one number. *)
Lemma hundredths_injective (c S : Z) (m : positive) (e : Z) :
  0 < c < 10 ^ 15 -> 0 < S ->
  Num.round64 false c 100 = Num.Fin false m e ->
  Num.round64 false S 100 = Num.Fin false m e ->
  S = c.
Proof.
  intros Hc HS Ec ES.
  destruct (round64_near c 9 m e ltac:(lia) ltac:(lia) Ec
              (hundredths_unit c Hc)) as (HA & HB & Nc).
  destruct (round64_near S 8 m e HS ltac:(lia) ES
              (same_double_unit c S m e Hc HS Ec ES)) as (_ & _ & NS).
  change (2 ^ 9) with 512 in Nc. change (2 ^ 8) with 256 in NS.
  set (A := fst (Num.ratio m e)) in *. set (B := snd (Num.ratio m e)) in *.
  destruct (Z.abs_spec (200 * A - 2 * c * B)) as [[_ E1]|[_ E1]];
    destruct (Z.abs_spec (200 * A - 2 * S * B)) as [[_ E2]|[_ E2]];
    rewrite E1 in Nc; rewrite E2 in NS; nia.
Qed.

(** A numeral with two decimals at most, counted in hundredths. *)
Lemma of_decimal_hundredths (d x : Z) :
  0 < d -> -2 <= x ->
  Num.of_decimal false d x = Num.round64 false (d * 10 ^ (x + 2)) 100.
Proof.
  intros Hd Hx. unfold Num.of_decimal.
  destruct (Z.leb_spec 0 x) as [H0|H0].
  - rewrite Z.pow_add_r by lia. change (10 ^ 2) with 100.
    rewrite Z.mul_assoc.
    assert (0 < 10 ^ x) by (apply Z.pow_pos_nonneg; lia).
    rewrite <- (round64_scale false (d * 10 ^ x) 1 100) by nia.
    reflexivity.
  - assert (C : x = -1 \/ x = -2) by lia. destruct C as [->| ->].
    + cbn [Z.opp Z.add Z.pos_sub]. change (10 ^ 1) with 10.
      rewrite <- (round64_scale false d 10 10) by lia. reflexivity.
    + cbn [Z.opp Z.add Z.pos_sub]. change (10 ^ 0) with 1.
      change (10 ^ 2) with 100. now rewrite Z.mul_1_r.
Qed.

Lemma of_decimal_positive (neg s : bool) (d x : Z) (m : positive) (e : Z) :
  Num.of_decimal neg d x = Num.Fin s m e -> 0 < d.
Proof.
  unfold Num.of_decimal, Num.round64. intros H.
  destruct (Z.lt_ge_cases 0 d) as [|Hd]; trivial. exfalso.
  destruct (Z.leb_spec 0 x).
  - assert (0 <= 10 ^ x) by (apply Z.pow_nonneg; lia).
    replace (d * 10 ^ x <=? 0) with true in H
      by (symmetry; apply Z.leb_le; nia).
    discriminate.
  - replace (d <=? 0) with true in H by (symmetry; apply Z.leb_le; lia).
    discriminate.
Qed.

(** The double of an amount below [10^13] is a finite number that is not
    zero. *)
Lemma round64_hundredths (c : Z) :
  0 < c < 10 ^ 15 ->
  exists m e, Num.round64 false c 100 = Num.Fin false m e.
Proof.
  intros Hc. pose proof (hundredths_unit c Hc) as Hk.
  assert (Hb : above_pow2 c 100 (-7) = true).
  { unfold above_pow2. cbn [Z.leb Z.compare Z.opp].
    apply Z.leb_le. change (2 ^ 7) with 128. lia. }
  pose proof (ilog2_between c 100 (-7) (Num.ilog2 c 100 + 1)
                ltac:(lia) ltac:(lia) Hb
                (proj2 (ilog2_spec c 100 ltac:(lia) ltac:(lia)))) as HL.
  pose proof (round64_count c 100 ltac:(lia) ltac:(lia) ltac:(lia)) as Hn.
  unfold Num.round64.
  replace (c <=? 0) with false by (symmetry; apply Z.leb_gt; lia).
  replace (Z.max (Num.ilog2 c 100 - 52) (-1074))
    with (Num.ilog2 c 100 - 52) in * by lia.
  replace (0 <=? Num.ilog2 c 100 - 52) with false
    by (symmetry; apply Z.leb_gt; lia).
  assert (P : (0 : Z) < 2 ^ 52) by reflexivity.
  destruct (Z.eqb_spec
              (Num.div_half_even
                 (c * 2 ^ (- (Num.ilog2 c 100 - 52))) 100) 0) as [E|_];
    [lia|].
  replace (971 <? Num.ilog2 c 100 - 52) with false
    by (symmetry; apply Z.ltb_ge; lia).
  replace (Num.ilog2 c 100 - 52 =? 971) with false
    by (symmetry; apply Z.eqb_neq; lia).
  cbn [orb andb]. destruct (Num.norm _ _) as [m e]. eauto.
Qed.

Lemma magnitude_from_below (fuel : nat) (a b t : Z) :
  Num.lt_pow10 a b 15 = true -> t <= 15 ->
  Num.magnitude_from fuel a b t <= 15.
Proof.
  intros H15. revert t. induction fuel as [|f IH]; intros t Ht;
    cbn [Num.magnitude_from]; [assumption|].
  destruct (Num.lt_pow10 a b t) eqn:E; [assumption|].
  apply IH. destruct (Z.eq_dec t 15) as [->|]; [congruence | lia].
Qed.

Lemma magnitude_from_above (fuel : nat) (a b t : Z) :
  0 < a -> b <= 100 * a ->
  -1 <= Num.magnitude_from fuel a b t \/
  Num.magnitude_from fuel a b t = t + Z.of_nat fuel.
Proof.
  intros Ha Hab. revert t. induction fuel as [|f IH]; intros t;
    cbn [Num.magnitude_from]; [right; simpl; lia|].
  destruct (Num.lt_pow10 a b t) eqn:E.
  - left. destruct (Z.le_gt_cases (-1) t) as [|Ht]; trivial. exfalso.
    unfold Num.lt_pow10 in E.
    replace (0 <=? t) with false in E by (symmetry; apply Z.leb_gt; lia).
    apply Z.ltb_lt in E.
    assert (10 ^ 2 <= 10 ^ (- t)) by (apply Z.pow_le_mono_r; lia).
    change (10 ^ 2) with 100 in *. nia.
  - destruct (IH (t + 1)) as [H|H]; [now left | right].
    rewrite H. lia.
Qed.

(** The magnitude that the search starts from, for an amount between a
    hundredth and [10^13]. *)
Lemma magnitude10_hundredths (a b : Z) :
  0 < a -> 0 < b -> b <= 100 * a -> 100 * a < 10 ^ 15 * b ->
  -1 <= Num.magnitude10 a b <= 15.
Proof.
  intros Ha Hb Hlo Hhi. unfold Num.magnitude10.
  assert (L1 : Z.log2 b <= Z.log2 a + 7).
  { pose proof (Z.log2_mul_pow2 a 7 Ha ltac:(lia)) as E.
    pose proof (Z.log2_le_mono b (a * 2 ^ 7)
                  ltac:(change (2 ^ 7) with 128; lia)). lia. }
  assert (L2 : Z.log2 a <= Z.log2 b + 50).
  { pose proof (Z.log2_mul_pow2 b 50 Hb ltac:(lia)) as E.
    assert (P : (10 : Z) ^ 15 < 100 * 2 ^ 50) by reflexivity.
    pose proof (Z.log2_le_mono a (b * 2 ^ 50) ltac:(nia)). lia. }
  set (l := Z.log2 a - Z.log2 b) in *.
  assert (B : -5 <= l * 30103 / 100000 - 2 <= 13).
  { pose proof (Z.div_mod (l * 30103) 100000 ltac:(lia)).
    pose proof (Z.mod_pos_bound (l * 30103) 100000 ltac:(lia)).
    lia. }
  split.
  - destruct (magnitude_from_above 8 a b (l * 30103 / 100000 - 2) Ha Hlo)
      as [H|H]; [assumption|]. rewrite H. simpl. lia.
  - apply magnitude_from_below; [|lia].
    unfold Num.lt_pow10. cbn [Z.leb Z.compare]. apply Z.ltb_lt. lia.
Qed.

(** The search for the digits of an amount in hundredths ends on a numeral
    of that amount, at the hundredths at the latest. *)
Lemma shortest_from_hundredths (c : Z) (m : positive) (e N : Z) :
  0 < c < 10 ^ 15 ->
  Num.round64 false c 100 = Num.Fin false m e ->
  N <= 15 ->
  forall (fuel : nat) (k : Z),
    1 <= k <= N + 2 -> N + 2 - k < Z.of_nat fuel ->
    -2 <= snd (Num.shortest_from fuel k m e (fst (Num.ratio m e))
                 (snd (Num.ratio m e)) N) /\
    fst (Num.shortest_from fuel k m e (fst (Num.ratio m e))
           (snd (Num.ratio m e)) N)
    * 10 ^ (snd (Num.shortest_from fuel k m e (fst (Num.ratio m e))
                   (snd (Num.ratio m e)) N) + 2) = c.
Proof.
  intros Hc Ec HN.
  destruct (round64_near c 9 m e ltac:(lia) ltac:(lia) Ec
              (hundredths_unit c Hc)) as (HA & HB & Near).
  change (2 ^ 9) with 512 in Near.
  set (A := fst (Num.ratio m e)) in *. set (B := snd (Num.ratio m e)) in *.
  induction fuel as [|f IH]; intros k Hk Hf; [lia|].
  cbn [Num.shortest_from]. cbv zeta.
  set (x := N - k). assert (Hx : -2 <= x <= 14) by (unfold x; lia).
  set (num := if 0 <=? x then A else A * 10 ^ (- x)).
  set (den := if 0 <=? x then B * 10 ^ x else B).
  set (lo := num / den).
  assert (R : forall d s,
             Num.of_decimal false d x = Num.Fin s m e ->
             d * 10 ^ (x + 2) = c).
  { intros d s E.
    pose proof (of_decimal_positive _ _ _ _ _ _ E) as Hd.
    pose proof (of_decimal_sign _ _ _ _ _ _ E) as ->.
    rewrite of_decimal_hundredths in E by lia.
    apply (hundredths_injective c _ m e Hc); trivial.
    assert (0 < 10 ^ (x + 2)) by (apply Z.pow_pos_nonneg; lia). nia. }
  assert (Last : k = N + 2 ->
            Num.of_decimal false lo x = Num.Fin false m e \/
            Num.of_decimal false (lo + 1) x = Num.Fin false m e).
  { intros Ek. assert (Ex : x = -2) by (unfold x; lia).
    assert (El : lo = A * 100 / B).
    { unfold lo, num, den. rewrite Ex. reflexivity. }
    assert (Ed : forall d, Num.of_decimal false d x
                           = Num.round64 false d 100).
    { intros d. rewrite Ex. reflexivity. }
    rewrite !Ed.
    pose proof (Z.div_mod (A * 100) B ltac:(lia)) as D.
    pose proof (Z.mod_pos_bound (A * 100) B HB) as M.
    rewrite <- El in D.
    assert (C : c = lo \/ c = lo + 1).
    { destruct (Z.abs_spec (200 * A - 2 * c * B)) as [[_ E1]|[_ E1]];
        rewrite E1 in Near; nia. }
    destruct C as [<-| <-]; [left | right]; exact Ec. }
  assert (Next : k <> N + 2 ->
            -2 <= snd (Num.shortest_from f (k + 1) m e A B N) /\
            fst (Num.shortest_from f (k + 1) m e A B N)
            * 10 ^ (snd (Num.shortest_from f (k + 1) m e A B N) + 2) = c)
    by (intros Hne; apply IH; unfold x in *; lia).
  destruct (Num.of_decimal false lo x) as [| | |s1 m1 e1] eqn:Elo;
    destruct (Num.of_decimal false (lo + 1) x) as [| | |s2 m2 e2] eqn:Ehi;
    repeat match goal with
      | |- context [Pos.eqb m ?m'] =>
          destruct (Pos.eqb_spec m m') as [<-|]
      | |- context [Z.eqb e ?e'] =>
          destruct (Z.eqb_spec e e') as [<-|]
      | |- context [match (2 * ?u ?= ?v) with _ => _ end] =>
          destruct (2 * u ?= v)
      | |- context [if Z.even ?u then _ else _] => destruct (Z.even u)
      end;
    cbn [andb fst snd];
    try (split; [lia | solve [eapply R; exact Elo | eapply R; exact Ehi]]);
    try (apply Next; intros Hk'; destruct (Last Hk') as [L|L];
         congruence).
Qed.

(** The shortest decimal numeral of an amount in hundredths is a numeral
    of that amount, with two decimals at most. *)
Lemma shortest_decimal_hundredths (c : Z) (m : positive) (e : Z) :
  2 <= c < 10 ^ 15 ->
  Num.round64 false c 100 = Num.Fin false m e ->
  -2 <= snd (Num.shortest_decimal m e) /\
  fst (Num.shortest_decimal m e)
  * 10 ^ (snd (Num.shortest_decimal m e) + 2) = c.
Proof.
  intros Hc Ec.
  destruct (round64_near c 9 m e ltac:(lia) ltac:(lia) Ec
              (hundredths_unit c ltac:(lia))) as (HA & HB & Near).
  change (2 ^ 9) with 512 in Near.
  unfold Num.shortest_decimal.
  rewrite (surjective_pairing (Num.ratio m e)).
  set (A := fst (Num.ratio m e)) in *. set (B := snd (Num.ratio m e)) in *.
  assert (HN : -1 <= Num.magnitude10 A B <= 15).
  { apply magnitude10_hundredths; trivial;
      destruct (Z.abs_spec (200 * A - 2 * c * B)) as [[_ E1]|[_ E1]];
      rewrite E1 in Near; nia. }
  pose proof (shortest_from_hundredths c m e (Num.magnitude10 A B)
                ltac:(lia) Ec ltac:(lia) 17 1 ltac:(lia)
                ltac:(simpl; lia)) as [Hx Hs].
  fold A B in Hx, Hs.
  destruct (Num.shortest_from 17 1 m e A B (Num.magnitude10 A B)) as [s x].
  cbn [fst snd] in Hx, Hs.
  destruct (strip_zeros_value 400 s x) as [Hle Hs'].
  split; [lia|].
  replace (10 ^ (snd (Num.strip_zeros 400 s x) + 2))
    with (10 ^ (snd (Num.strip_zeros 400 s x) - x) * 10 ^ (x + 2))
    by (rewrite <- Z.pow_add_r by lia; f_equal; lia).
  rewrite Z.mul_assoc, <- Hs'. exact Hs.
Qed.

(** An amount of [c] hundredths is [c] hundredths. *)
Lemma hundredths_exact (neg : bool) (c : Z) :
  0 <= c < 10 ^ 15 ->
  Hundredths (Num.of_decimal neg c (-2)) c /\
  Num.toLocaleString (Num.of_decimal neg c (-2)) = Num.fixed2 neg c.
Proof.
  intros Hc.
  destruct (Z.eq_dec c 0) as [->|H0]; [split; reflexivity|].
  destruct (Z.eq_dec c 1) as [->|H1];
    [destruct neg; split; vm_compute; reflexivity|].
  destruct (round64_hundredths c ltac:(lia)) as (m & e & Ec).
  assert (E : Num.of_decimal neg c (-2) = Num.Fin neg m e)
    by (apply (round64_any_sign neg c 100 m e Ec)).
  rewrite E. cbn [Hundredths Num.toLocaleString].
  destruct (shortest_decimal_hundredths c m e ltac:(lia) Ec) as [Hx Hs].
  destruct (Num.shortest_decimal m e) as [s x]. cbn [fst snd] in *.
  unfold NearestHundredth, Num.cents.
  replace (0 <=? x + 2) with true by (symmetry; apply Z.leb_le; lia).
  rewrite Hs. split; reflexivity.
Qed.

(** The size of a whole number [n] in hundredths is [100 * n]. *)
Lemma hundredths_integer (n : Z) :
  0 <= n < 10 ^ 15 -> Hundredths (Num.of_Z n) (100 * n).
Proof.
  intros Hn. destruct (Z.eq_dec n 0) as [->|Hz]; [reflexivity|].
  assert (H53 : (10 : Z) ^ 15 < 2 ^ 53) by reflexivity.
  destruct (of_Z_positive n ltac:(lia)) as (m & e & Hof & He & Hv).
  rewrite Hof. cbn [Hundredths].
  destruct (shortest_decimal_integer m e n ltac:(lia) Hof He Hv)
    as [Hx Hs].
  unfold NearestHundredth.
  replace (0 <=? snd (Num.shortest_decimal m e) + 2) with true
    by (symmetry; apply Z.leb_le; lia).
  rewrite Z.pow_add_r by lia. change (10 ^ 2) with 100. lia.
Qed.

(** C4 (as the code has it). [formatCurrency] of route.ts and of the mail
    scripts maps [null], [undefined] and [''] to ["--"].  An amount that
    reads as a finite number is printed as the yen sign, a minus sign when
    the number is negative, and the number in hundredths: its shortest
    decimal numeral, the one [String] prints, rounded to the nearest
    hundredth with a half going away from zero, written as the integer part
    in groups of three, a point and exactly two decimals; that numeral reads
    back as the amount.  An amount of [c] hundredths, [c] below [10^15]
    and of either sign -- the number nearest to [c / 100], which is what a
    numeral with two decimals at most reads as -- is printed as [c]
    hundredths exactly, and a whole number [n] below [10^15], as a number
    or as its numeral, as the grouped numeral of [n] and [".00"]; 1234.5
    gives ["¥1,234.50"], 1.005 gives ["¥1.01"], 0.994 gives ["¥0.99"] and
    -1234.5 gives ["¥-1,234.50"].  The infinities give ["¥∞"]
    and ["¥-∞"], and a non-empty string that reads as [NaN] is returned as
    it is (["abc"] gives ["abc"]).  [formatCurrency] of page.tsx is another
    function: [null] and [undefined] give ["--"], a number gives the yen
    sign followed by its plain numeral (1234.5 gives ["¥1234.5"]). *)
Theorem formatCurrency_cases :
  (Route.formatCurrency VNull = Ok "--" /\
   Route.formatCurrency VUndefined = Ok "--" /\
   Route.formatCurrency (VStr "") = Ok "--") /\
  (forall amount n,
     blank amount = false -> to_number amount = Ok n -> finite n = true ->
     exists c t,
       Route.formatCurrency amount = Ok t /\
       Hundredths n c /\ (forall c', Hundredths n c' -> c' = c) /\
       MoneyText (minus n) c t /\ CurrencyText t) /\
  (forall neg m e,
     0 < fst (Num.shortest_decimal m e) ->
     Num.of_decimal neg (fst (Num.shortest_decimal m e))
       (snd (Num.shortest_decimal m e)) = Num.Fin neg m e) /\
  (forall neg c,
     0 <= c < 10 ^ 15 ->
     Hundredths (Num.of_decimal neg c (-2)) c /\
     exists t,
       Route.formatCurrency (VNum (Num.of_decimal neg c (-2))) = Ok t /\
       MoneyText (if neg then "-" else "") c t) /\
  (forall n,
     0 <= n < 10 ^ 15 ->
     Hundredths (Num.of_Z n) (100 * n) /\
     Route.formatCurrency (VNum (Num.of_Z n))
     = Ok ("¥" ++ Num.group (Num.decimal n) ++ ".00") /\
     Route.formatCurrency (VStr (Num.decimal n))
     = Ok ("¥" ++ Num.group (Num.decimal n) ++ ".00")) /\
  (Route.formatCurrency (VNum (Num.of_decimal false 12345 (-1)))
   = Ok "¥1,234.50" /\
   Route.formatCurrency (VNum (Num.of_decimal false 1005 (-3)))
   = Ok "¥1.01" /\
   Route.formatCurrency (VNum (Num.of_decimal false 994 (-3)))
   = Ok "¥0.99" /\
   Route.formatCurrency (VNum (Num.of_decimal true 12345 (-1)))
   = Ok "¥-1,234.50") /\
  (forall neg,
     Route.formatCurrency (VNum (Num.Inf neg))
     = Ok ("¥" ++ (if neg then "-" else "") ++ "∞")) /\
  (forall s,
     s <> "" -> Num.isNaN (Str.to_number s) = true ->
     Route.formatCurrency (VStr s) = Ok s) /\
  Route.formatCurrency (VStr "abc") = Ok "abc" /\
  (forall amount, Script.formatCurrency amount = Route.formatCurrency amount) /\
  (Page.formatCurrency VNull = Ok "--" /\
   Page.formatCurrency VUndefined = Ok "--") /\
  (forall n, Page.formatCurrency (VNum n) = Ok ("¥" ++ Num.to_string n)) /\
  Page.formatCurrency (VNum (Num.of_decimal false 12345 (-1))) = Ok "¥1234.5".
Proof.
  assert (Whole : forall n,
            0 <= n < 10 ^ 15 ->
            Route.formatCurrency (VNum (Num.of_Z n))
            = Ok ("¥" ++ Num.group (Num.decimal n) ++ ".00")).
  { intros n Hn.
    rewrite (formatCurrency_numeric (VNum (Num.of_Z n)) (Num.of_Z n))
      by reflexivity.
    unfold Num.of_Z at 1. rewrite round64_not_NaN.
    now rewrite toLocaleString_integer. }
  conjuncts;
    try match goal with
        | |- _ (VNum (Num.of_decimal _ _ _)) = _ => vm_compute; reflexivity
        end;
    try reflexivity.
  - intros amount n Hb Hn Hf.
    rewrite (formatCurrency_numeric amount n Hb Hn).
    assert (E : Num.isNaN n = false) by (destruct n; trivial; discriminate).
    rewrite E.
    destruct (toLocaleString_value n Hf) as (c & Hc & Hu & Hm).
    exists c. eexists. conjuncts; trivial.
    now apply toLocaleString_shape.
  - apply numeral_reads_back.
  - intros neg c Hc. destruct (hundredths_exact neg c Hc) as [H1 H2].
    split; [exact H1|]. eexists. split; [|apply (fixed2_value neg c); lia].
    rewrite (formatCurrency_numeric _ (Num.of_decimal neg c (-2)))
      by reflexivity.
    rewrite H2.
    unfold Num.of_decimal. cbn [Z.leb Z.compare].
    now rewrite round64_not_NaN.
  - intros n Hn. conjuncts.
    + now apply hundredths_integer.
    + now apply Whole.
    + rewrite <- (Whole n) by assumption.
      assert (Hb : blank (VStr (Num.decimal n)) = false).
      { destruct (Num.decimal n) eqn:E; [|reflexivity].
        now destruct (proj2 (decimal_digits n)). }
      rewrite (formatCurrency_numeric _ (Num.of_Z n) Hb)
        by (simpl; rewrite to_number_numeral; trivial; lia).
      rewrite (formatCurrency_numeric (VNum (Num.of_Z n)) (Num.of_Z n))
        by reflexivity.
      unfold Num.of_Z at 1 3. now rewrite !round64_not_NaN.
  - intros s Hs Hn.
    assert (Hb : blank (VStr s) = false) by (destruct s; [contradiction|reflexivity]).
    rewrite (formatCurrency_numeric (VStr s) (Str.to_number s) Hb eq_refl).
    now rewrite Hn.
Qed.

Lemma formatCurrency_cases_witness :
  exists c,
    Route.formatCurrency (VStr " 1234567.891 ") = Ok "¥1,234,567.89" /\
    Hundredths (Str.to_number " 1234567.891 ") c /\
    c = 123456789 /\
    MoneyText "" c "¥1,234,567.89".
Proof.
  destruct formatCurrency_cases as (_ & H & _).
  destruct (H (VStr " 1234567.891 ") (Str.to_number " 1234567.891 ")
              eq_refl eq_refl eq_refl) as (c & t & E & Hc & Hu & Hm & _).
  pose proof E as E0. vm_compute in E0. injection E0 as Et.
  subst t. exists c.
  split; [exact E|]. split; [exact Hc|]. split; [|exact Hm].
  symmetry. apply Hu. vm_compute. split; [discriminate | reflexivity].
Defined.

(** C4, counterexample. An infinite amount (the JSON number [1e999] reads as
    one) is numeric and comes out as ["¥∞"], which has no decimals; and
    [formatCurrency] of page.tsx prints 1234.5 without grouping and with one
    decimal. *)
Lemma formatCurrency_not_always_two_decimals :
  Json.parse "1e999" = Some (VNum (Num.Inf false)) /\
  Route.formatCurrency (VNum (Num.Inf false)) = Ok "¥∞" /\
  ~ CurrencyText "¥∞" /\
  Page.formatCurrency (VNum (Num.of_decimal false 12345 (-1))) = Ok "¥1234.5" /\
  "¥1234.5" <> "¥1,234.50".
Proof.
  conjuncts; try (vm_compute; reflexivity).
  - intros H. apply currency_text_length in H. simpl in H. lia.
  - discriminate.
Qed.

(** ** The cadence of the reminders *)

Lemma shouldSend_cases (w : Script.surroundings) :
  Hourly.shouldSendSummaryByCycle w
  = if Num.gt_zero (counter w)
    then Num.is_zero (Num.rem (counter w) (Num.of_Z 3))
    else Num.is_zero (Num.rem (Hourly.getBeijingHour w) (Num.of_Z 3)).
Proof.
  unfold Hourly.shouldSendSummaryByCycle. fold (counter w).
  destruct (counter w) as [|[]|[]|[] m e]; reflexivity.
Qed.

Lemma counter_canonical (w : Script.surroundings) :
  canonical (counter w) = true.
Proof.
  unfold counter. destruct (Script.GITHUB_RUN_NUMBER w) as [s|]; trivial.
  destruct (String.eqb s ""); [reflexivity | apply to_number_canonical].
Qed.

Lemma counter_supplied (w : Script.surroundings) (s : string) :
  Script.GITHUB_RUN_NUMBER w = Some s -> s <> "" ->
  counter w = Str.to_number s.
Proof.
  intros E Hs. unfold counter. rewrite E.
  destruct (String.eqb_spec s ""); [contradiction | reflexivity].
Qed.

Lemma rem3_integral (x : Num.number) (n : Z) :
  Num.to_Z x = Some n ->
  Num.is_zero (Num.rem x (Num.of_Z 3)) = (n mod 3 =? 0).
Proof.
  intros H. rewrite of_Z_3, (rem_integral x n 3 0) by (trivial; lia).
  reflexivity.
Qed.

Lemma rem2_integral (x : Num.number) (n : Z) :
  Num.to_Z x = Some n ->
  Num.is_zero (Num.rem x (Num.of_Z 2)) = (n mod 2 =? 0).
Proof.
  intros H. rewrite of_Z_2, (rem_integral x n 1 1) by (trivial; lia).
  reflexivity.
Qed.

(** A counter that is positive decides alone. *)
Lemma hourly_by_counter (w : Script.surroundings) :
  Num.gt_zero (counter w) = true ->
  Hourly.shouldSendSummaryByCycle w
  = match Num.to_Z (counter w) with
    | Some n => n mod 3 =? 0
    | None => false
    end.
Proof.
  intros H. rewrite shouldSend_cases, H.
  destruct (Num.to_Z (counter w)) as [n|] eqn:E.
  - now apply rem3_integral.
  - rewrite of_Z_3. apply rem_not_integral; trivial; [lia|].
    apply counter_canonical.
Qed.

(** A counter that is not positive leaves the decision to
    [getBeijingHour]. *)
Lemma hourly_by_clock (w : Script.surroundings) :
  Num.gt_zero (counter w) = false ->
  Hourly.shouldSendSummaryByCycle w
  = Num.is_zero (Num.rem (Hourly.getBeijingHour w) (Num.of_Z 3)).
Proof. intros H. now rewrite shouldSend_cases, H. Qed.

(** At every hour of the day [getBeijingHour] returns [NaN]. *)
Lemma getBeijingHour_NaN (w : Script.surroundings) :
  0 <= Script.hour w <= 23 -> Hourly.getBeijingHour w = Num.NaN.
Proof.
  intros H. unfold Hourly.getBeijingHour. now apply fmt_format_not_a_number.
Qed.

Lemma malformed_not_positive (w : Script.surroundings) :
  malformed w <-> Num.gt_zero (counter w) = false.
Proof.
  unfold malformed, counter.
  destruct (Script.GITHUB_RUN_NUMBER w) as [s|]; [|tauto].
  destruct (String.eqb_spec s "") as [->|Hs]; [tauto|].
  destruct (Str.to_number s) as [|[]|[]|[] m e]; simpl;
    intuition congruence.
Qed.

Lemma to_Z_sign (x : Num.number) (n : Z) :
  Num.to_Z x = Some n ->
  (0 < n -> Num.gt_zero x = true) /\ (n < 0 -> negative x = true).
Proof.
  destruct x as [| |s|s m e]; try discriminate.
  - intros H. assert (n = 0) by (unfold Num.to_Z in H; congruence).
    split; intros; exfalso; lia.
  - intros H. apply to_Z_Fin in H. destruct H as [He H].
    pose proof (pow2_pos e He).
    assert (0 < Zpos m * 2 ^ e) by (apply Z.mul_pos_pos; lia).
    destruct s; split; intros; trivial; exfalso; lia.
Qed.

(** C2 (what the code does). Without a VIN the hourly script sends the
    reminder when its cadence check says so.  When the run counter is
    supplied and reads as a positive number, the counter decides alone: a
    positive integer [n] sends exactly when [n mod 3 = 0] (the decimal
    numeral of a positive integer below [2^53] reads as that integer), and a
    positive number that is not an integer never sends.  Otherwise -- the
    counter is unset, empty, or reads as [NaN], zero or a negative number --
    the check asks [getBeijingHour] for the hour, and [getBeijingHour]
    returns [NaN] at every hour of the day, because the text of the hour
    formatter ends in 时 and [Number] does not read it: the reminder is not
    sent, at hour 9 no more than at hour 10. *)
Theorem cadence_of_hourly_script (w : Script.surroundings) :
  (forall payload data text,
     data = or (get payload "data") payload ->
     truthy (get data "vehicleVin") = false ->
     Script.buildOrderSummaryText (Script.requestTime w) data = Ok text ->
     Hourly.main w payload
     = Ok (if Hourly.shouldSendSummaryByCycle w
           then Script.Send reminder_subject text else Script.Skip)) /\
  (forall s n,
     Script.GITHUB_RUN_NUMBER w = Some s -> s <> "" ->
     Num.to_Z (Str.to_number s) = Some n -> 0 < n ->
     Hourly.shouldSendSummaryByCycle w = (n mod 3 =? 0)) /\
  (forall s,
     Script.GITHUB_RUN_NUMBER w = Some s -> s <> "" ->
     Num.gt_zero (Str.to_number s) = true ->
     Num.to_Z (Str.to_number s) = None ->
     Hourly.shouldSendSummaryByCycle w = false) /\
  (forall n,
     0 < n < 2 ^ 53 ->
     Script.GITHUB_RUN_NUMBER w = Some (Num.decimal n) ->
     Hourly.shouldSendSummaryByCycle w = (n mod 3 =? 0)) /\
  (0 <= Script.hour w <= 23 ->
   malformed w ->
   Hourly.getBeijingHour w = Num.NaN /\
   Hourly.shouldSendSummaryByCycle w = false).
Proof.
  assert (Hcounter : forall s n,
            Script.GITHUB_RUN_NUMBER w = Some s -> s <> "" ->
            Num.to_Z (Str.to_number s) = Some n -> 0 < n ->
            Hourly.shouldSendSummaryByCycle w = (n mod 3 =? 0)).
  { intros s n E Hs Hn Hpos.
    pose proof (counter_supplied w s E Hs) as Hc.
    rewrite hourly_by_counter, Hc, Hn; trivial.
    rewrite Hc. now apply (to_Z_sign _ n). }
  conjuncts; trivial.
  - intros payload data text Hd Hv Ht.
    exact (proj1 (no_vin_branch w payload data text Hd Hv Ht)).
  - intros s E Hs Hpos Hn.
    pose proof (counter_supplied w s E Hs) as Hc.
    rewrite hourly_by_counter, Hc, Hn; trivial. now rewrite Hc.
  - intros n Hn E.
    apply (Hcounter (Num.decimal n) n E);
      [apply decimal_digits | now apply to_number_decimal | lia].
  - intros Hh Hm. pose proof (getBeijingHour_NaN w Hh) as E.
    split; [exact E|].
    rewrite hourly_by_clock by now apply malformed_not_positive.
    rewrite E. reflexivity.
Qed.

Lemma cadence_of_hourly_script_witness :
  Hourly.shouldSendSummaryByCycle (run_with (Some "3") 10) = true /\
  Hourly.shouldSendSummaryByCycle (run_with (Some "4") 9) = false /\
  (9 mod 3 =? 0) = true /\
  Hourly.shouldSendSummaryByCycle (run_with None 9) = false /\
  Hourly.shouldSendSummaryByCycle (run_with None 10) = false /\
  Hourly.shouldSendSummaryByCycle (run_with (Some "-3") 9) = false /\
  Hourly.shouldSendSummaryByCycle (run_with (Some "0x10") 9) = false.
Proof.
  conjuncts.
  - destruct (cadence_of_hourly_script (run_with (Some "3") 10))
      as (_ & _ & _ & H & _).
    exact (H 3 ltac:(lia) eq_refl).
  - destruct (cadence_of_hourly_script (run_with (Some "4") 9))
      as (_ & _ & _ & H & _).
    exact (H 4 ltac:(lia) eq_refl).
  - reflexivity.
  - destruct (cadence_of_hourly_script (run_with None 9))
      as (_ & _ & _ & _ & H).
    exact (proj2 (H ltac:(simpl; lia) I)).
  - destruct (cadence_of_hourly_script (run_with None 10))
      as (_ & _ & _ & _ & H).
    exact (proj2 (H ltac:(simpl; lia) I)).
  - destruct (cadence_of_hourly_script (run_with (Some "-3") 9))
      as (_ & _ & _ & _ & H).
    exact (proj2 (H ltac:(simpl; lia)
                    (or_intror (or_intror (or_intror eq_refl))))).
  - destruct (cadence_of_hourly_script (run_with (Some "0x10") 9))
      as (_ & H & _).
    exact (H "0x10" 16 eq_refl ltac:(discriminate) eq_refl eq_refl).
Defined.

(** At nine o'clock the formatter gives ["09时"], which [Number] reads as
    [NaN]; the bare digits would read as 9. *)
Example hour_nine_as_the_formatter_prints_it :
  Hourly.fmt_format 9 = "09时" /\
  Str.to_number "09时" = Num.NaN /\
  Num.to_Z (Str.to_number "09") = Some 9.
Proof. vm_compute. repeat split. Qed.

(** A counter from [2^53] on is rounded to a double before the remainder is
    taken: [2^53 + 1] is a multiple of three, the double that [Number] reads
    is [2^53], which is not. *)
Example huge_counter_is_rounded :
  (9007199254740993 mod 3 =? 0) = true /\
  Num.to_Z (Str.to_number "9007199254740993") = Some 9007199254740992 /\
  Hourly.shouldSendSummaryByCycle (run_with (Some "9007199254740993") 9)
  = false.
Proof. vm_compute. repeat split. Qed.

(** ** Malformed counters *)

Lemma unusable_is_zero (w : Script.surroundings) :
  unusable w -> ThreeHourly.runNumber w = Num.Zero false.
Proof.
  unfold unusable, ThreeHourly.runNumber.
  destruct (Script.GITHUB_RUN_NUMBER w) as [s|]; [|reflexivity].
  destruct (String.eqb_spec s "") as [->|Hs]; [reflexivity|].
  destruct (Str.to_number s) as [|[]|[]|[] m e]; simpl;
    intuition congruence.
Qed.

Lemma negative_is_kept (w : Script.surroundings) (s : string) :
  Script.GITHUB_RUN_NUMBER w = Some s ->
  negative (Str.to_number s) = true ->
  ThreeHourly.runNumber w = Str.to_number s.
Proof.
  intros E Hn. unfold ThreeHourly.runNumber. rewrite E.
  destruct (String.eqb_spec s "") as [->|Hs]; [discriminate|].
  destruct (Str.to_number s) as [|[]|[]|[] m e]; simpl in *;
    trivial; discriminate.
Qed.

(** With a mail body, each script returns a decision. *)
Lemma main_returns (w : Script.surroundings) (payload data : value)
  (text : string) :
  data = or (get payload "data") payload ->
  Script.buildOrderSummaryText (Script.requestTime w) data = Ok text ->
  exists d3 d2,
    Hourly.main w payload = Ok d3 /\ ThreeHourly.main w payload = Ok d2.
Proof.
  intros Hd Ht. destruct (truthy (get data "vehicleVin")) eqn:Hv.
  - destruct (vin_branch w payload data text Hd Hv Ht) as (vin & _ & H3 & H2).
    eauto.
  - destruct (no_vin_branch w payload data text Hd Hv Ht) as (H3 & H2).
    eauto.
Qed.

(** C3 (as the code has it). Once the mail body is built, neither script
    throws while deciding.  In the hourly script (period three) every
    malformed counter -- unset, empty, not a number, zero, negative -- leaves
    the decision to the clock: the outcome is [getBeijingHour() % 3 === 0],
    whatever the counter is.  The three-hourly script (period two) never
    looks at the clock: an unset, empty, non-numeric or zero counter counts
    as 0 and the reminder is sent, and a negative counter is used as it is,
    so that a negative integer sends exactly when it is even. *)
Theorem malformed_counter_by_script (w : Script.surroundings) :
  (forall payload data text,
     data = or (get payload "data") payload ->
     Script.buildOrderSummaryText (Script.requestTime w) data = Ok text ->
     exists d3 d2,
       Hourly.main w payload = Ok d3 /\ ThreeHourly.main w payload = Ok d2) /\
  (malformed w ->
   Hourly.shouldSendSummaryByCycle w
   = Num.is_zero (Num.rem (Hourly.getBeijingHour w) (Num.of_Z 3))) /\
  (forall counter',
     malformed w ->
     malformed {| Script.GITHUB_RUN_NUMBER := counter';
                  Script.hour := Script.hour w;
                  Script.requestTime := Script.requestTime w |} ->
     Hourly.shouldSendSummaryByCycle w
     = Hourly.shouldSendSummaryByCycle
         {| Script.GITHUB_RUN_NUMBER := counter';
            Script.hour := Script.hour w;
            Script.requestTime := Script.requestTime w |}) /\
  (forall hour payload,
     ThreeHourly.main w payload
     = ThreeHourly.main
         {| Script.GITHUB_RUN_NUMBER := Script.GITHUB_RUN_NUMBER w;
            Script.hour := hour;
            Script.requestTime := Script.requestTime w |} payload) /\
  (forall payload data text,
     unusable w ->
     data = or (get payload "data") payload ->
     truthy (get data "vehicleVin") = false ->
     Script.buildOrderSummaryText (Script.requestTime w) data = Ok text ->
     ThreeHourly.main w payload = Ok (Script.Send reminder_subject text)) /\
  (forall s n payload data text,
     Script.GITHUB_RUN_NUMBER w = Some s ->
     Num.to_Z (Str.to_number s) = Some n -> n < 0 ->
     data = or (get payload "data") payload ->
     truthy (get data "vehicleVin") = false ->
     Script.buildOrderSummaryText (Script.requestTime w) data = Ok text ->
     ThreeHourly.main w payload
     = Ok (if n mod 2 =? 0 then Script.Send reminder_subject text
           else Script.Skip)).
Proof.
  conjuncts.
  - apply main_returns.
  - intros Hm. apply hourly_by_clock. now apply malformed_not_positive.
  - intros counter' Hm Hm'.
    rewrite !hourly_by_clock by now apply malformed_not_positive.
    reflexivity.
  - reflexivity.
  - intros payload data text Hu Hd Hv Ht.
    rewrite (proj2 (no_vin_branch w payload data text Hd Hv Ht)).
    rewrite (unusable_is_zero w Hu). reflexivity.
  - intros s n payload data text E Hn Hneg Hd Hv Ht.
    rewrite (proj2 (no_vin_branch w payload data text Hd Hv Ht)).
    assert (Hx : negative (Str.to_number s) = true)
      by now apply (to_Z_sign _ n).
    rewrite (negative_is_kept w s E Hx), (rem2_integral _ n Hn).
    reflexivity.
Qed.

Lemma malformed_counter_by_script_witness :
  Hourly.shouldSendSummaryByCycle (run_with (Some "abc") 9)
  = Num.is_zero
      (Num.rem (Hourly.getBeijingHour (run_with (Some "abc") 9))
         (Num.of_Z 3)) /\
  Hourly.shouldSendSummaryByCycle (run_with (Some "0") 10)
  = Hourly.shouldSendSummaryByCycle (run_with None 10) /\
  ThreeHourly.main (run_with (Some "abc") 1) no_vin_record
  = Ok (Script.Send reminder_subject no_vin_text) /\
  ThreeHourly.main (run_with (Some "-3") 0) no_vin_record = Ok Script.Skip.
Proof.
  conjuncts.
  - destruct (malformed_counter_by_script (run_with (Some "abc") 9))
      as (_ & H & _).
    exact (H (or_intror (or_introl eq_refl))).
  - destruct (malformed_counter_by_script (run_with (Some "0") 10))
      as (_ & _ & H & _).
    exact (H None (or_intror (or_intror (or_introl eq_refl))) I).
  - destruct (malformed_counter_by_script (run_with (Some "abc") 1))
      as (_ & _ & _ & _ & H & _).
    exact (H no_vin_record no_vin_record no_vin_text
             (or_intror (or_introl eq_refl)) eq_refl eq_refl eq_refl).
  - destruct (malformed_counter_by_script (run_with (Some "-3") 0))
      as (_ & _ & _ & _ & _ & H).
    exact (H "-3" (-3) no_vin_record no_vin_record no_vin_text
             eq_refl eq_refl eq_refl eq_refl eq_refl eq_refl).
Defined.

(** C3, counterexample. In the script of period two the counter text
    ["abc"] is not a number and the hour is 1, which is odd: a fall-back to
    the hour of the day modulo two would keep the run silent, the script
    takes the counter as 0 and sends the reminder. *)
Lemma three_hourly_ignores_hour :
  Num.isNaN (Str.to_number "abc") = true /\
  Script.hour (run_with (Some "abc") 1) = 1 /\
  (1 mod 2 =? 0) = false /\
  truthy (get no_vin_record "vehicleVin") = false /\
  ThreeHourly.main (run_with (Some "abc") 1) no_vin_record
  = Ok (Script.Send reminder_subject no_vin_text).
Proof. vm_compute. repeat split. Qed.

(** ** The fields of a summary *)

Lemma prints_or (v : value) (d : string) :
  prints v = true -> exists t, to_string (or v (VStr d)) = Ok t.
Proof.
  unfold prints, or. intros H. destruct (truthy v); [|simpl; eauto].
  destruct (to_string v) as [t|]; [eauto | discriminate].
Qed.

Lemma prints_to_number (v : value) :
  prints v = true -> exists n, to_number v = Ok n.
Proof.
  unfold prints. intros H.
  destruct v; try (simpl; eauto; fail);
    unfold to_number; destruct (to_string _) as [t|]; simpl; eauto;
    discriminate.
Qed.

Lemma prints_pick (cs : list value) :
  forallb prints cs = true -> prints (Route.pick cs) = true.
Proof.
  induction cs as [|c cs IH]; simpl; intros H; [reflexivity|].
  apply andb_prop in H. destruct H as [Hc Hcs].
  destruct (_ && _); auto.
Qed.

Lemma formatCurrency_returns (v : value) :
  prints v = true -> exists t, Route.formatCurrency v = Ok t.
Proof.
  intros H. unfold Route.formatCurrency.
  destruct (_ || _); [eauto|].
  destruct (prints_to_number v H) as [n Hn]. rewrite Hn. simpl.
  destruct (Num.isNaN n); [|eauto].
  unfold prints in H. destruct (to_string v); [eauto | discriminate].
Qed.

Lemma pick_present (cs : list value) : present (Route.pick cs) = true.
Proof.
  pose proof (pick_not_blank cs) as H. unfold blank in H. unfold present.
  destruct (is_null _), (is_undefined _); simpl in *; congruence.
Qed.

Lemma pick_textual (cs : list value) :
  forallb textual cs = true -> is_string (Route.pick cs) = true.
Proof.
  induction cs as [|c cs IH]; simpl; intros H; [reflexivity|].
  apply andb_prop in H. destruct H as [Hc Hcs].
  destruct c as [| | | |t| |]; simpl in *; try discriminate; auto.
  destruct t; simpl; auto.
Qed.

Lemma coalesce_present (v : value) (d : string) :
  present (coalesce v (VStr d)) = true.
Proof. destruct v; reflexivity. Qed.

Lemma coalesce_textual (v : value) (d : string) :
  textual v = true -> is_string (coalesce v (VStr d)) = true.
Proof. destruct v; simpl; trivial. Qed.

(** Take a hypothesis [forallb p [v1; ...; vn] = true] apart. *)
Ltac forallb_inv H :=
  simpl in H;
  repeat match type of H with
         | (_ && _) = true =>
             let H1 := fresh "Hv" in
             apply andb_prop in H; destruct H as [H1 H]
         end.

(** C5 (as the code has it). [buildOrderSummary] throws only from a
    conversion to text.  For every record in which each value it turns into
    text (province, city, exterior and interior colour, the two price
    candidates, the two configuration price candidates) can be converted, it
    returns a summary whose seventeen fields are all neither [null] nor
    [undefined]; request time, colour, retail price and configuration price
    are always strings; and every field is a string as soon as the values
    selected as they are (by [pick] and by [??]) are strings or absent.
    [pick] hands a number, a boolean, an array or an object over as it
    is. *)
Theorem summary_fields_are_present (now : string) (data : value) :
  forallb prints (rendered data) = true ->
  exists s,
    Route.buildOrderSummary now data = Ok s /\
    forallb present (fields s) = true /\
    forallb is_string
      [Route.requestTime s; Route.colorName s; Route.retailPrice s;
       Route.configurationRetailPrice s] = true /\
    (forallb textual (selected data) = true ->
     forallb is_string (fields s) = true).
Proof.
  intros H. unfold rendered in H. forallb_inv H.
  unfold Route.buildOrderSummary. cbv zeta.
  destruct (prints_or _ "" Hv) as [province ->].
  destruct (prints_or _ "" Hv0) as [city ->].
  destruct (prints_or _ "--" Hv1) as [exterior ->].
  destruct (prints_or _ "--" Hv2) as [interior ->].
  destruct (formatCurrency_returns
              (Route.pick [get data "retailPrice"; get data "price"]))
    as [price ->].
  { apply prints_pick. simpl. now rewrite Hv3, Hv4. }
  destruct (formatCurrency_returns
              (Route.pick
                 [get (Route.skuOf (get data "skuDetail"))
                    "configurationRetailPrice";
                  get (get (Route.skuOf (get data "skuDetail"))
                         "materialConfig") "totalPrice"]))
    as [cprice ->].
  { apply prints_pick. simpl. now rewrite Hv5, Hv6. }
  cbn [bind]. eexists. split; [reflexivity|].
  assert (Hcolor : forall rest,
            Route.pick (VStr (exterior ++ " / " ++ interior) :: rest)
            = VStr (exterior ++ " / " ++ interior)).
  { intros rest. apply pick_head. destruct exterior; reflexivity. }
  unfold fields. cbn [Route.requestTime Route.orderNo Route.businessOrderNo
    Route.orderDate Route.payDate Route.buyerName Route.buyerTel
    Route.buyerIdNo Route.cityName Route.dealerName Route.vehicleModel
    Route.vehicleVersion Route.colorName Route.retailPrice Route.vehicleVin
    Route.configurationFullName Route.configurationRetailPrice].
  rewrite Hcolor. conjuncts.
  - cbn [forallb]. rewrite !pick_present, coalesce_present. reflexivity.
  - reflexivity.
  - intros A. unfold selected in A. forallb_inv A.
    cbn [forallb].
    rewrite !pick_textual, coalesce_textual; trivial;
      cbn [forallb textual];
      repeat match goal with
             | E : textual ?v = true |- context [textual ?v] => rewrite E
             end; reflexivity.
Qed.

Lemma summary_fields_are_present_witness :
  exists s,
    Route.buildOrderSummary "2025/1/1 10:00:00" typical_record = Ok s /\
    forallb is_string (fields s) = true /\
    Route.cityName s = VStr "广东省 深圳市" /\
    Route.configurationRetailPrice s = VStr "¥1,200.50".
Proof.
  destruct (summary_fields_are_present "2025/1/1 10:00:00" typical_record
              eq_refl) as (s & Hs & _ & _ & Hstr).
  exists s. split; [exact Hs|]. split; [exact (Hstr eq_refl)|].
  vm_compute in Hs. injection Hs as <-. split; reflexivity.
Defined.

(** C5, counterexample. An order number that arrives as the number 123
    stays the number 123 in the summary: the field is not a string.  And a
    record whose exterior colour is an object with a key [toString] makes
    [buildOrderSummary] throw. *)
Lemma summary_field_not_a_string :
  field Route.orderNo
    (Route.buildOrderSummary "2025/1/1 10:00:00"
       (VObj [("orderNo", VNum (Num.of_Z 123))]))
  = Ok (VNum (Num.of_Z 123)) /\
  is_string (VNum (Num.of_Z 123)) = false /\
  Json.parse (Json.quoted "{'exteriorColor':{'toString':null}}")
  = Some (VObj [("exteriorColor", VObj [("toString", VNull)])]) /\
  Route.buildOrderSummary "2025/1/1 10:00:00"
    (VObj [("exteriorColor", VObj [("toString", VNull)])])
  = TypeError.
Proof. vm_compute. repeat split. Qed.

(** ** The configuration, as text or as an object *)

(** Two records that differ at most in [skuDetail], and whose [skuDetail]
    resolve to the same configuration, have the same summary. *)
Lemma buildOrderSummary_ext (now : string) (d1 d2 : value) :
  (forall k, k <> "skuDetail" -> get d1 k = get d2 k) ->
  Route.skuOf (get d1 "skuDetail") = Route.skuOf (get d2 "skuDetail") ->
  Route.buildOrderSummary now d1 = Route.buildOrderSummary now d2.
Proof.
  intros G Hsku. unfold Route.buildOrderSummary. cbv zeta. rewrite Hsku.
  repeat match goal with
         | |- context [get d1 ?k] => rewrite (G k) by discriminate
         end.
  reflexivity.
Qed.

Lemma empty_configuration (now : string) (data : value)
  (s : Route.OrderSummary) :
  Route.skuOf (get data "skuDetail") = VObj [] ->
  Route.buildOrderSummary now data = Ok s ->
  Route.configurationFullName s = VStr "--" /\
  Route.configurationRetailPrice s = VStr "--".
Proof.
  unfold Route.buildOrderSummary. cbv zeta. intros E H. rewrite E in H.
  bind_inv H as province Hprovince. bind_inv H as city Hcity.
  bind_inv H as exterior Hext. bind_inv H as interior Hint.
  bind_inv H as price Hprice. bind_inv H as cprice Hcprice.
  ok_inv H. subst s. cbn [Route.configurationFullName
                            Route.configurationRetailPrice].
  split; [reflexivity|].
  vm_compute in Hcprice. ok_inv Hcprice. now subst cprice.
Qed.

(** C7. Take two records that agree outside [skuDetail].  When [skuDetail]
    is in the one a text that [JSON.parse] reads as an object and in the
    other that object itself, [buildOrderSummary] gives the same result for
    both, and so the same configuration name and configuration price.  When
    the text does not parse, the result is the one of the record whose
    [skuDetail] is the empty object: the parse failure throws nothing, and
    the configuration name and price of a summary are the placeholder. *)
Theorem configuration_text_or_object (now : string) (d1 d2 : value)
  (text : string) :
  get d1 "skuDetail" = VStr text ->
  (forall k, k <> "skuDetail" -> get d1 k = get d2 k) ->
  (forall kvs,
     Json.parse text = Some (VObj kvs) ->
     get d2 "skuDetail" = VObj kvs ->
     Route.buildOrderSummary now d1 = Route.buildOrderSummary now d2 /\
     field Route.configurationFullName (Route.buildOrderSummary now d1)
     = field Route.configurationFullName (Route.buildOrderSummary now d2) /\
     field Route.configurationRetailPrice (Route.buildOrderSummary now d1)
     = field Route.configurationRetailPrice
         (Route.buildOrderSummary now d2)) /\
  (Json.parse text = None ->
   get d2 "skuDetail" = VObj [] ->
   Route.buildOrderSummary now d1 = Route.buildOrderSummary now d2 /\
   forall s, Route.buildOrderSummary now d1 = Ok s ->
     Route.configurationFullName s = VStr "--" /\
     Route.configurationRetailPrice s = VStr "--").
Proof.
  intros H1 G. split.
  - intros kvs Hp H2.
    assert (E : Route.buildOrderSummary now d1
                = Route.buildOrderSummary now d2).
    { apply buildOrderSummary_ext; trivial.
      rewrite H1, H2. unfold Route.skuOf. rewrite Hp. reflexivity. }
    rewrite E. auto.
  - intros Hp H2.
    assert (Hsku : Route.skuOf (get d1 "skuDetail") = VObj []).
    { rewrite H1. unfold Route.skuOf. now rewrite Hp. }
    split.
    + apply buildOrderSummary_ext; trivial. rewrite Hsku, H2. reflexivity.
    + intros s Hs. now apply (empty_configuration now d1).
Qed.

Lemma single_key_agree (k : string) (a b : value) :
  k <> "skuDetail" ->
  get (VObj [("skuDetail", a)]) k = get (VObj [("skuDetail", b)]) k.
Proof.
  intros Hk. unfold get, lookup.
  destruct (String.eqb_spec "skuDetail" k); [congruence | reflexivity].
Qed.

Lemma configuration_text_or_object_witness :
  field Route.configurationFullName
    (Route.buildOrderSummary "2025/1/1 10:00:00"
       (VObj [("skuDetail", VStr configuration_text)]))
  = Ok (VStr "Pro Max") /\
  field Route.configurationRetailPrice
    (Route.buildOrderSummary "2025/1/1 10:00:00"
       (VObj [("skuDetail", VStr configuration_text)]))
  = Ok (VStr "¥1,200.50") /\
  field Route.configurationRetailPrice
    (Route.buildOrderSummary "2025/1/1 10:00:00"
       (VObj [("skuDetail", VStr "{not json")]))
  = Ok (VStr "--").
Proof.
  destruct (configuration_text_or_object "2025/1/1 10:00:00"
              (VObj [("skuDetail", VStr configuration_text)])
              (VObj [("skuDetail", VObj configuration_object)])
              configuration_text eq_refl
              (fun k Hk => single_key_agree k _ _ Hk))
    as [H _].
  destruct (H configuration_object eq_refl eq_refl) as (_ & Hn & Hp).
  destruct (configuration_text_or_object "2025/1/1 10:00:00"
              (VObj [("skuDetail", VStr "{not json")])
              (VObj [("skuDetail", VObj [])])
              "{not json" eq_refl
              (fun k Hk => single_key_agree k _ _ Hk))
    as [_ H'].
  destruct (H' eq_refl eq_refl) as (He & _).
  split; [rewrite Hn; reflexivity|].
  split; [rewrite Hp; reflexivity|].
  rewrite He. reflexivity.
Defined.

(** ** The city *)

Lemma ws2_space (c : ascii) : Str.ws2 c space = false.
Proof. unfold Str.ws2. apply andb_false_r. Qed.

Lemma ws3_space (c1 c2 : ascii) : Str.ws3 c1 c2 space = false.
Proof.
  unfold Str.ws3. change (Str.code space) with 32. cbn [Z.eqb Z.leb Z.compare
    Pos.compare Pos.compare_cont Pos.eqb andb orb].
  now rewrite !andb_false_r.
Qed.

(** A space appended to a string stays behind what is left of the string,
    and goes when nothing is left. *)
Lemma strip_front_space (n : nat) (l : list ascii) :
  (List.length l <= n)%nat ->
  Str.strip_front (l ++ [space])
  = match Str.strip_front l with
    | [] => []
    | r => (r ++ [space])%list
    end.
Proof.
  revert l. induction n as [|n IH]; intros l Hn.
  - destruct l; [reflexivity | simpl in Hn; lia].
  - destruct l as [|c1 [|c2 [|c3 r3]]]; cbn [app Str.strip_front].
    + reflexivity.
    + destruct (Str.ws1 c1); [reflexivity|].
      now rewrite ws2_space.
    + destruct (Str.ws1 c1).
      * apply (IH [c2]). simpl in *. lia.
      * destruct (Str.ws2 c1 c2); [reflexivity|]. now rewrite ws3_space.
    + destruct (Str.ws1 c1).
      * apply (IH (c2 :: c3 :: r3)). simpl in *. lia.
      * destruct (Str.ws2 c1 c2).
        -- apply (IH (c3 :: r3)). simpl in *. lia.
        -- destruct (Str.ws3 c1 c2 c3); [|reflexivity].
           apply IH. simpl in *. lia.
Qed.

Lemma trim_list_space (l : list ascii) :
  Str.trim_list (l ++ [space]) = Str.trim_list l.
Proof.
  unfold Str.trim_list.
  rewrite (strip_front_space (List.length l) l) by lia.
  destruct (Str.strip_front l) as [|c r]; [reflexivity|].
  rewrite rev_app_distr. reflexivity.
Qed.

Lemma list_of_append (a b : string) :
  list_ascii_of_string (a ++ b)
  = (list_ascii_of_string a ++ list_ascii_of_string b)%list.
Proof. induction a as [|c a IH]; simpl; [|rewrite IH]; reflexivity. Qed.

(** [(p + ' ').trim()] is [p.trim()]. *)
Lemma trim_space (p : string) : Str.trim (p ++ " " ++ "") = Str.trim p.
Proof.
  unfold Str.trim. rewrite list_of_append. simpl list_ascii_of_string at 2.
  now rewrite trim_list_space.
Qed.

Lemma falsy_or_empty (v : value) :
  truthy v = false -> to_string (or v (VStr "")) = Ok "".
Proof. unfold or. now intros ->. Qed.

Lemma trim_not_empty (p : string) : Str.trim p <> "" -> p <> "".
Proof. intros H E. apply H. now subst p. Qed.

(** The first candidate for the city, when only the province is there. *)
Lemma province_alone (data : value) (p province city : string) :
  get data "buyerProvinceName" = VStr p ->
  truthy (get data "buyerCityName") = false ->
  p <> "" ->
  to_string (or (get data "buyerProvinceName") (VStr "")) = Ok province ->
  to_string (or (get data "buyerCityName") (VStr "")) = Ok city ->
  Str.trim (province ++ " " ++ city) = Str.trim p.
Proof.
  intros Hp Hc Hne Hprovince Hcity.
  rewrite (falsy_or_empty _ Hc) in Hcity. ok_inv Hcity. subst city.
  rewrite Hp in Hprovince. unfold or in Hprovince. simpl in Hprovince.
  destruct (String.eqb_spec p ""); [contradiction|].
  simpl in Hprovince. ok_inv Hprovince. subst province. apply trim_space.
Qed.

Lemma pick_string (t : string) (rest : list value) :
  Route.pick (VStr t :: rest)
  = if String.eqb t "" then Route.pick rest else VStr t.
Proof. destruct t; reflexivity. Qed.

(** C10 (as the code has it). Take a record whose province name is a string
    and whose city name is absent (or otherwise falsy).  When the province
    name has a character that is not white space, the city of the summary is
    the trimmed province name alone, whatever the legacy field [cityName]
    holds, and the mail body has it on its city line.  When the province
    name is nothing but white space, its trimmed text is empty and the
    legacy field is what [pick] goes on to.  The page of page.tsx shows the
    province name as it is, untrimmed, and has no legacy field to fall back
    to. *)
Theorem city_is_trimmed_province (now : string) (data : value) (p : string) :
  get data "buyerProvinceName" = VStr p ->
  truthy (get data "buyerCityName") = false ->
  (forall s, Route.buildOrderSummary now data = Ok s ->
     Route.cityName s
     = if String.eqb (Str.trim p) ""
       then Route.pick [get data "cityName"]
       else VStr (Str.trim p)) /\
  (forall parts, Script.summaryParts now data = Ok parts ->
     Str.trim p <> "" ->
     nth 9 parts "" = "所在城市: " ++ Str.trim p) /\
  (forall entries, Page.buildOrderSummary now data = Ok entries ->
     p <> "" ->
     lookup entries "所在城市" = Some (VStr p)).
Proof.
  intros Hp Hc. conjuncts.
  - intros s H. unfold Route.buildOrderSummary in H.
    bind_inv H as province Hprovince. bind_inv H as city Hcity.
    bind_inv H as exterior Hext. bind_inv H as interior Hint.
    bind_inv H as price Hprice. bind_inv H as cprice Hcprice.
    ok_inv H. subst s. cbn [Route.cityName]. rewrite pick_string.
    destruct (String.eqb_spec p "") as [->|Hne].
    + rewrite Hp in Hprovince. vm_compute in Hprovince. ok_inv Hprovince.
      rewrite (falsy_or_empty _ Hc) in Hcity. ok_inv Hcity.
      subst province city. reflexivity.
    + now rewrite (province_alone data p province city).
  - intros parts H Hne. unfold Script.summaryParts in H.
    bind_inv H as l1 H1. bind_inv H as l2 H2. bind_inv H as l3 H3.
    bind_inv H as l4 H4. bind_inv H as l5 H5. bind_inv H as l6 H6.
    bind_inv H as l7 H7. bind_inv H as l8 H8. bind_inv H as l9 H9.
    bind_inv H as province Hprovince. bind_inv H as city Hcity.
    bind_inv H as l10 H10. bind_inv H as l11 H11.
    bind_inv H as l12 H12. bind_inv H as l13 H13.
    bind_inv H as exterior Hext. bind_inv H as interior Hint.
    bind_inv H as l14 H14. bind_inv H as price Hprice.
    bind_inv H as l15 H15. ok_inv H. subst parts. cbn [nth].
    rewrite (province_alone data p province city) in H10;
      trivial; [|now apply trim_not_empty].
    change Script.pick with Route.pick in H10. rewrite pick_string in H10.
    destruct (String.eqb_spec (Str.trim p) ""); [contradiction|].
    unfold Script.line in H10. simpl in H10. now ok_inv H10.
  - intros entries H Hne. unfold Page.buildOrderSummary in H.
    rewrite Hp in H.
    assert (Hf : filter truthy [VStr p; get data "buyerCityName"]
                 = [VStr p]).
    { cbn [filter]. rewrite Hc. simpl.
      destruct (String.eqb_spec p ""); [contradiction | reflexivity]. }
    rewrite Hf in H. cbn [join to_string bind] in H.
    bind_inv H as exterior Hext. bind_inv H as interior Hint.
    bind_inv H as price Hprice. bind_inv H as cprice Hcprice.
    ok_inv H. subst entries.
    assert (Hor : or (VStr p) (VStr "--") = VStr p).
    { unfold or. simpl. destruct (String.eqb_spec p "");
        [contradiction | reflexivity]. }
    rewrite Hor. reflexivity.
Qed.

Lemma city_is_trimmed_province_witness :
  field Route.cityName
    (Route.buildOrderSummary "2025/1/1 10:00:00" province_only_record)
  = Ok (VStr "广东省").
Proof.
  destruct (Route.buildOrderSummary "2025/1/1 10:00:00" province_only_record)
    as [s|] eqn:E; [|vm_compute in E; discriminate].
  destruct (city_is_trimmed_province "2025/1/1 10:00:00" province_only_record
              " 广东省 " eq_refl eq_refl) as (H & _).
  simpl. rewrite (H s E). reflexivity.
Defined.

(** C10, counterexample. The province name [" "] is present and not empty,
    the city name is absent, and the legacy field holds a city: the summary
    shows the legacy city, not the trimmed province name (which is
    empty). *)
Lemma blank_province_falls_back :
  get (VObj [("buyerProvinceName", VStr " "); ("cityName", VStr "深圳")])
    "buyerProvinceName" = VStr " " /\
  get (VObj [("buyerProvinceName", VStr " "); ("cityName", VStr "深圳")])
    "buyerCityName" = VUndefined /\
  Str.trim " " = "" /\
  field Route.cityName
    (Route.buildOrderSummary "2025/1/1 10:00:00"
       (VObj [("buyerProvinceName", VStr " "); ("cityName", VStr "深圳")]))
  = Ok (VStr "深圳").
Proof. vm_compute. repeat split. Qed.

(* ================================================================== *)
(** * Further properties of the code *)
(* ================================================================== *)

(** ** [pick] and [formatCurrency] *)

(** X1. Whatever the candidates are, what [pick] returns is never [null],
    [undefined] or the empty string, and it is one of the candidates or the
    placeholder ["--"]. *)
Theorem pick_result_is_candidate_or_placeholder (cs : list value) :
  blank (Route.pick cs) = false /\
  blank (Script.pick cs) = false /\
  (In (Route.pick cs) cs \/ Route.pick cs = VStr "--").
Proof.
  conjuncts.
  - apply pick_not_blank.
  - change Script.pick with Route.pick. apply pick_not_blank.
  - induction cs as [|c cs IH]; [now right|].
    cbn [Route.pick]. rewrite skip_test.
    destruct (blank c); cbn [negb].
    + destruct IH as [IH|IH]; [left; now right | now right].
    + left. now left.
Qed.

Lemma of_list_empty (l : list ascii) : string_of_list_ascii l = "" -> l = [].
Proof. destruct l; [reflexivity | discriminate]. Qed.

(** X2. The text that [formatCurrency] returns is never empty. *)
Theorem formatCurrency_never_empty (amount : value) (t : string) :
  Route.formatCurrency amount = Ok t -> t <> "".
Proof.
  unfold Route.formatCurrency. fold (blank amount).
  destruct (blank amount) eqn:Hb; [intros H; ok_inv H; now subst t|].
  intros H. bind_inv H as n Hn.
  destruct (Num.isNaN n) eqn:HN; [|ok_inv H; subst t; discriminate].
  destruct amount as [| |b|x|s|l|kvs]; try discriminate Hb.
  - destruct b; simpl in Hn; ok_inv Hn; subst n; discriminate.
  - simpl in Hn, H. ok_inv Hn. subst x. destruct n; try discriminate.
    ok_inv H. subst t. discriminate.
  - simpl in H. ok_inv H. subst t. destruct s; [discriminate Hb|discriminate].
  - unfold to_number in Hn. rewrite H in Hn. simpl in Hn. ok_inv Hn.
    intros ->. subst n. discriminate.
  - unfold to_number in Hn. rewrite H in Hn. simpl in Hn. ok_inv Hn.
    intros ->. subst n. discriminate.
Qed.

Lemma formatCurrency_never_empty_witness :
  (Route.formatCurrency (VArr []) = Ok "¥0.00" /\ "¥0.00" <> "") /\
  (Route.formatCurrency (VObj []) = Ok "[object Object]" /\
   "[object Object]" <> "").
Proof.
  split; (split; [reflexivity|]).
  - exact (formatCurrency_never_empty (VArr []) "¥0.00" eq_refl).
  - exact (formatCurrency_never_empty (VObj []) "[object Object]" eq_refl).
Defined.

(** X3. An amount that arrives as the decimal numeral of a natural number
    is formatted as that number is. *)
Theorem formatCurrency_numeral_as_number (n : Z) :
  0 <= n ->
  Route.formatCurrency (VStr (Num.decimal n))
  = Route.formatCurrency (VNum (Num.of_Z n)).
Proof.
  intros Hn.
  assert (Hb : blank (VStr (Num.decimal n)) = false).
  { destruct (Num.decimal n) eqn:E; [|reflexivity].
    now destruct (proj2 (decimal_digits n)). }
  rewrite (formatCurrency_numeric _ (Num.of_Z n) Hb)
    by (simpl; now rewrite to_number_numeral).
  rewrite (formatCurrency_numeric (VNum (Num.of_Z n)) (Num.of_Z n))
    by reflexivity.
  unfold Num.of_Z. now rewrite round64_not_NaN.
Qed.

Lemma formatCurrency_numeral_as_number_witness :
  Route.formatCurrency (VStr "199999") = Ok "¥199,999.00".
Proof.
  refine (eq_trans (formatCurrency_numeral_as_number 199999 _) _).
  - discriminate.
  - vm_compute. reflexivity.
Defined.

(** X4. A string amount that is not empty and holds nothing but white
    space reads as zero and is shown as ["¥0.00"], not as the
    placeholder. *)
Theorem formatCurrency_blank_text_is_zero (s : string) :
  s <> "" -> Str.trim s = "" ->
  Route.formatCurrency (VStr s) = Ok "¥0.00".
Proof.
  intros Hs Ht.
  assert (Hb : blank (VStr s) = false) by (destruct s; [contradiction|reflexivity]).
  assert (Hn : Str.to_number s = Num.Zero false).
  { unfold Str.to_number. unfold Str.trim in Ht.
    now rewrite (of_list_empty _ Ht). }
  rewrite (formatCurrency_numeric (VStr s) (Num.Zero false) Hb)
    by (simpl; now rewrite Hn).
  reflexivity.
Qed.

Lemma formatCurrency_blank_text_is_zero_witness :
  Route.formatCurrency (VStr "  　") = Ok "¥0.00".
Proof.
  apply formatCurrency_blank_text_is_zero; [discriminate | reflexivity].
Defined.

(** ** The mail body *)

Lemma summaryParts_ext (now : string) (d1 d2 : value) :
  (forall k, k <> "skuDetail" -> get d1 k = get d2 k) ->
  Script.summaryParts now d1 = Script.summaryParts now d2.
Proof.
  intros G. unfold Script.summaryParts. cbv zeta.
  repeat match goal with
         | |- context [get d1 ?k] => rewrite (G k) by discriminate
         end.
  reflexivity.
Qed.

(** X5. The mail body does not depend on [skuDetail]: the scripts parse the
    configuration and print nothing of it. *)
Theorem mail_body_ignores_configuration (now : string) (d1 d2 : value) :
  (forall k, k <> "skuDetail" -> get d1 k = get d2 k) ->
  Script.buildOrderSummaryText now d1 = Script.buildOrderSummaryText now d2.
Proof.
  intros G. unfold Script.buildOrderSummaryText.
  now rewrite (summaryParts_ext now d1 d2 G).
Qed.

Lemma mail_body_ignores_configuration_witness :
  Script.buildOrderSummaryText "2025/1/1 10:00:00"
    (VObj [("skuDetail", VStr configuration_text)])
  = Script.buildOrderSummaryText "2025/1/1 10:00:00"
      (VObj [("skuDetail", VStr "{not json")]).
Proof.
  apply mail_body_ignores_configuration.
  intros k Hk. now apply single_key_agree.
Defined.

Lemma line_coalesce (k : string) (v : value) :
  Script.line k (coalesce v (VStr "--")) = Script.line k v.
Proof. destruct v; reflexivity. Qed.

(** X6. The mail body is the summary of route.ts in print: when both are
    built from one record, each of the fifteen lines of the body is the
    label, a colon and the text of the corresponding field of the summary
    (the two configuration fields are not printed). *)
Theorem mail_body_prints_the_summary (now : string) (data : value)
  (s : Route.OrderSummary) (parts : list string) :
  Route.buildOrderSummary now data = Ok s ->
  Script.summaryParts now data = Ok parts ->
  map (fun f => Script.line (fst f) (snd f)) (mail_fields s) = map Ok parts.
Proof.
  unfold Route.buildOrderSummary. intros H Hp.
  bind_inv H as province Hprovince. bind_inv H as city Hcity.
  bind_inv H as exterior Hext. bind_inv H as interior Hint.
  bind_inv H as price Hprice. bind_inv H as cprice Hcprice.
  ok_inv H. subst s.
  unfold Script.summaryParts in Hp.
  bind_inv Hp as l1 H1. bind_inv Hp as l2 H2. bind_inv Hp as l3 H3.
  bind_inv Hp as l4 H4. bind_inv Hp as l5 H5. bind_inv Hp as l6 H6.
  bind_inv Hp as l7 H7. bind_inv Hp as l8 H8. bind_inv Hp as l9 H9.
  bind_inv Hp as province' Hprovince'. bind_inv Hp as city' Hcity'.
  bind_inv Hp as l10 H10. bind_inv Hp as l11 H11.
  bind_inv Hp as l12 H12. bind_inv Hp as l13 H13.
  bind_inv Hp as exterior' Hext'. bind_inv Hp as interior' Hint'.
  bind_inv Hp as l14 H14. bind_inv Hp as price' Hprice'.
  bind_inv Hp as l15 H15. ok_inv Hp. subst parts.
  rewrite Hprovince in Hprovince'. ok_inv Hprovince'.
  rewrite Hcity in Hcity'. ok_inv Hcity'.
  rewrite Hext in Hext'. ok_inv Hext'.
  rewrite Hint in Hint'. ok_inv Hint'.
  change Script.formatCurrency with Route.formatCurrency in Hprice'.
  change Script.pick with Route.pick in *.
  rewrite Hprice in Hprice'. ok_inv Hprice'.
  subst province' city' exterior' interior' price'.
  unfold mail_fields.
  cbn [map fst snd Route.requestTime Route.orderNo Route.businessOrderNo
    Route.orderDate Route.payDate Route.buyerName Route.buyerTel
    Route.buyerIdNo Route.cityName Route.dealerName Route.vehicleModel
    Route.vehicleVersion Route.colorName Route.retailPrice Route.vehicleVin].
  rewrite line_coalesce.
  change Script.formatRequestTime with Route.formatRequestTime in H1.
  rewrite H1, H2, H3, H4, H5, H6, H7, H8, H9, H10, H11, H12, H13, H14, H15.
  reflexivity.
Qed.

Lemma mail_body_prints_the_summary_witness :
  exists s parts,
    Route.buildOrderSummary "2025/1/1 10:00:00" typical_record = Ok s /\
    Script.summaryParts "2025/1/1 10:00:00" typical_record = Ok parts /\
    map (fun f => Script.line (fst f) (snd f)) (mail_fields s)
    = map Ok parts /\
    nth 9 parts "" = "所在城市: 广东省 深圳市".
Proof.
  eexists. eexists.
  split; [vm_compute; reflexivity|]. split; [vm_compute; reflexivity|].
  split.
  - exact (mail_body_prints_the_summary "2025/1/1 10:00:00" typical_record
             _ _ eq_refl eq_refl).
  - reflexivity.
Defined.

(** ** The cadence, run after run *)

Lemma numeral_supplied (n : Z) :
  0 < n < 2 ^ 53 ->
  Num.decimal n <> "" /\
  Num.to_Z (Str.to_number (Num.decimal n)) = Some n.
Proof.
  intros Hn. split; [apply decimal_digits | now apply to_number_decimal].
Qed.

Lemma hourly_by_numeral (w : Script.surroundings) (n : Z) :
  0 < n < 2 ^ 53 ->
  Script.GITHUB_RUN_NUMBER w = Some (Num.decimal n) ->
  Hourly.shouldSendSummaryByCycle w = (n mod 3 =? 0).
Proof.
  intros Hn E. destruct (numeral_supplied n Hn) as [Hne Hz].
  pose proof (counter_supplied w _ E Hne) as Hc.
  rewrite hourly_by_counter, Hc, Hz; trivial.
  rewrite Hc. apply (to_Z_sign _ n); trivial; lia.
Qed.

Lemma three_hourly_by_numeral (w : Script.surroundings) (n : Z) :
  0 < n < 2 ^ 53 ->
  Script.GITHUB_RUN_NUMBER w = Some (Num.decimal n) ->
  Num.is_zero (Num.rem (ThreeHourly.runNumber w) (Num.of_Z 2))
  = (n mod 2 =? 0).
Proof.
  intros Hn E. destruct (numeral_supplied n Hn) as [Hne Hz].
  assert (Hr : ThreeHourly.runNumber w = Str.to_number (Num.decimal n)).
  { unfold ThreeHourly.runNumber. rewrite E.
    destruct (String.eqb_spec (Num.decimal n) ""); [contradiction|].
    pose proof (proj1 (to_Z_sign _ n Hz) ltac:(lia)) as Hp.
    destruct (Str.to_number (Num.decimal n)) as [|[]|[]|[] m e];
      try discriminate; reflexivity. }
  rewrite Hr. now apply rem2_integral.
Qed.



(** X8. Of three runs of the hourly script with consecutive run numbers
    exactly one passes the cadence check, and of two runs of the
    three-hourly script with consecutive run numbers exactly one does. *)
Theorem one_reminder_per_period (n : Z) (w0 w1 w2 : Script.surroundings) :
  0 < n -> n + 2 < 2 ^ 53 ->
  Script.GITHUB_RUN_NUMBER w0 = Some (Num.decimal n) ->
  Script.GITHUB_RUN_NUMBER w1 = Some (Num.decimal (n + 1)) ->
  Script.GITHUB_RUN_NUMBER w2 = Some (Num.decimal (n + 2)) ->
  sends [Hourly.shouldSendSummaryByCycle w0;
         Hourly.shouldSendSummaryByCycle w1;
         Hourly.shouldSendSummaryByCycle w2] = 1%nat /\
  sends [Num.is_zero (Num.rem (ThreeHourly.runNumber w0) (Num.of_Z 2));
         Num.is_zero (Num.rem (ThreeHourly.runNumber w1) (Num.of_Z 2))]
  = 1%nat.
Proof.
  intros Hp Hlt E0 E1 E2.
  rewrite (hourly_by_numeral w0 n), (hourly_by_numeral w1 (n + 1)),
    (hourly_by_numeral w2 (n + 2)) by (trivial; lia).
  rewrite (three_hourly_by_numeral w0 n),
    (three_hourly_by_numeral w1 (n + 1)) by (trivial; lia).
  unfold sends.
  destruct (Z.eqb_spec (n mod 3) 0), (Z.eqb_spec ((n + 1) mod 3) 0),
    (Z.eqb_spec ((n + 2) mod 3) 0), (Z.eqb_spec (n mod 2) 0),
    (Z.eqb_spec ((n + 1) mod 2) 0); cbn [filter List.length];
    split; try reflexivity; exfalso; Z.div_mod_to_equations; lia.
Qed.

Lemma one_reminder_per_period_witness :
  sends [Hourly.shouldSendSummaryByCycle (run_with (Some "10") 0);
         Hourly.shouldSendSummaryByCycle (run_with (Some "11") 0);
         Hourly.shouldSendSummaryByCycle (run_with (Some "12") 0)]
  = 1%nat.
Proof.
  refine (proj1 (one_reminder_per_period 10
                   (run_with (Some "10") 0) (run_with (Some "11") 0)
                   (run_with (Some "12") 0) _ _ eq_refl eq_refl eq_refl));
    reflexivity.
Defined.

(** ** Payloads *)

(** X9. A record that arrives wrapped in a [data] field is handled as the
    bare record is, by the route and by both scripts, as long as the record
    is truthy and has no [data] field of its own. *)
Theorem wrapped_payload_is_unwrapped (now : string)
  (w : Script.surroundings) (payload d : value) :
  get payload "data" = d ->
  truthy d = true ->
  nullish (get d "data") = true ->
  Route.GET now (Route.Payload payload) = Route.GET now (Route.Payload d) /\
  Hourly.main w payload = Hourly.main w d /\
  ThreeHourly.main w payload = ThreeHourly.main w d.
Proof.
  intros Hd Ht Hn.
  assert (E1 : coalesce (get payload "data") payload = d).
  { rewrite Hd. destruct d; trivial; discriminate. }
  assert (E2 : coalesce (get d "data") d = d).
  { destruct (get d "data"); trivial; discriminate. }
  assert (E3 : or (get payload "data") payload = d).
  { rewrite Hd. unfold or. now rewrite Ht. }
  assert (E4 : or (get d "data") d = d).
  { unfold or. destruct (get d "data"); trivial; discriminate. }
  unfold Route.GET, Hourly.main, ThreeHourly.main.
  rewrite E1, E2, E3, E4. auto.
Qed.

Lemma wrapped_payload_is_unwrapped_witness :
  Hourly.main sample_run (VObj [("data", sample_record)])
  = Hourly.main sample_run sample_record.
Proof.
  refine (proj1 (proj2 (wrapped_payload_is_unwrapped "2025/1/1 10:00:00"
            sample_run (VObj [("data", sample_record)]) sample_record
            eq_refl eq_refl eq_refl))).
Defined.

(** X10. For a payload that has none of the fields -- [null], a number, a
    string, an array, the empty object -- the route answers 200 with
    [hasVin] false and a summary of placeholders. *)
Theorem empty_payload_gives_placeholders (now : string) (payload : value) :
  (forall k, get payload k = VUndefined) ->
  Route.GET now (Route.Payload payload)
  = Route.Json200 false (placeholders now).
Proof.
  intros G. unfold Route.GET. rewrite (G "data"). cbn [coalesce].
  assert (E : Route.buildOrderSummary now payload = Ok (placeholders now)).
  { unfold Route.buildOrderSummary. cbv zeta. rewrite !G. reflexivity. }
  rewrite E, G. reflexivity.
Qed.

Lemma empty_payload_gives_placeholders_witness :
  Route.GET "2025/1/1 10:00:00" (Route.Payload VNull)
  = Route.Json200 false (placeholders "2025/1/1 10:00:00") /\
  Route.GET "2025/1/1 10:00:00" (Route.Payload (VArr [VStr "x"]))
  = Route.Json200 false (placeholders "2025/1/1 10:00:00").
Proof.
  split; apply empty_payload_gives_placeholders; intros k; reflexivity.
Defined.

(** ** Request headers *)

Lemma lookup_set (t : list (string * value)) (k k' : string) (v : value) :
  lookup (Json.set t k v) k'
  = if String.eqb k k' then Some v else lookup t k'.
Proof.
  induction t as [|[k0 v0] t IH]; cbn [Json.set lookup]; [reflexivity|].
  destruct (String.eqb_spec k0 k) as [->|Hk]; cbn [lookup].
  - destruct (String.eqb_spec k k'); reflexivity.
  - rewrite IH. destruct (String.eqb_spec k0 k') as [->|Hk'];
      [|reflexivity].
    destruct (String.eqb_spec k k'); [congruence | reflexivity].
Qed.

Lemma lookup_absent (kvs : list (string * value)) (k : string) :
  ~ In k (map fst kvs) -> lookup kvs k = None.
Proof.
  induction kvs as [|[k0 v0] kvs IH]; cbn [lookup map fst]; [reflexivity|].
  intros H. destruct (String.eqb_spec k0 k) as [->|Hk].
  - exfalso. apply H. now left.
  - apply IH. intros Hin. apply H. now right.
Qed.

Lemma lookup_filter (kvs : list (string * value)) (k0 k : string) :
  k <> k0 ->
  lookup (filter (fun kv => negb (String.eqb (fst kv) k0)) kvs) k
  = lookup kvs k.
Proof.
  intros Hk. induction kvs as [|[k1 v1] kvs IH]; [reflexivity|].
  cbn [filter fst]. destruct (String.eqb_spec k1 k0) as [->|H1]; cbn [negb].
  - cbn [lookup]. destruct (String.eqb_spec k0 k); [congruence | exact IH].
  - cbn [lookup]. now rewrite IH.
Qed.

(** The properties of an object are read as its list is. *)
Lemma lookup_own (kvs : list (string * value)) (k : string) :
  lookup (Sys.own kvs) k = lookup kvs k.
Proof.
  induction kvs as [|[k0 v0] kvs IH]; [reflexivity|].
  cbn [Sys.own lookup]. destruct (String.eqb_spec k0 k) as [->|Hk];
    [reflexivity|].
  rewrite lookup_filter by congruence. exact IH.
Qed.

Lemma filter_keys (p : string * value -> bool) (kvs : list (string * value))
  (k : string) :
  In k (map fst (filter p kvs)) -> In k (map fst kvs).
Proof.
  rewrite !in_map_iff. intros (kv & E & Hin).
  apply filter_In in Hin. exists kv. tauto.
Qed.

Lemma filter_distinct (p : string * value -> bool)
  (kvs : list (string * value)) :
  NoDup (map fst kvs) -> NoDup (map fst (filter p kvs)).
Proof.
  induction kvs as [|kv kvs IH]; cbn [map filter]; [trivial|].
  intros H. inversion H as [|x l Hx Hl]; subst.
  destruct (p kv); [|now apply IH].
  cbn [map]. constructor; [|now apply IH].
  intros Hin. apply Hx. now apply (filter_keys p).
Qed.

(** No key is a property twice. *)
Lemma own_distinct (kvs : list (string * value)) :
  NoDup (map fst (Sys.own kvs)).
Proof.
  induction kvs as [|[k0 v0] kvs IH]; cbn [Sys.own map fst];
    constructor.
  - rewrite in_map_iff. intros ([k1 v1] & E & Hin). cbn [fst] in E.
    subst k1. apply filter_In in Hin. destruct Hin as [_ Hin].
    cbn [fst] in Hin. now rewrite String.eqb_refl in Hin.
  - now apply filter_distinct.
Qed.

Lemma lookup_put (t : list (string * value)) (k k' : string) (v : value) :
  lookup (Sys.put t k v) k'
  = if String.eqb k "__proto__" then lookup t k'
    else if String.eqb k k' then Some v else lookup t k'.
Proof.
  unfold Sys.put. destruct (String.eqb k "__proto__"); [reflexivity|].
  apply lookup_set.
Qed.

(** After the properties [l] have been put, a key other than [__proto__]
    holds what [l] has for it, and what the target had when [l] has
    nothing; [__proto__] holds what it held. *)
Lemma lookup_puts (l : list (string * value)) :
  NoDup (map fst l) ->
  forall (target : list (string * value)) (k : string),
    lookup (fold_left (fun t kv => Sys.put t (fst kv) (snd kv)) l target) k
    = if String.eqb k "__proto__" then lookup target k
      else match lookup l k with
           | Some v => Some v
           | None => lookup target k
           end.
Proof.
  induction l as [|[k0 v0] l IH]; intros Hd target k.
  - cbn [fold_left lookup]. destruct (String.eqb k "__proto__"); reflexivity.
  - inversion Hd as [|x l' Hx Hl]; subst.
    cbn [fold_left fst snd]. rewrite (IH Hl), lookup_put. cbn [lookup].
    destruct (String.eqb_spec k "__proto__") as [->|Hp].
    + destruct (String.eqb_spec k0 "__proto__"); reflexivity.
    + destruct (String.eqb_spec k0 k) as [->|Hk].
      * rewrite (lookup_absent l k Hx).
        destruct (String.eqb_spec k "__proto__"); [contradiction|].
        reflexivity.
      * destruct (String.eqb k0 "__proto__"); reflexivity.
Qed.

(** After [Object.assign] with an object as the source. *)
Lemma lookup_assign (target kvs : list (string * value)) (k : string) :
  lookup (Sys.assign target (VObj kvs)) k
  = if String.eqb k "__proto__" then lookup target k
    else match lookup kvs k with
         | Some v => Some v
         | None => lookup target k
         end.
Proof.
  unfold Sys.assign. cbn [Sys.properties].
  rewrite (lookup_puts _ (own_distinct kvs)), lookup_own. reflexivity.
Qed.

Lemma lookup_with_setting (w : Sys.world) (name header k : string)
  (t : list (string * value)) :
  lookup (Sys.with_setting w name header t) k
  = match Sys.setting w name with
    | Some s => if String.eqb header k then Some (VStr s) else lookup t k
    | None => lookup t k
    end.
Proof.
  unfold Sys.with_setting. destruct (Sys.setting w name); [|reflexivity].
  apply lookup_set.
Qed.

Lemma script_defaults_lookup (w : Sys.world) (k : string) :
  lookup
    (Sys.with_setting w "ORDER_API_KEY" "apikey"
       (Sys.with_setting w "ORDER_BRAND_CODE" "brandCode"
          (Sys.with_setting w "ORDER_TOKEN" "token"
             [("content-type", VStr "application/json")]))) k
  = script_default w k.
Proof.
  rewrite !lookup_with_setting. unfold script_default. cbn [lookup].
  rewrite !(String.eqb_sym k).
  destruct (String.eqb_spec "apikey" k) as [<-|H1];
    [destruct (Sys.setting w "ORDER_API_KEY"),
       (Sys.setting w "ORDER_BRAND_CODE"), (Sys.setting w "ORDER_TOKEN");
     reflexivity|].
  destruct (String.eqb_spec "brandCode" k) as [<-|H2];
    [destruct (Sys.setting w "ORDER_API_KEY"),
       (Sys.setting w "ORDER_BRAND_CODE"), (Sys.setting w "ORDER_TOKEN");
     reflexivity|].
  destruct (String.eqb_spec "token" k) as [<-|H3];
    [destruct (Sys.setting w "ORDER_API_KEY"),
       (Sys.setting w "ORDER_BRAND_CODE"), (Sys.setting w "ORDER_TOKEN");
     reflexivity|].
  destruct (Sys.setting w "ORDER_API_KEY"),
    (Sys.setting w "ORDER_BRAND_CODE"), (Sys.setting w "ORDER_TOKEN");
    reflexivity.
Qed.

Lemma lib_defaults_lookup (w : Sys.world) (k : string) :
  lookup
    (Sys.with_setting w "ORDER_TOKEN" "token"
       (Sys.with_setting w "ORDER_API_KEY" "apikey"
          (Sys.with_setting w "ORDER_BRAND_CODE" "brandCode"
             [("Accept", VStr "application/json, text/plain, */*");
              ("User-Agent", VStr Lib.userAgent)]))) k
  = lib_default w k.
Proof.
  rewrite !lookup_with_setting. unfold lib_default. cbn [lookup].
  rewrite !(String.eqb_sym k).
  destruct (String.eqb_spec "token" k) as [<-|H1];
    [destruct (Sys.setting w "ORDER_API_KEY"),
       (Sys.setting w "ORDER_BRAND_CODE"), (Sys.setting w "ORDER_TOKEN");
     reflexivity|].
  destruct (String.eqb_spec "apikey" k) as [<-|H2];
    [destruct (Sys.setting w "ORDER_API_KEY"),
       (Sys.setting w "ORDER_BRAND_CODE"), (Sys.setting w "ORDER_TOKEN");
     reflexivity|].
  destruct (String.eqb_spec "brandCode" k) as [<-|H3];
    [destruct (Sys.setting w "ORDER_API_KEY"),
       (Sys.setting w "ORDER_BRAND_CODE"), (Sys.setting w "ORDER_TOKEN");
     reflexivity|].
  destruct (String.eqb_spec "Accept" k) as [<-|H4];
    [destruct (Sys.setting w "ORDER_API_KEY"),
       (Sys.setting w "ORDER_BRAND_CODE"), (Sys.setting w "ORDER_TOKEN");
     reflexivity|].
  destruct (Sys.setting w "ORDER_API_KEY"),
    (Sys.setting w "ORDER_BRAND_CODE"), (Sys.setting w "ORDER_TOKEN");
    reflexivity.
Qed.

(** X11. When [ORDER_HEADERS_JSON] holds the JSON text of an object, every
    header the object names, [__proto__] apart, is sent with the value the
    object gives it, the built-in and the credential headers included, and
    every other header is sent as built in: in the mail scripts
    [content-type] and, when their variables are set, [token], [brandCode]
    and [apikey]; in src/lib/order.ts [Accept], [User-Agent] and the same
    three.  An entry [__proto__] of the object never becomes a header.  When
    the variable is unset the built-in headers are sent; when its text does
    not parse they are sent too, and the scripts print a warning. *)
Theorem extra_headers_override (w : Sys.world) :
  (forall j kvs,
     Sys.setting w "ORDER_HEADERS_JSON" = Some j ->
     Json.parse j = Some (VObj kvs) ->
     exists headers,
       ScriptIO.requestHeaders w = ([], Sys.Returned headers) /\
       (forall k, lookup headers k
                  = if String.eqb k "__proto__" then None
                    else match lookup kvs k with
                         | Some v => Some v
                         | None => script_default w k
                         end) /\
       (forall k, lookup (Lib.requestHeaders w) k
                  = if String.eqb k "__proto__" then None
                    else match lookup kvs k with
                         | Some v => Some v
                         | None => lib_default w k
                         end)) /\
  (Sys.setting w "ORDER_HEADERS_JSON" = None ->
   exists headers,
     ScriptIO.requestHeaders w = ([], Sys.Returned headers) /\
     (forall k, lookup headers k = script_default w k) /\
     (forall k, lookup (Lib.requestHeaders w) k = lib_default w k)) /\
  (forall j,
     Sys.setting w "ORDER_HEADERS_JSON" = Some j ->
     Json.parse j = None ->
     exists headers line,
       ScriptIO.requestHeaders w = ([Sys.Warned line], Sys.Returned headers) /\
       (forall k, lookup headers k = script_default w k) /\
       (forall k, lookup (Lib.requestHeaders w) k = lib_default w k)).
Proof.
  conjuncts.
  - intros j kvs Hj Hp. eexists. conjuncts.
    + unfold ScriptIO.requestHeaders. rewrite Hj, Hp. reflexivity.
    + intros k. rewrite lookup_assign, script_defaults_lookup.
      destruct (String.eqb_spec k "__proto__") as [->|]; reflexivity.
    + intros k. unfold Lib.requestHeaders. rewrite Hj.
      assert (E : or (Page.safeJsonParse (VStr j)) (VObj []) = VObj kvs).
      { unfold Page.safeJsonParse. cbn [truthy to_string].
        assert (Hne : j <> "").
        { intros ->. unfold Sys.setting in Hj.
          destruct (Sys.env w "ORDER_HEADERS_JSON") as [s|];
            [|discriminate].
          destruct (String.eqb_spec s ""); [discriminate|].
          now injection Hj. }
        destruct (String.eqb_spec j ""); [contradiction|].
        cbn [negb]. rewrite Hp. reflexivity. }
      rewrite E, lookup_assign, lib_defaults_lookup.
      destruct (String.eqb_spec k "__proto__") as [->|]; reflexivity.
  - intros Hj. eexists. conjuncts.
    + unfold ScriptIO.requestHeaders. rewrite Hj. reflexivity.
    + intros k. apply script_defaults_lookup.
    + intros k. unfold Lib.requestHeaders. rewrite Hj.
      change (or (Page.safeJsonParse VNull) (VObj [])) with (VObj []).
      apply lib_defaults_lookup.
  - intros j Hj Hp. eexists. eexists. conjuncts.
    + unfold ScriptIO.requestHeaders. rewrite Hj, Hp. reflexivity.
    + intros k. apply script_defaults_lookup.
    + intros k. unfold Lib.requestHeaders. rewrite Hj.
      assert (E : or (Page.safeJsonParse (VStr j)) (VObj []) = VObj []).
      { unfold Page.safeJsonParse. cbn [to_string].
        destruct (negb (truthy (VStr j))); [reflexivity|].
        rewrite Hp. reflexivity. }
      rewrite E. apply lib_defaults_lookup.
Qed.

Lemma extra_headers_override_witness :
  exists headers,
    ScriptIO.requestHeaders
      (world_with
         [("ORDER_TOKEN", "t0ken");
          ("ORDER_HEADERS_JSON",
           Json.quoted
             "{'Referer':'https://b.example','token':'other','__proto__':{'x':'y'},'Origin':'https://a.example'}")]
         200 "{}")
    = ([], Sys.Returned headers) /\
    headers = [("content-type", VStr "application/json");
               ("token", VStr "other");
               ("Referer", VStr "https://b.example");
               ("Origin", VStr "https://a.example")] /\
    lookup headers "token" = Some (VStr "other") /\
    lookup headers "Origin" = Some (VStr "https://a.example") /\
    lookup headers "content-type" = Some (VStr "application/json") /\
    lookup headers "__proto__" = None /\
    lookup headers "x" = None.
Proof.
  destruct (extra_headers_override
              (world_with
                 [("ORDER_TOKEN", "t0ken");
                  ("ORDER_HEADERS_JSON",
                   Json.quoted
                     "{'Referer':'https://b.example','token':'other','__proto__':{'x':'y'},'Origin':'https://a.example'}")]
                 200 "{}")) as (H & _).
  destruct (H _ _ eq_refl eq_refl) as (headers & E & Hs & _).
  exists headers. split; [exact E|].
  split; [vm_compute in E; now injection E|].
  rewrite !Hs. repeat split.
Defined.

(** ** The mail transport *)

Lemma is_465_integral (x : Num.number) (n : Z) :
  Num.to_Z x = Some n -> ScriptIO.is_465 x = (n =? 465).
Proof.
  destruct x as [| |s|s m e]; try discriminate.
  - intros H. assert (n = 0) by (unfold Num.to_Z in H; congruence).
    subst n. reflexivity.
  - intros H. apply to_Z_Fin in H. destruct H as [He ->].
    destruct s.
    + cbn [ScriptIO.is_465]. symmetry. apply Z.eqb_neq.
      pose proof (pow2_pos e He).
      assert (0 < Zpos m * 2 ^ e) by (apply Z.mul_pos_pos; lia). lia.
    + cbn [ScriptIO.is_465]. rewrite Z.mul_1_l.
      destruct (Z.eqb_spec e 0) as [->|Hne].
      * rewrite Z.pow_0_r, Z.mul_1_r, Bool.andb_true_r. reflexivity.
      * rewrite Bool.andb_false_r. symmetry. apply Z.eqb_neq.
        replace e with (Z.succ (e - 1)) by lia.
        rewrite Z.pow_succ_r by lia. lia.
Qed.

(** X12. [createTransporter]: with [SMTP_PORT] the decimal numeral of an
    integer [n], [0 < n < 2^53], a transporter that is made uses port [n]
    and is secure exactly when [n] is 465; with a port text that reads as
    zero or as no number ("0", "smtp", " ") no transporter is made, whatever
    else is set; and a transporter that is made carries the host, the user
    and the password of the environment. *)
Theorem transporter_port_and_security (w : Sys.world) :
  (forall n t,
     0 < n < 2 ^ 53 ->
     Sys.setting w "SMTP_PORT" = Some (Num.decimal n) ->
     ScriptIO.createTransporter w = Some t ->
     Num.to_Z (Sys.port t) = Some n /\ Sys.secure t = (n =? 465)) /\
  (forall p,
     Sys.setting w "SMTP_PORT" = Some p ->
     Num.truthy (Str.to_number p) = false ->
     ScriptIO.createTransporter w = None) /\
  (forall t,
     ScriptIO.createTransporter w = Some t ->
     Sys.setting w "SMTP_HOST" = Some (Sys.host t) /\
     Sys.setting w "SMTP_USER" = Some (Sys.user t) /\
     Sys.setting w "SMTP_PASS" = Some (Sys.pass t) /\
     Num.truthy (Sys.port t) = true).
Proof.
  conjuncts.
  - intros n t Hn Hp. unfold ScriptIO.createTransporter. rewrite Hp.
    destruct (Sys.setting w "SMTP_HOST"); [|discriminate].
    destruct (Sys.setting w "SMTP_USER"); [|discriminate].
    destruct (Sys.setting w "SMTP_PASS"); [|discriminate].
    destruct (Num.truthy (Str.to_number (Num.decimal n))); [|discriminate].
    intros E. injection E as <-. cbn [Sys.port Sys.secure].
    pose proof (to_number_decimal n Hn) as Hz.
    split; [exact Hz | now apply is_465_integral].
  - intros p Hp Hf. unfold ScriptIO.createTransporter. rewrite Hp, Hf.
    destruct (Sys.setting w "SMTP_HOST"), (Sys.setting w "SMTP_USER"),
      (Sys.setting w "SMTP_PASS"); reflexivity.
  - intros t. unfold ScriptIO.createTransporter.
    destruct (Sys.setting w "SMTP_HOST"); [|discriminate].
    destruct (Sys.setting w "SMTP_PORT"); [|discriminate].
    destruct (Sys.setting w "SMTP_USER"); [|discriminate].
    destruct (Sys.setting w "SMTP_PASS"); [|discriminate].
    destruct (Num.truthy (Str.to_number s0)) eqn:Ht; [|discriminate].
    intros E. injection E as <-. cbn. auto.
Qed.

Lemma transporter_port_and_security_witness :
  (exists t,
     ScriptIO.createTransporter (world_with mail_settings 200 vin_body)
     = Some t /\
     Num.to_Z (Sys.port t) = Some 465 /\ Sys.secure t = true) /\
  ScriptIO.createTransporter
    (world_with [("SMTP_HOST", "smtp.example"); ("SMTP_PORT", "0");
                 ("SMTP_USER", "robot"); ("SMTP_PASS", "secret")]
       200 vin_body) = None.
Proof.
  split.
  - eexists. split; [reflexivity|].
    apply (proj1 (transporter_port_and_security
                    (world_with mail_settings 200 vin_body)) 465);
      [split; reflexivity | reflexivity | reflexivity].
  - apply (proj1 (proj2 (transporter_port_and_security _)) "0");
      reflexivity.
Defined.

(** ** Runs of the mail scripts *)

Lemma requestHeaders_shape (w : Sys.world) :
  exists pre headers,
    ScriptIO.requestHeaders w = (pre, Sys.Returned headers) /\
    (pre = [] \/ exists line, pre = [Sys.Warned line]).
Proof.
  unfold ScriptIO.requestHeaders.
  destruct (Sys.setting w "ORDER_HEADERS_JSON") as [j|];
    [|eexists; eexists; split; [reflexivity | now left]].
  destruct (Json.parse j) as [extra|];
    [|eexists; eexists; split; [reflexivity | right; eexists; reflexivity]].
  destruct (truthy extra && _);
    eexists; eexists; (split; [reflexivity | now left]).
Qed.

(** [fetchOrderJson] with [ORDER_URL] set: one request, then the outcome. *)
Lemma fetchOrderJson_shape (w : Sys.world) (url : string) :
  Sys.setting w "ORDER_URL" = Some url ->
  exists pre headers,
    (pre = [] \/ exists line, pre = [Sys.Warned line]) /\
    ScriptIO.requestHeaders w = (pre, Sys.Returned headers) /\
    ScriptIO.fetchOrderJson w
    = ((pre ++ [Sys.Requested url headers])%list,
       match Sys.fetch w url headers with
       | inl e => Sys.Threw e
       | inr res =>
           if Sys.ok res then
             match Json.parse (Sys.body res) with
             | Some v =>
                 if truthy v then Sys.Returned v
                 else Sys.Threw (Sys.Failure "返回非JSON或解析失败")
             | None => Sys.Threw (Sys.Failure "返回非JSON或解析失败")
             end
           else
             Sys.Threw
               (Sys.Failure ("接口请求失败 " ++
                             Num.to_string (Num.of_Z (Sys.status res)) ++
                             ": " ++ Sys.body res))
       end).
Proof.
  intros Hu. destruct (requestHeaders_shape w) as (pre & headers & E & Hpre).
  exists pre, headers. split; [exact Hpre|]. split; [exact E|].
  unfold ScriptIO.fetchOrderJson. rewrite Hu, E.
  unfold Sys.andThen, Sys.emit, Sys.throw, Sys.ret.
  destruct (Sys.fetch w url headers) as [e|res]; [reflexivity|].
  destruct (Sys.ok res); cbn [negb]; [|reflexivity].
  destruct (Json.parse (Sys.body res)) as [v|]; cbn [truthy negb];
    [|reflexivity].
  destruct (truthy v); reflexivity.
Qed.

Lemma fetchOrderJson_events (w : Sys.world) :
  mails (fst (ScriptIO.fetchOrderJson w)) = [] /\
  exits (fst (ScriptIO.fetchOrderJson w)) = [] /\
  (List.length (requests (fst (ScriptIO.fetchOrderJson w))) <= 1)%nat.
Proof.
  destruct (Sys.setting w "ORDER_URL") as [url|] eqn:Hu.
  - destruct (fetchOrderJson_shape w url Hu)
      as (pre & headers & Hpre & _ & ->).
    cbn [fst]. destruct Hpre as [->|[line ->]]; cbn; auto.
  - unfold ScriptIO.fetchOrderJson. rewrite Hu. cbn. auto.
Qed.

Lemma sendEmail_shape (w : Sys.world) (subject text : string) :
  ScriptIO.sendEmail w subject text
  = match outgoing w subject text with
    | Some m =>
        ([Sys.Mailed m],
         match Sys.sendMail w m with
         | None => Sys.Returned tt
         | Some e => Sys.Threw e
         end)
    | None =>
        ([Sys.Logged "[提示] SMTP/发件人未配置，跳过发送邮件。"],
         Sys.Returned tt)
    end.
Proof.
  unfold ScriptIO.sendEmail, outgoing.
  destruct (ScriptIO.createTransporter w) as [t|]; [|reflexivity].
  destruct (Sys.setting w "MAIL_FROM") as [f|]; [|reflexivity].
  unfold Sys.andThen, Sys.emit, Sys.ret, Sys.throw.
  destruct (Sys.sendMail w _); reflexivity.
Qed.

Lemma andThen_ext {A B : Type} (c : Sys.eff A) (k k' : A -> Sys.eff B) :
  (forall a, k a = k' a) -> Sys.andThen c k = Sys.andThen c k'.
Proof.
  intros H. destruct c as [l [a|e]]; [|reflexivity].
  unfold Sys.andThen. rewrite H. reflexivity.
Qed.

Lemma ret_andThen {A B : Type} (a : A) (k : A -> Sys.eff B) :
  Sys.andThen (Sys.lift (Ok a)) k = k a.
Proof.
  unfold Sys.andThen, Sys.lift, Sys.ret. destruct (k a). reflexivity.
Qed.

(** A run is the fetch followed by what the decision asks for. *)
Lemma hourly_run_performed (w : Sys.world) :
  HourlyRun.main w
  = (payload <~ ScriptIO.fetchOrderJson w ;;
     performed w
       (if truthy (get (or (get payload "data") payload) "vehicleVin")
        then "[通知] 已发送 VIN 生成邮件。"
        else "[提醒] 已发送周期性订单摘要邮件（每第3次）。")
       "[提醒] 暂未生成VIN，本次不发送邮件（等待第3次）"
       (Hourly.main (ScriptIO.surroundings_of w) payload)).
Proof.
  unfold HourlyRun.main.
  apply andThen_ext. intros payload.
  unfold Hourly.main.
  change (Script.requestTime (ScriptIO.surroundings_of w)) with (Sys.now w).
  destruct (Script.buildOrderSummaryText _ _) as [summaryText|];
    [|reflexivity].
  rewrite ret_andThen. cbn [bind].
  destruct (truthy (get (or (get payload "data") payload) "vehicleVin")).
  - destruct (to_string _) as [v|]; [|reflexivity].
    rewrite ret_andThen. reflexivity.
  - destruct (Hourly.shouldSendSummaryByCycle _); reflexivity.
Qed.

Lemma three_hourly_run_performed (w : Sys.world) :
  ThreeHourlyRun.main w
  = (payload <~ ScriptIO.fetchOrderJson w ;;
     performed w
       (if truthy (get (or (get payload "data") payload) "vehicleVin")
        then "[通知] 已发送 VIN 生成邮件。"
        else "[提醒] 已发送周期性订单摘要邮件。")
       "[提醒] 暂未生成VIN，本次不发送邮件"
       (ThreeHourly.main (ScriptIO.surroundings_of w) payload)).
Proof.
  unfold ThreeHourlyRun.main.
  apply andThen_ext. intros payload.
  unfold ThreeHourly.main.
  change (Script.requestTime (ScriptIO.surroundings_of w)) with (Sys.now w).
  destruct (Script.buildOrderSummaryText _ _) as [summaryText|];
    [|reflexivity].
  rewrite ret_andThen. cbn [bind].
  destruct (truthy (get (or (get payload "data") payload) "vehicleVin")).
  - destruct (to_string _) as [v|]; [|reflexivity].
    rewrite ret_andThen. reflexivity.
  - destruct (Num.is_zero _); reflexivity.
Qed.

Lemma mails_app (l l' : list Sys.event) :
  mails (l ++ l') = (mails l ++ mails l')%list.
Proof. apply flat_map_app. Qed.

Lemma requests_app (l l' : list Sys.event) :
  requests (l ++ l') = (requests l ++ requests l')%list.
Proof. apply flat_map_app. Qed.

Lemma exits_app (l l' : list Sys.event) :
  exits (l ++ l') = (exits l ++ exits l')%list.
Proof. apply flat_map_app. Qed.

Lemma andThen_events {A B : Type} (c : Sys.eff A) (k : A -> Sys.eff B) :
  fst (Sys.andThen c k)
  = match snd c with
    | Sys.Returned a => (fst c ++ fst (k a))%list
    | Sys.Threw _ => fst c
    end.
Proof.
  destruct c as [l [a|e]]; [|reflexivity].
  cbn [fst snd]. unfold Sys.andThen. destruct (k a). reflexivity.
Qed.

Lemma andThen_outcome {A B : Type} (c : Sys.eff A) (k : A -> Sys.eff B) :
  snd (Sys.andThen c k)
  = match snd c with
    | Sys.Returned a => snd (k a)
    | Sys.Threw e => Sys.Threw e
    end.
Proof.
  destruct c as [l [a|e]]; [|reflexivity].
  cbn [fst snd]. unfold Sys.andThen. destruct (k a). reflexivity.
Qed.

Lemma guarded_events (c : Sys.eff unit) :
  ScriptIO.guarded c
  = match snd c with
    | Sys.Returned _ => fst c
    | Sys.Threw e => failed (fst c) e
    end.
Proof. destruct c as [l [a|e]]; reflexivity. Qed.

Lemma failed_events (l : list Sys.event) (e : Sys.failure) :
  mails (failed l e) = mails l /\
  requests (failed l e) = requests l /\
  exits (failed l e) = (exits l ++ [1])%list.
Proof.
  unfold failed. rewrite mails_app, requests_app, exits_app. cbn.
  rewrite !app_nil_r. auto.
Qed.

Lemma guarded_mails (c : Sys.eff unit) :
  mails (ScriptIO.guarded c) = mails (fst c) /\
  requests (ScriptIO.guarded c) = requests (fst c).
Proof.
  rewrite guarded_events. destruct (snd c) as [a|e]; [auto|].
  destruct (failed_events (fst c) e) as (-> & -> & _). auto.
Qed.

(** What doing a decision leaves behind. *)
Lemma performed_events (w : Sys.world) (sent waiting : string)
  (d : result Script.decision) :
  requests (fst (performed w sent waiting d)) = [] /\
  exits (fst (performed w sent waiting d)) = [] /\
  mails (fst (performed w sent waiting d))
  = match d with
    | Ok (Script.Send subject text) =>
        match outgoing w subject text with
        | Some m => [m]
        | None => []
        end
    | _ => []
    end.
Proof.
  destruct d as [[subject text|]|]; cbn [performed]; [|cbn; auto|cbn; auto].
  rewrite andThen_events, sendEmail_shape.
  destruct (outgoing w subject text) as [m|]; cbn [fst snd].
  - destruct (Sys.sendMail w m); cbn; auto.
  - cbn. auto.
Qed.

(** The events of a run, by what the fetch gave. *)
Lemma run_events (w : Sys.world) (k : value -> Sys.eff unit) :
  ScriptIO.guarded (Sys.andThen (ScriptIO.fetchOrderJson w) k)
  = match snd (ScriptIO.fetchOrderJson w) with
    | Sys.Returned payload =>
        match snd (k payload) with
        | Sys.Returned _ =>
            (fst (ScriptIO.fetchOrderJson w) ++ fst (k payload))%list
        | Sys.Threw e =>
            failed (fst (ScriptIO.fetchOrderJson w) ++ fst (k payload)) e
        end
    | Sys.Threw e => failed (fst (ScriptIO.fetchOrderJson w)) e
    end.
Proof.
  rewrite guarded_events, andThen_events, andThen_outcome.
  destruct (snd (ScriptIO.fetchOrderJson w)); reflexivity.
Qed.

(** X13. A run of either mail script makes at most one request and sends
    at most one mail, and it sends none unless it has made its request. *)
Theorem one_request_one_mail (w : Sys.world) :
  (List.length (requests (HourlyRun.entry w)) <= 1)%nat /\
  (List.length (mails (HourlyRun.entry w)) <= 1)%nat /\
  (mails (HourlyRun.entry w) = [] \/
   List.length (requests (HourlyRun.entry w)) = 1%nat) /\
  (List.length (requests (ThreeHourlyRun.entry w)) <= 1)%nat /\
  (List.length (mails (ThreeHourlyRun.entry w)) <= 1)%nat /\
  (mails (ThreeHourlyRun.entry w) = [] \/
   List.length (requests (ThreeHourlyRun.entry w)) = 1%nat).
Proof.
  assert (G : forall k : value -> Sys.eff unit,
             (forall p, requests (fst (k p)) = [] /\
                        (List.length (mails (fst (k p))) <= 1)%nat) ->
             (List.length
                (requests (ScriptIO.guarded
                             (Sys.andThen (ScriptIO.fetchOrderJson w) k)))
              <= 1)%nat /\
             (List.length
                (mails (ScriptIO.guarded
                          (Sys.andThen (ScriptIO.fetchOrderJson w) k)))
              <= 1)%nat /\
             (mails (ScriptIO.guarded
                       (Sys.andThen (ScriptIO.fetchOrderJson w) k)) = [] \/
              List.length
                (requests (ScriptIO.guarded
                             (Sys.andThen (ScriptIO.fetchOrderJson w) k)))
              = 1%nat)).
  { intros k Hk.
    destruct (guarded_mails (Sys.andThen (ScriptIO.fetchOrderJson w) k))
      as [-> ->].
    rewrite andThen_events.
    destruct (fetchOrderJson_events w) as (Hm & _ & Hr).
    destruct (Sys.setting w "ORDER_URL") as [url|] eqn:Hu.
    - destruct (fetchOrderJson_shape w url Hu)
        as (pre & headers & Hpre & _ & E).
      rewrite E in *. cbn [fst snd] in *.
      assert (Hone : List.length
                       (requests (pre ++ [Sys.Requested url headers]))
                     = 1%nat)
        by (destruct Hpre as [->|[line ->]]; reflexivity).
      destruct (match Sys.fetch w url headers with
                | inl e => _ | inr res => _ end) as [p|e].
      + destruct (Hk p) as [Hkr Hkm].
        rewrite requests_app, mails_app, Hkr, Hm, app_nil_r. cbn [app].
        conjuncts; [lia | exact Hkm | right; exact Hone].
      + rewrite Hm. conjuncts; [lia | cbn; lia | now left].
    - unfold ScriptIO.fetchOrderJson. rewrite Hu. cbn.
      conjuncts; [lia | lia | now left]. }
  assert (K : forall (sent : value -> string) waiting
                     (d : value -> result Script.decision) p,
             requests (fst (performed w (sent p) waiting (d p))) = [] /\
             (List.length (mails (fst (performed w (sent p) waiting (d p))))
              <= 1)%nat).
  { intros sent waiting d p.
    destruct (performed_events w (sent p) waiting (d p)) as (-> & _ & ->).
    split; [reflexivity|].
    destruct (d p) as [[subject text|]|]; cbn; try lia.
    destruct (outgoing w subject text); cbn; lia. }
  unfold HourlyRun.entry, ThreeHourlyRun.entry.
  rewrite hourly_run_performed, three_hourly_run_performed.
  pose proof (G _ (K (fun payload =>
                        if truthy (get (or (get payload "data") payload)
                                     "vehicleVin")
                        then "[通知] 已发送 VIN 生成邮件。"
                        else "[提醒] 已发送周期性订单摘要邮件（每第3次）。")
                     "[提醒] 暂未生成VIN，本次不发送邮件（等待第3次）"
                     (Hourly.main (ScriptIO.surroundings_of w)))) as H1.
  pose proof (G _ (K (fun payload =>
                        if truthy (get (or (get payload "data") payload)
                                     "vehicleVin")
                        then "[通知] 已发送 VIN 生成邮件。"
                        else "[提醒] 已发送周期性订单摘要邮件。")
                     "[提醒] 暂未生成VIN，本次不发送邮件"
                     (ThreeHourly.main (ScriptIO.surroundings_of w)))) as H2.
  cbv beta in H1, H2.
  destruct H1 as (A1 & A2 & A3), H2 as (B1 & B2 & B3).
  conjuncts; assumption.
Qed.

Lemma run_mails (w : Sys.world) (sent : value -> string) (waiting : string)
  (d : value -> result Script.decision) (payload : value) :
  snd (ScriptIO.fetchOrderJson w) = Sys.Returned payload ->
  mails (ScriptIO.guarded
           (p <~ ScriptIO.fetchOrderJson w ;;
            performed w (sent p) waiting (d p)))
  = match d payload with
    | Ok (Script.Send subject text) =>
        match outgoing w subject text with
        | Some m => [m]
        | None => []
        end
    | _ => []
    end.
Proof.
  intros H.
  destruct (guarded_mails
              (p <~ ScriptIO.fetchOrderJson w ;;
               performed w (sent p) waiting (d p))) as [-> _].
  rewrite andThen_events, H, mails_app.
  destruct (fetchOrderJson_events w) as (-> & _).
  destruct (performed_events w (sent payload) waiting (d payload))
    as (_ & _ & ->).
  reflexivity.
Qed.

(** X14. Once the order has been fetched, the mails of a run are those of
    its decision: a run that decides to stay silent, or that throws on the
    way to its decision, sends nothing; a run that decides to send sends
    exactly one mail with the decided subject and body, from [MAIL_FROM] to
    [MAIL_TO] (or the built-in address) through the transporter of the
    environment, and sends nothing when no transporter can be made or
    [MAIL_FROM] is not set. *)
Theorem run_mails_what_it_decides (w : Sys.world) (payload : value) :
  snd (ScriptIO.fetchOrderJson w) = Sys.Returned payload ->
  mails (HourlyRun.entry w)
  = match Hourly.main (ScriptIO.surroundings_of w) payload with
    | Ok (Script.Send subject text) =>
        match outgoing w subject text with
        | Some m => [m]
        | None => []
        end
    | _ => []
    end /\
  mails (ThreeHourlyRun.entry w)
  = match ThreeHourly.main (ScriptIO.surroundings_of w) payload with
    | Ok (Script.Send subject text) =>
        match outgoing w subject text with
        | Some m => [m]
        | None => []
        end
    | _ => []
    end.
Proof.
  intros H. unfold HourlyRun.entry, ThreeHourlyRun.entry.
  rewrite hourly_run_performed, three_hourly_run_performed.
  split.
  - apply (run_mails w
             (fun payload =>
                if truthy (get (or (get payload "data") payload) "vehicleVin")
                then "[通知] 已发送 VIN 生成邮件。"
                else "[提醒] 已发送周期性订单摘要邮件（每第3次）。")
             _ (Hourly.main (ScriptIO.surroundings_of w)) payload H).
  - apply (run_mails w
             (fun payload =>
                if truthy (get (or (get payload "data") payload) "vehicleVin")
                then "[通知] 已发送 VIN 生成邮件。"
                else "[提醒] 已发送周期性订单摘要邮件。")
             _ (ThreeHourly.main (ScriptIO.surroundings_of w)) payload H).
Qed.

Lemma run_mails_what_it_decides_witness :
  map (fun m => (Sys.from m, Sys.to m, Sys.subject m))
    (mails (HourlyRun.entry (world_with mail_settings 200 vin_body)))
  = [("robot@example", "1196270151@qq.com", "VIN生成通知：LSJA1234567890")].
Proof.
  rewrite (proj1 (run_mails_what_it_decides
                    (world_with mail_settings 200 vin_body)
                    (VObj [("data",
                            VObj [("vehicleVin", VStr "LSJA1234567890");
                                  ("orderNo", VStr "O123")])])
                    eq_refl)).
  reflexivity.
Defined.

(** X15. When [fetchOrderJson] throws -- [ORDER_URL] is not set, the request
    fails, the status is not 2xx, or the body is not JSON or is a falsy JSON
    value -- both scripts send no mail, print the error and exit with
    code 1; and without [ORDER_URL] they make no request at all. *)
Theorem failed_fetch_sends_nothing (w : Sys.world) (e : Sys.failure) :
  snd (ScriptIO.fetchOrderJson w) = Sys.Threw e ->
  HourlyRun.entry w = failed (fst (ScriptIO.fetchOrderJson w)) e /\
  ThreeHourlyRun.entry w = failed (fst (ScriptIO.fetchOrderJson w)) e /\
  mails (HourlyRun.entry w) = [] /\
  exits (HourlyRun.entry w) = [1] /\
  (Sys.setting w "ORDER_URL" = None ->
   HourlyRun.entry w
   = failed [] (Sys.Failure "缺少环境变量 ORDER_URL，无法请求订单数据")).
Proof.
  intros H.
  assert (E1 : HourlyRun.entry w
               = failed (fst (ScriptIO.fetchOrderJson w)) e).
  { unfold HourlyRun.entry, HourlyRun.main. rewrite run_events, H.
    reflexivity. }
  assert (E2 : ThreeHourlyRun.entry w
               = failed (fst (ScriptIO.fetchOrderJson w)) e).
  { unfold ThreeHourlyRun.entry, ThreeHourlyRun.main. rewrite run_events, H.
    reflexivity. }
  destruct (failed_events (fst (ScriptIO.fetchOrderJson w)) e)
    as (Hm & _ & Hx).
  destruct (fetchOrderJson_events w) as (Fm & Fx & _).
  conjuncts; trivial.
  - rewrite E1, Hm. exact Fm.
  - rewrite E1, Hx, Fx. reflexivity.
  - intros Hu. rewrite E1. revert H. unfold ScriptIO.fetchOrderJson.
    rewrite Hu. cbn. intros H. injection H as <-. reflexivity.
Qed.

Lemma failed_fetch_sends_nothing_witness :
  HourlyRun.entry (world_with mail_settings 503 "busy")
  = [Sys.Requested "https://orders.example/api"
       [("content-type", VStr "application/json"); ("token", VStr "t0ken")];
     Sys.Errored "[错误] 脚本执行失败：" (Sys.Failure "接口请求失败 503: busy");
     Sys.Exited 1].
Proof.
  rewrite (proj1 (failed_fetch_sends_nothing
                    (world_with mail_settings 503 "busy")
                    (Sys.Failure "接口请求失败 503: busy") eq_refl)).
  reflexivity.
Defined.

(** X16. What [fetchOrderJson] returns is a truthy JSON value: the parsed
    body of a 2xx answer to its one request, which went to [ORDER_URL]. *)
Theorem fetchOrderJson_returns_truthy_json (w : Sys.world) (v : value) :
  snd (ScriptIO.fetchOrderJson w) = Sys.Returned v ->
  truthy v = true /\
  exists url headers res,
    Sys.setting w "ORDER_URL" = Some url /\
    requests (fst (ScriptIO.fetchOrderJson w)) = [(url, headers)] /\
    Sys.fetch w url headers = inr res /\
    200 <= Sys.status res <= 299 /\
    Json.parse (Sys.body res) = Some v.
Proof.
  destruct (Sys.setting w "ORDER_URL") as [url|] eqn:Hu.
  - destruct (fetchOrderJson_shape w url Hu)
      as (pre & headers & Hpre & _ & ->).
    cbn [fst snd].
    destruct (Sys.fetch w url headers) as [e|res] eqn:Hf; [discriminate|].
    destruct (Sys.ok res) eqn:Hok; [|discriminate].
    destruct (Json.parse (Sys.body res)) as [j|] eqn:Hj; [|discriminate].
    destruct (truthy j) eqn:Ht; [|discriminate].
    intros H. injection H as <-. split; [exact Ht|].
    exists url, headers, res.
    split; [reflexivity|].
    split; [destruct Hpre as [->|[line ->]]; reflexivity|].
    split; [exact Hf|]. split; [|exact Hj].
    unfold Sys.ok in Hok. apply Bool.andb_true_iff in Hok. lia.
  - unfold ScriptIO.fetchOrderJson. rewrite Hu. discriminate.
Qed.

Lemma fetchOrderJson_returns_truthy_json_witness :
  truthy (VObj [("data", VObj [("vehicleVin", VStr "LSJA1234567890");
                               ("orderNo", VStr "O123")])]) = true /\
  exists url headers res,
    Sys.setting (world_with mail_settings 200 vin_body) "ORDER_URL"
    = Some url /\
    requests (fst (ScriptIO.fetchOrderJson
                     (world_with mail_settings 200 vin_body)))
    = [(url, headers)] /\
    Sys.fetch (world_with mail_settings 200 vin_body) url headers
    = inr res /\
    200 <= Sys.status res <= 299 /\
    Json.parse (Sys.body res)
    = Some (VObj [("data", VObj [("vehicleVin", VStr "LSJA1234567890");
                                 ("orderNo", VStr "O123")])]).
Proof.
  exact (fetchOrderJson_returns_truthy_json
           (world_with mail_settings 200 vin_body) _ eq_refl).
Defined.

(** X17. A 2xx answer whose body is a falsy JSON value ([null], [false],
    [0], the empty string) is an error to the mail scripts ("返回非JSON或
    解析失败") and a payload to [fetchOrderInfo] of src/lib/order.ts, which
    returns the value. *)
Theorem falsy_json_body (syntaxError : string -> string) (w : Sys.world)
  (url : string) (res : Sys.reply) (v : value) :
  Sys.setting w "ORDER_URL" = Some url ->
  (forall headers, Sys.fetch w url headers = inr res) ->
  Sys.ok res = true ->
  Json.parse (Sys.body res) = Some v ->
  truthy v = false ->
  snd (ScriptIO.fetchOrderJson w)
  = Sys.Threw (Sys.Failure "返回非JSON或解析失败") /\
  snd (Lib.fetchOrderInfo syntaxError w) = Sys.Returned v.
Proof.
  intros Hu Hf Hok Hj Ht. split.
  - destruct (fetchOrderJson_shape w url Hu) as (pre & headers & _ & _ & ->).
    cbn [snd]. rewrite Hf, Hok, Hj, Ht. reflexivity.
  - unfold Lib.fetchOrderInfo. rewrite Hu, andThen_outcome. cbn [snd Sys.emit].
    rewrite Hf, Hok, Hj. reflexivity.
Qed.

Lemma falsy_json_body_witness :
  snd (ScriptIO.fetchOrderJson (world_with mail_settings 200 "null"))
  = Sys.Threw (Sys.Failure "返回非JSON或解析失败") /\
  snd (Lib.fetchOrderInfo (fun _ => "Unexpected token")
         (world_with mail_settings 200 "null"))
  = Sys.Returned VNull.
Proof.
  apply (falsy_json_body (fun _ => "Unexpected token")
           (world_with mail_settings 200 "null")
           "https://orders.example/api"
           {| Sys.status := 200; Sys.body := "null" |} VNull);
    reflexivity.
Defined.

(** A run that has fetched the order and decided to send. *)
Lemma run_sending (w : Sys.world) (sent : value -> string)
  (waiting : string) (d : value -> result Script.decision)
  (payload : value) (subject text : string) :
  snd (ScriptIO.fetchOrderJson w) = Sys.Returned payload ->
  d payload = Ok (Script.Send subject text) ->
  ScriptIO.guarded
    (p <~ ScriptIO.fetchOrderJson w ;; performed w (sent p) waiting (d p))
  = match outgoing w subject text with
    | None =>
        (fst (ScriptIO.fetchOrderJson w) ++
         [Sys.Logged "[提示] SMTP/发件人未配置，跳过发送邮件。";
          Sys.Logged (sent payload)])%list
    | Some m =>
        match Sys.sendMail w m with
        | None =>
            (fst (ScriptIO.fetchOrderJson w) ++
             [Sys.Mailed m; Sys.Logged (sent payload)])%list
        | Some e => failed (fst (ScriptIO.fetchOrderJson w) ++ [Sys.Mailed m]) e
        end
    end.
Proof.
  intros H Hd. rewrite run_events, H, Hd. cbn [performed].
  rewrite andThen_events, andThen_outcome, sendEmail_shape.
  destruct (outgoing w subject text) as [m|]; cbn [fst snd];
    [|reflexivity].
  destruct (Sys.sendMail w m); reflexivity.
Qed.

(** X18. A run that has decided to send while no transporter can be made
    or [MAIL_FROM] is not set sends nothing and ends without an exit code,
    and after the line that says the mail is skipped it still prints the
    line that says the mail has been sent. *)
Theorem unconfigured_mail_is_reported_sent (w : Sys.world)
  (payload : value) :
  snd (ScriptIO.fetchOrderJson w) = Sys.Returned payload ->
  ScriptIO.createTransporter w = None \/ Sys.setting w "MAIL_FROM" = None ->
  (forall subject text,
     Hourly.main (ScriptIO.surroundings_of w) payload
     = Ok (Script.Send subject text) ->
     HourlyRun.entry w
     = (fst (ScriptIO.fetchOrderJson w) ++
        [Sys.Logged "[提示] SMTP/发件人未配置，跳过发送邮件。";
         Sys.Logged
           (if truthy (get (or (get payload "data") payload) "vehicleVin")
            then "[通知] 已发送 VIN 生成邮件。"
            else "[提醒] 已发送周期性订单摘要邮件（每第3次）。")])%list /\
     mails (HourlyRun.entry w) = [] /\ exits (HourlyRun.entry w) = []) /\
  (forall subject text,
     ThreeHourly.main (ScriptIO.surroundings_of w) payload
     = Ok (Script.Send subject text) ->
     ThreeHourlyRun.entry w
     = (fst (ScriptIO.fetchOrderJson w) ++
        [Sys.Logged "[提示] SMTP/发件人未配置，跳过发送邮件。";
         Sys.Logged
           (if truthy (get (or (get payload "data") payload) "vehicleVin")
            then "[通知] 已发送 VIN 生成邮件。"
            else "[提醒] 已发送周期性订单摘要邮件。")])%list /\
     mails (ThreeHourlyRun.entry w) = [] /\
     exits (ThreeHourlyRun.entry w) = []).
Proof.
  intros H Hc.
  assert (Ho : forall subject text, outgoing w subject text = None).
  { intros subject text. unfold outgoing.
    destruct Hc as [-> | ->]; [reflexivity|].
    destruct (ScriptIO.createTransporter w); reflexivity. }
  destruct (fetchOrderJson_events w) as (Fm & Fx & _).
  split; intros subject text Hd.
  - assert (E : HourlyRun.entry w
                = (fst (ScriptIO.fetchOrderJson w) ++
                   [Sys.Logged "[提示] SMTP/发件人未配置，跳过发送邮件。";
                    Sys.Logged
                      (if truthy (get (or (get payload "data") payload)
                                    "vehicleVin")
                       then "[通知] 已发送 VIN 生成邮件。"
                       else "[提醒] 已发送周期性订单摘要邮件（每第3次）。")])%list).
    { unfold HourlyRun.entry. rewrite hourly_run_performed.
      rewrite (run_sending w
                 (fun payload =>
                    if truthy (get (or (get payload "data") payload)
                                 "vehicleVin")
                    then "[通知] 已发送 VIN 生成邮件。"
                    else "[提醒] 已发送周期性订单摘要邮件（每第3次）。")
                 _ (Hourly.main (ScriptIO.surroundings_of w))
                 payload subject text H Hd).
      rewrite Ho. reflexivity. }
    rewrite E, mails_app, exits_app, Fm, Fx. auto.
  - assert (E : ThreeHourlyRun.entry w
                = (fst (ScriptIO.fetchOrderJson w) ++
                   [Sys.Logged "[提示] SMTP/发件人未配置，跳过发送邮件。";
                    Sys.Logged
                      (if truthy (get (or (get payload "data") payload)
                                    "vehicleVin")
                       then "[通知] 已发送 VIN 生成邮件。"
                       else "[提醒] 已发送周期性订单摘要邮件。")])%list).
    { unfold ThreeHourlyRun.entry. rewrite three_hourly_run_performed.
      rewrite (run_sending w
                 (fun payload =>
                    if truthy (get (or (get payload "data") payload)
                                 "vehicleVin")
                    then "[通知] 已发送 VIN 生成邮件。"
                    else "[提醒] 已发送周期性订单摘要邮件。")
                 _ (ThreeHourly.main (ScriptIO.surroundings_of w))
                 payload subject text H Hd).
      rewrite Ho. reflexivity. }
    rewrite E, mails_app, exits_app, Fm, Fx. auto.
Qed.

Lemma unconfigured_mail_is_reported_sent_witness :
  HourlyRun.entry
    (world_with [("ORDER_URL", "https://orders.example/api")] 200 vin_body)
  = [Sys.Requested "https://orders.example/api"
       [("content-type", VStr "application/json")];
     Sys.Logged "[提示] SMTP/发件人未配置，跳过发送邮件。";
     Sys.Logged "[通知] 已发送 VIN 生成邮件。"].
Proof.
  refine (eq_trans
            (proj1 (proj1 (unconfigured_mail_is_reported_sent
                             (world_with
                                [("ORDER_URL", "https://orders.example/api")]
                                200 vin_body)
                             (VObj [("data",
                                     VObj [("vehicleVin",
                                            VStr "LSJA1234567890");
                                           ("orderNo", VStr "O123")])])
                             eq_refl (or_introl eq_refl))
                      _ _ eq_refl)) _).
  reflexivity.
Defined.

(** X19. A run that has decided to send and has a transporter and
    [MAIL_FROM] hands over its one mail; when the transport accepts it the
    run prints the line that says so and ends without an exit code, when the
    transport rejects it the run prints the error instead and exits with
    code 1. *)
Theorem rejected_mail_fails_the_run (w : Sys.world) (payload : value)
  (subject text : string) (m : Sys.mail) :
  snd (ScriptIO.fetchOrderJson w) = Sys.Returned payload ->
  Hourly.main (ScriptIO.surroundings_of w) payload
  = Ok (Script.Send subject text) ->
  outgoing w subject text = Some m ->
  HourlyRun.entry w
  = match Sys.sendMail w m with
    | None =>
        (fst (ScriptIO.fetchOrderJson w) ++
         [Sys.Mailed m;
          Sys.Logged
            (if truthy (get (or (get payload "data") payload) "vehicleVin")
             then "[通知] 已发送 VIN 生成邮件。"
             else "[提醒] 已发送周期性订单摘要邮件（每第3次）。")])%list
    | Some e => failed (fst (ScriptIO.fetchOrderJson w) ++ [Sys.Mailed m]) e
    end /\
  exits (HourlyRun.entry w)
  = match Sys.sendMail w m with None => [] | Some _ => [1] end.
Proof.
  intros H Hd Ho.
  assert (E : HourlyRun.entry w
              = match Sys.sendMail w m with
                | None =>
                    (fst (ScriptIO.fetchOrderJson w) ++
                     [Sys.Mailed m;
                      Sys.Logged
                        (if truthy (get (or (get payload "data") payload)
                                      "vehicleVin")
                         then "[通知] 已发送 VIN 生成邮件。"
                         else "[提醒] 已发送周期性订单摘要邮件（每第3次）。")])%list
                | Some e =>
                    failed (fst (ScriptIO.fetchOrderJson w) ++ [Sys.Mailed m])
                      e
                end).
  { unfold HourlyRun.entry. rewrite hourly_run_performed.
    rewrite (run_sending w
               (fun payload =>
                  if truthy (get (or (get payload "data") payload)
                               "vehicleVin")
                  then "[通知] 已发送 VIN 生成邮件。"
                  else "[提醒] 已发送周期性订单摘要邮件（每第3次）。")
               _ (Hourly.main (ScriptIO.surroundings_of w))
               payload subject text H Hd).
    rewrite Ho. reflexivity. }
  split; [exact E|]. rewrite E.
  destruct (fetchOrderJson_events w) as (_ & Fx & _).
  destruct (Sys.sendMail w m) as [e|].
  - destruct (failed_events
                (fst (ScriptIO.fetchOrderJson w) ++ [Sys.Mailed m]) e)
      as (_ & _ & ->).
    rewrite exits_app, Fx. reflexivity.
  - rewrite exits_app, Fx. reflexivity.
Qed.

Lemma rejected_mail_fails_the_run_witness :
  exits (HourlyRun.entry
           (rejecting (world_with mail_settings 200 vin_body)
              (Sys.Failure "535 authentication failed"))) = [1] /\
  exits (HourlyRun.entry (world_with mail_settings 200 vin_body)) = [].
Proof.
  split.
  - refine (eq_trans
              (proj2 (rejected_mail_fails_the_run
                        (rejecting (world_with mail_settings 200 vin_body)
                           (Sys.Failure "535 authentication failed"))
                        (VObj [("data",
                                VObj [("vehicleVin", VStr "LSJA1234567890");
                                      ("orderNo", VStr "O123")])])
                        _ _ _ eq_refl eq_refl eq_refl)) _).
    reflexivity.
  - refine (eq_trans
              (proj2 (rejected_mail_fails_the_run
                        (world_with mail_settings 200 vin_body)
                        (VObj [("data",
                                VObj [("vehicleVin", VStr "LSJA1234567890");
                                      ("orderNo", VStr "O123")])])
                        _ _ _ eq_refl eq_refl eq_refl)) _).
    reflexivity.
Defined.

(** ** The page and the route, from the request on *)

Lemma or_truthy (a b : value) : truthy b = true -> truthy (or a b) = true.
Proof. intros H. unfold or. destruct (truthy a) eqn:E; assumption. Qed.

Lemma page_formatCurrency_not_empty (amount : value) (p : string) :
  Page.formatCurrency amount = Ok p -> truthy (VStr p) = true.
Proof.
  unfold Page.formatCurrency.
  destruct (is_null amount || is_undefined amount).
  - intros H. ok_inv H. subst p. reflexivity.
  - intros H. bind_inv H as t Ht. ok_inv H. subst p. reflexivity.
Qed.

Lemma page_summary_labels (now : string) (data : value)
  (entries : list (string * value)) :
  Page.buildOrderSummary now data = Ok entries ->
  map fst entries = page_labels.
Proof.
  unfold Page.buildOrderSummary. intros H.
  bind_inv H as provinceCity H1. bind_inv H as exterior H2.
  bind_inv H as interior H3. bind_inv H as price H4.
  bind_inv H as configurationPrice H5. ok_inv H. subst entries.
  reflexivity.
Qed.

(** X20. The summary of the page has the seventeen labels of the page in
    their order, and no value after the request time is empty: each is a
    truthy value of the record or a non-empty text. *)
Theorem page_entries_are_labelled_and_filled (now : string) (data : value)
  (entries : list (string * value)) :
  Page.buildOrderSummary now data = Ok entries ->
  map fst entries = page_labels /\
  Forall (fun kv => truthy (snd kv) = true) (tl entries).
Proof.
  unfold Page.buildOrderSummary. intros H.
  bind_inv H as provinceCity H1. bind_inv H as exterior H2.
  bind_inv H as interior H3. bind_inv H as price H4.
  bind_inv H as configurationPrice H5. ok_inv H. subst entries.
  split; [reflexivity|].
  cbn [tl].
  repeat apply Forall_cons; try apply Forall_nil; cbn [snd];
    try (apply or_truthy; reflexivity);
    try (eapply page_formatCurrency_not_empty; eassumption).
  destruct exterior; reflexivity.
Qed.

Lemma page_entries_are_labelled_and_filled_witness :
  exists entries,
    Page.buildOrderSummary "2025/1/1 10:00:00" typical_record = Ok entries /\
    map fst entries = page_labels /\
    Forall (fun kv => truthy (snd kv) = true) (tl entries).
Proof.
  eexists. split; [vm_compute; reflexivity|].
  apply (page_entries_are_labelled_and_filled "2025/1/1 10:00:00"
           typical_record).
  vm_compute. reflexivity.
Defined.

Lemma error_text_not_empty (message : string) :
  Route.error_text message <> "".
Proof.
  unfold Route.error_text.
  destruct (String.eqb_spec message ""); [discriminate | assumption].
Qed.

(** X21. What the page shows: an error box only when [fetchOrderInfo] has
    thrown, with a text that is not empty, and then neither a picture nor a
    summary but the line for no data; a summary only when the fetched value
    has a truthy [data] field, of which it is the summary, with the labels
    of the page. *)
Theorem home_shows_error_or_summary (syntaxError : string -> string)
  (w : Sys.world) (v : Lib.view) :
  snd (Lib.Home syntaxError w) = Ok v ->
  (forall text,
     Lib.errorBox v = Some text ->
     text <> "" /\ Lib.content v = Lib.NoData /\ Lib.image v = None /\
     exists e,
       snd (Lib.fetchOrderInfo syntaxError w) = Sys.Threw e /\
       text = Route.error_text (Sys.message e)) /\
  (forall entries,
     Lib.content v = Lib.Summary entries ->
     map fst entries = page_labels /\
     exists payload,
       snd (Lib.fetchOrderInfo syntaxError w) = Sys.Returned payload /\
       truthy (get payload "data") = true /\
       Page.buildOrderSummary (Sys.now w) (get payload "data")
       = Ok entries).
Proof.
  unfold Lib.Home.
  destruct (Lib.fetchOrderInfo syntaxError w) as [l [payload|e]];
    cbn [snd].
  - destruct (truthy (coalesce (get payload "data") VNull)) eqn:Ht.
    + cbn [snd]. intros H. bind_inv H as entries He. ok_inv H. subst v.
      cbn [Lib.errorBox Lib.content]. split; [discriminate|].
      intros entries' E. injection E as <-.
      assert (Hd : coalesce (get payload "data") VNull = get payload "data")
        by (revert Ht; destruct (get payload "data"); trivial; discriminate).
      rewrite Hd in *.
      split; [apply (page_summary_labels _ _ _ He)|].
      exists payload. auto.
    + cbn [snd]. intros H. ok_inv H. subst v.
      cbn [Lib.errorBox Lib.content]. split; discriminate.
  - change (coalesce (get VNull "data") VNull) with VNull.
    cbn [truthy snd get]. intros H. ok_inv H. subst v.
    cbn [Lib.errorBox Lib.content Lib.image].
    split; [|discriminate].
    intros text E. injection E as <-.
    split; [apply error_text_not_empty|].
    split; [reflexivity|]. split; [reflexivity|].
    exists e. auto.
Qed.

Lemma home_shows_error_or_summary_witness :
  exists v entries,
    snd (Lib.Home (fun _ => "Unexpected token")
           (world_with mail_settings 200 vin_body)) = Ok v /\
    Lib.content v = Lib.Summary entries /\
    map fst entries = page_labels.
Proof.
  eexists. eexists. split; [vm_compute; reflexivity|].
  split; [reflexivity|].
  apply (proj2 (home_shows_error_or_summary (fun _ => "Unexpected token")
                  (world_with mail_settings 200 vin_body) _
                  ltac:(vm_compute; reflexivity)) _ eq_refl).
Defined.



(** X23. An answer with a status outside 200..299 reaches the caller of the
    route as a 500 with the text "请求失败，状态码：" and the status, and the
    reader of the page as an error box with the same text above the line for
    no data; the body of the answer is not read. *)
Theorem bad_status_reaches_route_and_page (syntaxError : string -> string)
  (w : Sys.world) (url : string) (res : Sys.reply) :
  Sys.setting w "ORDER_URL" = Some url ->
  (forall headers, Sys.fetch w url headers = inr res) ->
  Sys.ok res = false ->
  Lib.GET syntaxError w
  = ([Sys.Requested url (Lib.requestHeaders w)],
     Route.Json500
       ("请求失败，状态码：" ++ Num.to_string (Num.of_Z (Sys.status res)))) /\
  Lib.Home syntaxError w
  = ([Sys.Requested url (Lib.requestHeaders w)],
     Ok {| Lib.image := None;
           Lib.errorBox :=
             Some ("请求失败，状态码：" ++
                   Num.to_string (Num.of_Z (Sys.status res)));
           Lib.content := Lib.NoData |}).
Proof.
  intros Hu Hf Hok.
  assert (E : Lib.fetchOrderInfo syntaxError w
              = ([Sys.Requested url (Lib.requestHeaders w)],
                 Sys.Threw
                   (Sys.Failure ("请求失败，状态码：" ++
                                 Num.to_string
                                   (Num.of_Z (Sys.status res)))))).
  { unfold Lib.fetchOrderInfo. rewrite Hu, Hf, Hok. reflexivity. }
  unfold Lib.GET, Lib.Home. rewrite E. split; reflexivity.
Qed.

Lemma bad_status_reaches_route_and_page_witness :
  snd (Lib.GET (fun _ => "Unexpected token")
         (world_with mail_settings 404 "not found"))
  = Route.Json500 "请求失败，状态码：404".
Proof.
  rewrite (proj1 (bad_status_reaches_route_and_page
                    (fun _ => "Unexpected token")
                    (world_with mail_settings 404 "not found")
                    "https://orders.example/api"
                    {| Sys.status := 404; Sys.body := "not found" |}
                    eq_refl (fun _ => eq_refl) eq_refl)).
  reflexivity.
Defined.
